(** * RR Rural Fermentation backend: the telemetry ingestion pipeline

    A shallow embedding of the backend server (backend/server.js): the payload
    normaliser, the validator, the capture-session controller, the alert
    evaluator, the WebSocket broadcaster and the periodic CSV window exporter,
    with the endpoints that report on them or call them (initial state,
    capture status and sessions, alert and station configuration, assays),
    followed by the properties established about them.

    Conventions of the embedding.
    - A parsed message is a [json] value; [undefined] is the [None] of
      [option json].  Objects produced by [JSON.parse] never hold a property
      whose value is [undefined], so an object is a finite map from property
      names to [json] values and reading an absent property gives [None].
    - A JavaScript number is the rational it denotes ([Qc], canonical
      rationals, so that numeric equality is Leibniz equality); [NaN] is the
      [None] of [option Qc].  The comparisons [<] and [>] on numbers are then
      exact.  Infinities, which only out-of-range literals produce, are not
      represented.
    - The module-level variables of the server and the SQLite tables form one
      record [World]; every function that touches them is a state transformer
      that may also raise a [TypeError] ([Throw]).
    - sqlite3 statements take effect on the database at the point of the
      call, in program order, and the store is available: the only statement
      that fails is an [INSERT] that violates [UNIQUE(msg_id)].  A
      completion callback that only logs is not represented.
    - The completion callback of the [INSERT] of [openCaptureSession], which
      assigns [currentCaptureSessionId], runs later, as an event of its own
      ([Inserted]); the callbacks run in the order of their statements.
    - The completion callback of the [INSERT] of [saveAlert] is run at the
      point of the call.  No message handler reads what it assigns (the id
      of the saved alert and the in-memory history); in the program the
      [new_alert] that it broadcasts leaves the server later, after
      whatever the server sends before the statement completes.  The trace
      [ws_out] lists each such [new_alert] at the place of its call; the
      tables and the messages sent of each type do not depend on this, and
      what is stated about the messages sent is stated through the
      projections [telemetry_events] and [new_alert_events].
    - Clock readings ([new Date().toISOString()]) are inputs of the
      operations that use them. *)

From Stdlib Require Import QArith Qcanon Ascii String Sorted.
From stdpp Require Import base numbers gmap strings list pretty.

Set Warnings "-register-all".

(** ** JavaScript values *)

Inductive json : Type :=
| JNull
| JBool (b : bool)
| JNum (q : Qc)
| JStr (s : string)
| JArr (l : list json)
| JObj (m : gmap string json).

Module Js.

(** [typeof v] *)
Definition typeof (v : json) : string :=
  match v with
  | JNull | JArr _ | JObj _ => "object"
  | JBool _ => "boolean"
  | JNum _ => "number"
  | JStr _ => "string"
  end.

(** ToBoolean: [null], [false], [0] and the empty string are falsy. *)
Definition truthy (v : json) : bool :=
  match v with
  | JNull => false
  | JBool b => b
  | JNum q => negb (bool_decide (q = 0%Qc))
  | JStr s => negb (bool_decide (s = EmptyString))
  | JArr _ | JObj _ => true
  end.

Definition truthy_opt (v : option json) : bool :=
  match v with
  | None => false
  | Some x => truthy x
  end.

(** [a || b] *)
Definition or (a b : option json) : option json :=
  if truthy_opt a then a else b.

(** [v === undefined || v === null] *)
Definition nullish (v : option json) : bool :=
  match v with
  | None | Some JNull => true
  | Some _ => false
  end.

(** [{ ...v }] for an object-typed value: the own enumerable properties.
    An array contributes its elements under their decimal indices. *)
Definition spread (v : json) : gmap string json :=
  match v with
  | JObj m => m
  | JArr l => list_to_map (imap (fun i x => (pretty i, x)) l)
  | _ => ∅
  end.

(** [v === 'lit'] for a string literal *)
Definition str_eq (v : option json) (lit : string) : bool :=
  match v with
  | Some (JStr s) => bool_decide (s = lit)
  | _ => false
  end.

(** [hay.includes(needle)] *)
Fixpoint includes (needle hay : string) : bool :=
  if String.prefix needle hay then true
  else match hay with
       | EmptyString => false
       | String _ rest => includes needle rest
       end.

(** [s.split('/')[0]] *)
Fixpoint first_segment (s : string) : string :=
  match s with
  | EmptyString => EmptyString
  | String c rest =>
      if Ascii.eqb c "/"%char then EmptyString else String c (first_segment rest)
  end.

(** [s.replace(/[:]/g, '-')] *)
Fixpoint replace_colons (s : string) : string :=
  match s with
  | EmptyString => EmptyString
  | String c rest =>
      String (if Ascii.eqb c ":"%char then "-"%char else c) (replace_colons rest)
  end.

End Js.

(** ** Payload normalisation (Reading Codec) *)

(** The canonical property names that [normalizeTelemetryPayload] fills. *)
Definition canonical_keys : list string :=
  ["T_C"; "ts"; "accum_bar_per_h"; "P_bar_std"; "relief_count"; "event"].

(** [if (o[k] === undefined && v !== undefined) o[k] = v;] *)
Definition set_if_undefined (k : string) (v : option json)
    (o : gmap string json) : gmap string json :=
  match o !! k, v with
  | None, Some x => <[k := x]> o
  | _, _ => o
  end.

(** [normalizeTelemetryPayload(payload)].  [normalized] is the shallow copy
    that the function mutates; each [let] is one statement of the source. *)
Definition normalizeTelemetryPayload (payload : json) : json :=
  if negb (Js.truthy payload) || negb (bool_decide (Js.typeof payload = "object"))
  then payload
  else
    let normalized := Js.spread payload in
    (* Temperatura pode vir como 'T_C', 'C', '°C' *)
    let normalized :=
      match normalized !! "T_C" with
      | None =>
          match normalized !! "C" with
          | Some c => <["T_C" := c]> normalized
          | None =>
              match normalized !! "°C" with
              | Some c => <["T_C" := c]> normalized
              | None => normalized
              end
          end
      | Some _ => normalized
      end in
    (* Timestamp pode vir como 'timestamp' *)
    let normalized :=
      set_if_undefined "ts" (normalized !! "timestamp") normalized in
    (* Taxa de acumulação: 'accum_bar_per_hr' -> 'accum_bar_per_h' *)
    let normalized :=
      set_if_undefined "accum_bar_per_h" (normalized !! "accum_bar_per_hr") normalized in
    (* Padrões para campos opcionais *)
    let normalized :=
      set_if_undefined "P_bar_std" (normalized !! "P_bar_abs") normalized in
    let normalized :=
      set_if_undefined "relief_count" (Some (JNum 0%Qc)) normalized in
    let normalized :=
      set_if_undefined "event" (Some JNull) normalized in
    JObj normalized.

(** The temperature statement of [normalizeTelemetryPayload] is one more
    conditional assignment, whose source value is the first defined alias. *)
Definition T_C_alias (o : gmap string json) : option json :=
  match o !! "C" with
  | Some c => Some c
  | None => o !! "°C"
  end.

(** The six statements of [normalizeTelemetryPayload] on the copied object,
    each written as a conditional assignment (see [normalize_spread]). *)
Definition normalized_fields (o : gmap string json) : gmap string json :=
  let o := set_if_undefined "T_C" (T_C_alias o) o in
  let o := set_if_undefined "ts" (o !! "timestamp") o in
  let o := set_if_undefined "accum_bar_per_h" (o !! "accum_bar_per_hr") o in
  let o := set_if_undefined "P_bar_std" (o !! "P_bar_abs") o in
  let o := set_if_undefined "relief_count" (Some (JNum 0%Qc)) o in
  set_if_undefined "event" (Some JNull) o.

(** ** Runtime coercions

    The conversions that the JavaScript runtime and SQLite apply to values
    outside the message contract are parameters of the development: the
    numeric value of a string ([None] is [NaN]), the string that an array or
    an object converts to, the text that SQLite stores for a bound value
    that is not a string, and whether two bound values that are not both
    numbers are the same value of a column of INTEGER affinity. *)
Record Runtime : Type := {
  StringToNumber : string -> option Qc;
  ToPrimitive : json -> string;
  sqlite_text : json -> string;
  sqlite_same_integer : json -> json -> bool
}.

(** A runtime for evaluating the definitions on inputs that never reach the
    coercions: no string is numeric, every conversion is the empty text, and
    values that are not both numbers are never the same integer. *)
Definition rt0 : Runtime :=
  {| StringToNumber := fun _ => None;
     ToPrimitive := fun _ => EmptyString;
     sqlite_text := fun _ => EmptyString;
     sqlite_same_integer := fun _ _ => false |}.

(** ** Configuration

    The thresholds are numbers, as the settings page sends them and the REAL
    columns of [alert_config] store them; [None] is [null] or [undefined],
    for which the readers of the configuration fall back on the constants. *)

Record TemperatureRange : Type := {
  range_min : option Qc;
  range_max : option Qc
}.

Record AlertConfig : Type := {
  pressureReliefThreshold : option Qc;
  pressureWarningThreshold : option Qc;
  temperatureRange : option TemperatureRange
}.

Definition RELIEF_THRESHOLD : Qc := Q2Qc (3 # 2).
Definition MAX_PRESSURE : Qc := Q2Qc (2 # 1).
Definition TEMPERATURE_RANGE_min : Qc := Q2Qc (30 # 1).
Definition TEMPERATURE_RANGE_max : Qc := Q2Qc (45 # 1).

(** The initial value of the module variable [alertConfig]. *)
Definition alertConfig0 : AlertConfig :=
  {| pressureReliefThreshold := Some (Q2Qc (3 # 2));
     pressureWarningThreshold := Some (Q2Qc (5 # 2));
     temperatureRange :=
       Some {| range_min := Some (Q2Qc (30 # 1)); range_max := Some (Q2Qc (45 # 1)) |} |}.

(** [alertConfig.pressureReliefThreshold ?? RELIEF_THRESHOLD] *)
Definition relief_threshold (cfg : AlertConfig) : Qc :=
  default RELIEF_THRESHOLD (pressureReliefThreshold cfg).

(** [alertConfig.temperatureRange?.min ?? TEMPERATURE_RANGE.min] *)
Definition temperature_min (cfg : AlertConfig) : Qc :=
  default TEMPERATURE_RANGE_min (temperatureRange cfg ≫= range_min).

(** [alertConfig.temperatureRange?.max ?? TEMPERATURE_RANGE.max] *)
Definition temperature_max (cfg : AlertConfig) : Qc :=
  default TEMPERATURE_RANGE_max (temperatureRange cfg ≫= range_max).

(** ** Tables, events and the state of the server *)

(** A row of [telemetry].  [msg_id] and [timestamp] are TEXT columns and hold
    the stored text ([None] is NULL); the other columns keep the bound value. *)
Record TelemetryRow : Type := {
  row_msg_id : option string;
  row_assay_id : option json;
  row_flask_id : option json;
  row_timestamp : option string;
  row_pressure_abs : option json;
  row_temperature : option json;
  row_pressure_std : option json;
  row_production_rate : option json;
  row_relief_count : option json;
  row_event : option json
}.

(** The message of an alert: the template and the value it interpolates. *)
Inductive AlertMessage : Type :=
| MsgHighPressure (toFixed2 : Qc)      (* `Pressão alta: ${P.toFixed(2)} bar` *)
| MsgTemperatureExtreme (t : option json) (* `Temperatura extrema: ${T_C}°C` *)
| MsgPressureRelief                     (* `Alívio de pressão ativado` *)
| MsgPressureDetected (toFixed2 : Qc). (* `Pressão alta detectada: ${P.toFixed(2)} bar` *)

Record Alert : Type := {
  alert_flask_id : option json;
  alert_type : string;
  alert_message : AlertMessage;
  alert_severity : string;
  alert_acknowledged : option bool;
  alert_created_at : option string
}.

(** A row of [alerts]: the AUTOINCREMENT id and the four inserted columns. *)
Record AlertRow : Type := {
  arow_id : nat;
  arow_flask_id : option json;
  arow_type : string;
  arow_message : AlertMessage;
  arow_severity : string
}.

(** A row of [capture_sessions]. *)
Record SessionRow : Type := {
  session_id : nat;
  session_status : string;
  session_started_at : string;
  session_stopped_at : option string;
  session_trigger : option string;
  session_assay_id : option string
}.

(** A row of [flask_configs]: the values bound by the [INSERT OR REPLACE]
    of [processConfigUpdate]; its id and its dates are left out. *)
Record FlaskConfigRow : Type := {
  fc_flask_id : option json;
  fc_assay_id : option json;
  fc_relief_threshold : option json;
  fc_sampling_interval : option json
}.

(** A value of the [flaskStates] map. *)
Record FlaskState : Type := {
  fs_flask_id : option json;
  fs_assay_id : option json;
  last_pressure : option json;
  last_temperature : option json;
  last_timestamp : option json;
  fs_relief_count : option json;
  fs_status : string
}.

(** The argument of one [broadcastToWebSocket] call. *)
Inductive WsMessage : Type :=
| WsTelemetry (data : json)                    (* { type: 'telemetry', data } *)
| WsNewAlert (id : option nat) (alert : Alert) (* { type: 'new_alert', alert } *)
| WsSpeedControl (speed : json)
| WsPauseControl
| WsResumeControl.

(** One [mqttClient.publish]: the topic, with its interpolated values, and
    the payload. *)
Inductive MqttMessage : Type :=
| MqttAlert (ns : string) (assay_id flask_id : option json) (alert : Alert)
| MqttAck (ns : string) (assay_id flask_id msg_id : option json).

(** One file written by the window exporter. *)
Record CsvFile : Type := {
  csv_filename : string;
  csv_rows : list TelemetryRow
}.

(** The module-level variables of the server, its tables, and what has
    left it.  [pending_sessions] holds, oldest first, the [lastID] of each
    [INSERT] of [openCaptureSession] whose completion callback has not run
    yet. *)
Record World : Type := {
  telemetryCaptureEnabled : bool;
  currentCaptureSessionId : option nat;
  alertConfig : AlertConfig;
  tbl_telemetry : list TelemetryRow;
  tbl_alerts : list AlertRow;
  tbl_capture_sessions : list SessionRow;
  tbl_flask_configs : list FlaskConfigRow;
  flaskStates : list (option json * FlaskState);
  alerts : list (nat * Alert);
  ws_out : list WsMessage;
  mqtt_out : list MqttMessage;
  lastCsvExportAt : option string;
  csv_out : list CsvFile;
  pending_sessions : list nat
}.

(** The state of a freshly started server on an empty database. *)
Definition world0 : World :=
  {| telemetryCaptureEnabled := false;
     currentCaptureSessionId := None;
     alertConfig := alertConfig0;
     tbl_telemetry := [];
     tbl_alerts := [];
     tbl_capture_sessions := [];
     tbl_flask_configs := [];
     flaskStates := [];
     alerts := [];
     ws_out := [];
     mqtt_out := [];
     lastCsvExportAt := None;
     csv_out := [];
     pending_sessions := [] |}.

(** Assignment to one component of the state. *)
Definition set_telemetryCaptureEnabled (v : bool) (w : World) : World :=
  {| telemetryCaptureEnabled := v;
     currentCaptureSessionId := currentCaptureSessionId w;
     alertConfig := alertConfig w; tbl_telemetry := tbl_telemetry w;
     tbl_alerts := tbl_alerts w;
     tbl_capture_sessions := tbl_capture_sessions w;
     tbl_flask_configs := tbl_flask_configs w; flaskStates := flaskStates w;
     alerts := alerts w; ws_out := ws_out w; mqtt_out := mqtt_out w;
     lastCsvExportAt := lastCsvExportAt w; csv_out := csv_out w;
     pending_sessions := pending_sessions w |}.

Definition set_currentCaptureSessionId (v : option nat) (w : World) : World :=
  {| telemetryCaptureEnabled := telemetryCaptureEnabled w;
     currentCaptureSessionId := v; alertConfig := alertConfig w;
     tbl_telemetry := tbl_telemetry w; tbl_alerts := tbl_alerts w;
     tbl_capture_sessions := tbl_capture_sessions w;
     tbl_flask_configs := tbl_flask_configs w; flaskStates := flaskStates w;
     alerts := alerts w; ws_out := ws_out w; mqtt_out := mqtt_out w;
     lastCsvExportAt := lastCsvExportAt w; csv_out := csv_out w;
     pending_sessions := pending_sessions w |}.

Definition set_alertConfig (v : AlertConfig) (w : World) : World :=
  {| telemetryCaptureEnabled := telemetryCaptureEnabled w;
     currentCaptureSessionId := currentCaptureSessionId w; alertConfig := v;
     tbl_telemetry := tbl_telemetry w; tbl_alerts := tbl_alerts w;
     tbl_capture_sessions := tbl_capture_sessions w;
     tbl_flask_configs := tbl_flask_configs w; flaskStates := flaskStates w;
     alerts := alerts w; ws_out := ws_out w; mqtt_out := mqtt_out w;
     lastCsvExportAt := lastCsvExportAt w; csv_out := csv_out w;
     pending_sessions := pending_sessions w |}.

Definition set_tbl_telemetry (v : list TelemetryRow) (w : World) : World :=
  {| telemetryCaptureEnabled := telemetryCaptureEnabled w;
     currentCaptureSessionId := currentCaptureSessionId w;
     alertConfig := alertConfig w; tbl_telemetry := v;
     tbl_alerts := tbl_alerts w;
     tbl_capture_sessions := tbl_capture_sessions w;
     tbl_flask_configs := tbl_flask_configs w; flaskStates := flaskStates w;
     alerts := alerts w; ws_out := ws_out w; mqtt_out := mqtt_out w;
     lastCsvExportAt := lastCsvExportAt w; csv_out := csv_out w;
     pending_sessions := pending_sessions w |}.

Definition set_tbl_alerts (v : list AlertRow) (w : World) : World :=
  {| telemetryCaptureEnabled := telemetryCaptureEnabled w;
     currentCaptureSessionId := currentCaptureSessionId w;
     alertConfig := alertConfig w; tbl_telemetry := tbl_telemetry w;
     tbl_alerts := v; tbl_capture_sessions := tbl_capture_sessions w;
     tbl_flask_configs := tbl_flask_configs w; flaskStates := flaskStates w;
     alerts := alerts w; ws_out := ws_out w; mqtt_out := mqtt_out w;
     lastCsvExportAt := lastCsvExportAt w; csv_out := csv_out w;
     pending_sessions := pending_sessions w |}.

Definition set_tbl_capture_sessions (v : list SessionRow) (w : World) : World :=
  {| telemetryCaptureEnabled := telemetryCaptureEnabled w;
     currentCaptureSessionId := currentCaptureSessionId w;
     alertConfig := alertConfig w; tbl_telemetry := tbl_telemetry w;
     tbl_alerts := tbl_alerts w; tbl_capture_sessions := v;
     tbl_flask_configs := tbl_flask_configs w; flaskStates := flaskStates w;
     alerts := alerts w; ws_out := ws_out w; mqtt_out := mqtt_out w;
     lastCsvExportAt := lastCsvExportAt w; csv_out := csv_out w;
     pending_sessions := pending_sessions w |}.

Definition set_tbl_flask_configs (v : list FlaskConfigRow) (w : World) : World :=
  {| telemetryCaptureEnabled := telemetryCaptureEnabled w;
     currentCaptureSessionId := currentCaptureSessionId w;
     alertConfig := alertConfig w; tbl_telemetry := tbl_telemetry w;
     tbl_alerts := tbl_alerts w;
     tbl_capture_sessions := tbl_capture_sessions w; tbl_flask_configs := v;
     flaskStates := flaskStates w; alerts := alerts w; ws_out := ws_out w;
     mqtt_out := mqtt_out w; lastCsvExportAt := lastCsvExportAt w;
     csv_out := csv_out w;
     pending_sessions := pending_sessions w |}.

Definition set_flaskStates (v : list (option json * FlaskState)) (w : World) : World :=
  {| telemetryCaptureEnabled := telemetryCaptureEnabled w;
     currentCaptureSessionId := currentCaptureSessionId w;
     alertConfig := alertConfig w; tbl_telemetry := tbl_telemetry w;
     tbl_alerts := tbl_alerts w;
     tbl_capture_sessions := tbl_capture_sessions w;
     tbl_flask_configs := tbl_flask_configs w; flaskStates := v;
     alerts := alerts w; ws_out := ws_out w; mqtt_out := mqtt_out w;
     lastCsvExportAt := lastCsvExportAt w; csv_out := csv_out w;
     pending_sessions := pending_sessions w |}.

Definition set_alerts (v : list (nat * Alert)) (w : World) : World :=
  {| telemetryCaptureEnabled := telemetryCaptureEnabled w;
     currentCaptureSessionId := currentCaptureSessionId w;
     alertConfig := alertConfig w; tbl_telemetry := tbl_telemetry w;
     tbl_alerts := tbl_alerts w;
     tbl_capture_sessions := tbl_capture_sessions w;
     tbl_flask_configs := tbl_flask_configs w; flaskStates := flaskStates w;
     alerts := v; ws_out := ws_out w; mqtt_out := mqtt_out w;
     lastCsvExportAt := lastCsvExportAt w; csv_out := csv_out w;
     pending_sessions := pending_sessions w |}.

Definition set_ws_out (v : list WsMessage) (w : World) : World :=
  {| telemetryCaptureEnabled := telemetryCaptureEnabled w;
     currentCaptureSessionId := currentCaptureSessionId w;
     alertConfig := alertConfig w; tbl_telemetry := tbl_telemetry w;
     tbl_alerts := tbl_alerts w;
     tbl_capture_sessions := tbl_capture_sessions w;
     tbl_flask_configs := tbl_flask_configs w; flaskStates := flaskStates w;
     alerts := alerts w; ws_out := v; mqtt_out := mqtt_out w;
     lastCsvExportAt := lastCsvExportAt w; csv_out := csv_out w;
     pending_sessions := pending_sessions w |}.

Definition set_mqtt_out (v : list MqttMessage) (w : World) : World :=
  {| telemetryCaptureEnabled := telemetryCaptureEnabled w;
     currentCaptureSessionId := currentCaptureSessionId w;
     alertConfig := alertConfig w; tbl_telemetry := tbl_telemetry w;
     tbl_alerts := tbl_alerts w;
     tbl_capture_sessions := tbl_capture_sessions w;
     tbl_flask_configs := tbl_flask_configs w; flaskStates := flaskStates w;
     alerts := alerts w; ws_out := ws_out w; mqtt_out := v;
     lastCsvExportAt := lastCsvExportAt w; csv_out := csv_out w;
     pending_sessions := pending_sessions w |}.

Definition set_lastCsvExportAt (v : option string) (w : World) : World :=
  {| telemetryCaptureEnabled := telemetryCaptureEnabled w;
     currentCaptureSessionId := currentCaptureSessionId w;
     alertConfig := alertConfig w; tbl_telemetry := tbl_telemetry w;
     tbl_alerts := tbl_alerts w;
     tbl_capture_sessions := tbl_capture_sessions w;
     tbl_flask_configs := tbl_flask_configs w; flaskStates := flaskStates w;
     alerts := alerts w; ws_out := ws_out w; mqtt_out := mqtt_out w;
     lastCsvExportAt := v; csv_out := csv_out w;
     pending_sessions := pending_sessions w |}.

Definition set_csv_out (v : list CsvFile) (w : World) : World :=
  {| telemetryCaptureEnabled := telemetryCaptureEnabled w;
     currentCaptureSessionId := currentCaptureSessionId w;
     alertConfig := alertConfig w; tbl_telemetry := tbl_telemetry w;
     tbl_alerts := tbl_alerts w;
     tbl_capture_sessions := tbl_capture_sessions w;
     tbl_flask_configs := tbl_flask_configs w; flaskStates := flaskStates w;
     alerts := alerts w; ws_out := ws_out w; mqtt_out := mqtt_out w;
     lastCsvExportAt := lastCsvExportAt w; csv_out := v;
     pending_sessions := pending_sessions w |}.

Definition set_pending_sessions (v : list nat) (w : World) : World :=
  {| telemetryCaptureEnabled := telemetryCaptureEnabled w;
     currentCaptureSessionId := currentCaptureSessionId w;
     alertConfig := alertConfig w; tbl_telemetry := tbl_telemetry w;
     tbl_alerts := tbl_alerts w;
     tbl_capture_sessions := tbl_capture_sessions w;
     tbl_flask_configs := tbl_flask_configs w; flaskStates := flaskStates w;
     alerts := alerts w; ws_out := ws_out w; mqtt_out := mqtt_out w;
     lastCsvExportAt := lastCsvExportAt w; csv_out := csv_out w;
     pending_sessions := v |}.

(** ** Computations: state and [TypeError] *)

Inductive Res (A : Type) : Type :=
| Ok (a : A)
| Throw.
Arguments Ok {A} a.
Arguments Throw {A}.

Definition M (A : Type) : Type := World -> Res A * World.

#[global] Instance Res_ret : MRet Res := fun A a => Ok a.
#[global] Instance Res_bind : MBind Res := fun A B f r =>
  match r with
  | Ok a => f a
  | Throw => Throw
  end.

#[global] Instance M_ret : MRet M := fun A a w => (Ok a, w).
#[global] Instance M_bind : MBind M := fun A B f m w =>
  match m w with
  | (Ok a, w') => f a w'
  | (Throw, w') => (Throw, w')
  end.

Definition lift {A : Type} (r : Res A) : M A := fun w => (r, w).
Definition gets {A : Type} (f : World -> A) : M A := fun w => (Ok (f w), w).
Definition modify (f : World -> World) : M unit := fun w => (Ok tt, f w).

(** The empty statement. *)
Definition skip : M unit := mret tt.

(** The state in which a computation ends, normally or by an exception. *)
Definition exec {A : Type} (m : M A) (w : World) : World := (m w).2.

(** [l.forEach(f)] *)
Fixpoint forEach {A : Type} (l : list A) (f : A -> M unit) : M unit :=
  match l with
  | [] => skip
  | x :: rest => f x;; forEach rest f
  end.

(** [data[k]]: reading a property of [null] raises; the names read by the
    pipeline are fixed and none of them is an index, ['length'] or a
    prototype property, so only an object can hold them. *)
Definition prop (data : json) (k : string) : Res (option json) :=
  match data with
  | JNull => Throw
  | JObj m => Ok (m !! k)
  | _ => Ok None
  end.

(** [v.toFixed(2)]: a [TypeError] unless [v] is a number. *)
Definition toFixed (v : option json) : Res Qc :=
  match v with
  | Some (JNum q) => Ok q
  | _ => Throw
  end.

(** [a < b] and [a > b] on numbers; a comparison with [NaN] is false. *)
Definition js_lt (a b : option Qc) : bool :=
  match a, b with
  | Some x, Some y => bool_decide (x < y)%Qc
  | _, _ => false
  end.

Definition js_gt (a b : option Qc) : bool := js_lt b a.

(** [flaskStates.has(k)] / [flaskStates.get(k)]: keys are compared by
    SameValueZero, so primitives by value and objects by identity; the
    object in hand is fresh from [JSON.parse] and is no earlier key. *)
Definition same_key (a b : option json) : bool :=
  match a, b with
  | None, None => true
  | Some JNull, Some JNull => true
  | Some (JBool x), Some (JBool y) => bool_decide (x = y)
  | Some (JNum x), Some (JNum y) => bool_decide (x = y)
  | Some (JStr x), Some (JStr y) => bool_decide (x = y)
  | _, _ => false
  end.

Fixpoint map_get (k : option json) (m : list (option json * FlaskState))
    : option FlaskState :=
  match m with
  | [] => None
  | (k', s) :: rest => if same_key k k' then Some s else map_get k rest
  end.

(** Mutation of the entry found by [flaskStates.get(k)]. *)
Fixpoint map_update (k : option json) (f : FlaskState -> FlaskState)
    (m : list (option json * FlaskState)) : list (option json * FlaskState) :=
  match m with
  | [] => []
  | (k', s) :: rest =>
      if same_key k k' then (k', f s) :: rest else (k', s) :: map_update k f rest
  end.

(** ** The pipeline *)

Section Pipeline.

Variable rt : Runtime.

(** ToNumber *)
Definition ToNumber (v : option json) : option Qc :=
  match v with
  | None => None
  | Some JNull => Some 0%Qc
  | Some (JBool b) => Some (if b then 1%Qc else 0%Qc)
  | Some (JNum q) => Some q
  | Some (JStr s) => StringToNumber rt s
  | Some (JArr l) => StringToNumber rt (ToPrimitive rt (JArr l))
  | Some (JObj m) => StringToNumber rt (ToPrimitive rt (JObj m))
  end.

(** The text SQLite stores in a TEXT column for a bound value. *)
Definition sql_text (v : option json) : option string :=
  match v with
  | None | Some JNull => None
  | Some (JStr s) => Some s
  | Some x => Some (sqlite_text rt x)
  end.

(** *** Fan-out Broadcaster *)

(** [broadcastToWebSocket(message)]: the message is serialised and sent to
    every client whose [readyState] is [OPEN], which changes nothing in the
    server; [ws_out] is the trace of the messages so handed to the
    subscribers, in the order of the calls (see the conventions for the
    [new_alert] of [saveAlert]). *)
Definition broadcastToWebSocket (message : WsMessage) : M unit :=
  modify (fun w => set_ws_out (ws_out w ++ [message]) w).

(** [mqttClient.publish(topic, payload, { qos: 1 })] *)
Definition mqtt_publish (m : MqttMessage) : M unit :=
  modify (fun w => set_mqtt_out (mqtt_out w ++ [m]) w).

(** *** Capture Session Controller *)

(** [x || null] for an optional string argument *)
Definition or_null (x : option string) : option string :=
  match x with
  | Some s => if bool_decide (s = EmptyString) then None else Some s
  | None => None
  end.

(** [openCaptureSession(trigger, assayId)], [startedAt] read from the
    clock: the [INSERT] is issued and the gate is enabled.  The id of the
    row, one more than the number of rows (AUTOINCREMENT, no row ever being
    deleted), is what the completion callback will receive as
    [this.lastID]; until then [currentCaptureSessionId] keeps its value. *)
Definition openCaptureSession (trigger assayId : option string)
    (startedAt : string) : M unit :=
  modify (fun w =>
    let lastID := S (length (tbl_capture_sessions w)) in
    let row := {| session_id := lastID;
                  session_status := "enabled";
                  session_started_at := startedAt;
                  session_stopped_at := None;
                  session_trigger := or_null trigger;
                  session_assay_id := or_null assayId |} in
    set_telemetryCaptureEnabled true
      (set_pending_sessions (pending_sessions w ++ [lastID])
        (set_tbl_capture_sessions (tbl_capture_sessions w ++ [row]) w))).

(** The completion callback of the oldest pending [INSERT]:
    [if (!err) currentCaptureSessionId = this.lastID]. *)
Definition session_inserted : M unit :=
  modify (fun w =>
    match pending_sessions w with
    | [] => w
    | lastID :: rest =>
        set_currentCaptureSessionId (Some lastID) (set_pending_sessions rest w)
    end).

(** [UPDATE capture_sessions SET status = ?, stopped_at = ?, trigger = ?
    WHERE id = ?] *)
Definition update_session (id : nat) (status : string) (stoppedAt : string)
    (trigger : option string) (rows : list SessionRow) : list SessionRow :=
  (fun r =>
     if bool_decide (session_id r = id)
     then {| session_id := session_id r;
             session_status := status;
             session_started_at := session_started_at r;
             session_stopped_at := Some stoppedAt;
             session_trigger := trigger;
             session_assay_id := session_assay_id r |}
     else r) <$> rows.

(** [closeCaptureSession(trigger)], [stoppedAt] read from the clock.  The
    test [if (currentCaptureSessionId)] is also false for the id [0]. *)
Definition closeCaptureSession (trigger : option string)
    (stoppedAt : string) : M unit :=
  modify (fun w =>
    let w :=
      match currentCaptureSessionId w with
      | Some id =>
          if bool_decide (id = 0) then w
          else
            set_currentCaptureSessionId None
              (set_tbl_capture_sessions
                 (update_session id "disabled" stoppedAt (or_null trigger)
                    (tbl_capture_sessions w)) w)
      | None => w
      end in
    set_telemetryCaptureEnabled false w).

(** *** Validator *)

Definition requiredFields : list string :=
  ["msg_id"; "assay_id"; "flask_id"; "ts"; "P_bar_abs"; "T_C"].

(** The loop over [requiredFields]; [Ok false] is its [return false]. *)
Fixpoint required_present (data : json) (fields : list string) : Res bool :=
  match fields with
  | [] => Ok true
  | field :: rest =>
      v ← prop data field;
      if Js.nullish v then Ok false else required_present data rest
  end.

(** [validateTelemetryData(data)], reading [alertConfig] as [cfg]. *)
Definition validateTelemetryData (cfg : AlertConfig) (data : json) : Res bool :=
  present ← required_present data requiredFields;
  if negb present then Ok false
  else
    p ← prop data "P_bar_abs";
    if js_lt (ToNumber p) (Some (Q2Qc (1 # 2)))
       || js_gt (ToNumber p) (Some MAX_PRESSURE)
    then Ok false
    else
      t ← prop data "T_C";
      if js_lt (ToNumber t) (Some (temperature_min cfg))
         || js_gt (ToNumber t) (Some (temperature_max cfg))
      then Ok false
      else Ok true.

(** *** Persistence *)

(** Whether inserting [msg_id] violates [UNIQUE(msg_id)]; NULLs never do. *)
Definition unique_violation (msg_id : option string)
    (rows : list TelemetryRow) : bool :=
  match msg_id with
  | None => false
  | Some k => existsb (fun r => bool_decide (row_msg_id r = Some k)) rows
  end.

(** [saveTelemetryData(data)]: the row is inserted unless the statement
    fails on the uniqueness constraint, in which case the callback only
    logs the error. *)
Definition saveTelemetryData (data : json) : M unit :=
  msg_id ← lift (prop data "msg_id");
  assay_id ← lift (prop data "assay_id");
  flask_id ← lift (prop data "flask_id");
  ts ← lift (prop data "ts");
  P_bar_abs ← lift (prop data "P_bar_abs");
  T_C ← lift (prop data "T_C");
  P_bar_std ← lift (prop data "P_bar_std");
  accum_bar_per_h ← lift (prop data "accum_bar_per_h");
  relief_count ← lift (prop data "relief_count");
  event ← lift (prop data "event");
  let row := {| row_msg_id := sql_text msg_id;
                row_assay_id := assay_id;
                row_flask_id := flask_id;
                row_timestamp := sql_text ts;
                row_pressure_abs := P_bar_abs;
                row_temperature := T_C;
                row_pressure_std := Js.or P_bar_std P_bar_abs;
                row_production_rate := Js.or accum_bar_per_h (Some (JNum 0%Qc));
                row_relief_count := Js.or relief_count (Some (JNum 0%Qc));
                row_event := Js.or event (Some JNull) |} in
  modify (fun w =>
    if unique_violation (row_msg_id row) (tbl_telemetry w) then w
    else set_tbl_telemetry (tbl_telemetry w ++ [row]) w).

(** [saveAlert(alert)]: the insert, then in its callback the push onto the
    in-memory [alerts] (the last 100 are kept) and the broadcast.  The
    callback is run at the point of the call (see the conventions). *)
Definition saveAlert (alert : Alert) : M unit :=
  lastID ← gets (fun w => S (length (tbl_alerts w)));
  modify (fun w =>
    set_tbl_alerts
      (tbl_alerts w ++ [{| arow_id := lastID;
                           arow_flask_id := alert_flask_id alert;
                           arow_type := alert_type alert;
                           arow_message := alert_message alert;
                           arow_severity := alert_severity alert |}]) w);;
  modify (fun w =>
    let pushed := alerts w ++ [(lastID, alert)] in
    set_alerts (drop (length pushed - 100) pushed) w);;
  broadcastToWebSocket (WsNewAlert (Some lastID) alert).

(** *** Station snapshots *)

(** [updateFlaskState(data)] *)
Definition updateFlaskState (data : json) : M unit :=
  flaskId ← lift (prop data "flask_id");
  assay_id ← lift (prop data "assay_id");
  P_bar_abs ← lift (prop data "P_bar_abs");
  T_C ← lift (prop data "T_C");
  ts ← lift (prop data "ts");
  relief_count ← lift (prop data "relief_count");
  modify (fun w =>
    match map_get flaskId (flaskStates w) with
    | None =>
        set_flaskStates
          (flaskStates w ++
             [(flaskId, {| fs_flask_id := flaskId;
                           fs_assay_id := assay_id;
                           last_pressure := P_bar_abs;
                           last_temperature := T_C;
                           last_timestamp := ts;
                           fs_relief_count := Js.or relief_count (Some (JNum 0%Qc));
                           fs_status := "active" |})]) w
    | Some _ =>
        set_flaskStates
          (map_update flaskId
             (fun state => {| fs_flask_id := fs_flask_id state;
                              fs_assay_id := fs_assay_id state;
                              last_pressure := P_bar_abs;
                              last_temperature := T_C;
                              last_timestamp := ts;
                              fs_relief_count := Js.or relief_count (Some (JNum 0%Qc));
                              fs_status := fs_status state |})
             (flaskStates w)) w
    end).

(** *** Alert Evaluator *)

(** The first half of [checkAlerts(data)]: the local array [alerts] after
    the three rules, reading [alertConfig] as [cfg]. *)
Definition checkAlerts_rules (cfg : AlertConfig) (data : json) : Res (list Alert) :=
  P_bar_abs ← prop data "P_bar_abs";
  flask_id ← prop data "flask_id";
  fired ←
    (if js_gt (ToNumber P_bar_abs) (Some (relief_threshold cfg))
     then
       shown ← toFixed P_bar_abs;
       Ok [{| alert_flask_id := flask_id;
              alert_type := "high_pressure";
              alert_message := MsgHighPressure shown;
              alert_severity := "warning";
              alert_acknowledged := None;
              alert_created_at := None |}]
     else Ok []);
  T_C ← prop data "T_C";
  let fired :=
    if js_lt (ToNumber T_C) (Some (temperature_min cfg))
       || js_gt (ToNumber T_C) (Some (temperature_max cfg))
    then fired ++ [{| alert_flask_id := flask_id;
                      alert_type := "temperature_extreme";
                      alert_message := MsgTemperatureExtreme T_C;
                      alert_severity := "warning";
                      alert_acknowledged := None;
                      alert_created_at := None |}]
    else fired in
  (* Alerta de alívio *)
  event ← prop data "event";
  let fired :=
    if Js.str_eq event "relief"
    then fired ++ [{| alert_flask_id := flask_id;
                      alert_type := "pressure_relief";
                      alert_message := MsgPressureRelief;
                      alert_severity := "info";
                      alert_acknowledged := None;
                      alert_created_at := None |}]
    else fired in
  Ok fired.

(** [checkAlerts(data)]: the rules, then [alerts.forEach]. *)
Definition checkAlerts (data : json) : M unit :=
  cfg ← gets alertConfig;
  fired ← lift (checkAlerts_rules cfg data);
  assay_id ← lift (prop data "assay_id");
  flask_id ← lift (prop data "flask_id");
  forEach fired (fun alert =>
    saveAlert alert;;
    mqtt_publish (MqttAlert "ankom" assay_id flask_id alert)).

(** *** Ingestion *)

(** [processTelemetryData(data, namespace)] *)
Definition processTelemetryData (data : json) (namespace : string) : M unit :=
  (* Validar dados *)
  cfg ← gets alertConfig;
  valid ← lift (validateTelemetryData cfg data);
  if negb valid then skip
  else
    enabled ← gets telemetryCaptureEnabled;
    (if (enabled : bool) then saveTelemetryData data else skip);;
    (* Atualizar estado do frasco *)
    updateFlaskState data;;
    (* Verificar alertas *)
    checkAlerts data;;
    (* Enviar para WebSocket clients *)
    broadcastToWebSocket (WsTelemetry data);;
    (* Publicar confirmação *)
    assay_id ← lift (prop data "assay_id");
    flask_id ← lift (prop data "flask_id");
    msg_id ← lift (prop data "msg_id");
    mqtt_publish
      (MqttAck (if bool_decide (namespace = "rumen") then "rumen" else "ankom")
         assay_id flask_id msg_id).

(** Whether two values bound to [flask_id INTEGER UNIQUE] violate the
    constraint: NULLs never do, two numbers do when they are equal, and for
    any other pair the runtime tells. *)
Definition flask_id_conflict (a b : option json) : bool :=
  if Js.nullish a || Js.nullish b then false
  else
    match a, b with
    | Some (JNum x), Some (JNum y) => bool_decide (x = y)
    | Some x, Some y => sqlite_same_integer rt x y
    | _, _ => false
    end.

(** [processConfigUpdate(data)]: [INSERT OR REPLACE] deletes the stored row
    of the same [flask_id], if there is one, and inserts the new row. *)
Definition processConfigUpdate (data : json) : M unit :=
  flask_id ← lift (prop data "flask_id");
  assay_id ← lift (prop data "assay_id");
  relief ← lift (prop data "relief_threshold");
  interval ← lift (prop data "sampling_interval");
  modify (fun w =>
    set_tbl_flask_configs
      (filter (fun r => flask_id_conflict flask_id (fc_flask_id r) = false)
              (tbl_flask_configs w)
         ++ [{| fc_flask_id := flask_id;
                fc_assay_id := assay_id;
                fc_relief_threshold := relief;
                fc_sampling_interval := interval |}]) w).

(** [processStatusMessage(data)] only logs. *)
Definition processStatusMessage (data : json) : M unit := skip.

(** [processSpeedControl(data)] *)
Definition processSpeedControl (data : json) : M unit :=
  speed ← lift (prop data "speed");
  match speed with
  | Some s => if Js.truthy s then broadcastToWebSocket (WsSpeedControl s) else skip
  | None => skip
  end.

Definition processPauseControl (data : json) : M unit :=
  broadcastToWebSocket WsPauseControl.

Definition processResumeControl (data : json) : M unit :=
  broadcastToWebSocket WsResumeControl.

(** The body of the [try] block of [handleMQTTMessage(topic, message)].
    [message] is the result of [JSON.parse], [None] when it raises; [now]
    is the clock reading used for [created_at]. *)
Definition handleMQTTMessage_try (topic : string) (message : option json)
    (now : string) : M unit :=
  raw ← lift (match message with Some v => Ok v | None => Throw end);
  let data := normalizeTelemetryPayload raw in
  let namespace := Js.first_segment topic in
  if Js.includes "/telemetry" topic then
    processTelemetryData data namespace;;
    (* Broadcast para WebSocket *)
    broadcastToWebSocket (WsTelemetry data);;
    (* Verificar alertas de pressão *)
    P_bar_abs ← lift (prop data "P_bar_abs");
    if js_gt (ToNumber P_bar_abs) (Some (Q2Qc (5 # 2))) then
      flask_id ← lift (prop data "flask_id");
      assay_id ← lift (prop data "assay_id");
      shown ← lift (toFixed P_bar_abs);
      let alert := {| alert_flask_id := flask_id;
                      alert_type := "pressure_warning";
                      alert_message := MsgPressureDetected shown;
                      alert_severity := "high";
                      alert_acknowledged := Some false;
                      alert_created_at := Some now |} in
      saveAlert alert;;
      broadcastToWebSocket (WsNewAlert None alert);;
      mqtt_publish
        (MqttAlert (if bool_decide (namespace = "rumen") then "rumen" else "ankom")
           assay_id flask_id alert)
    else skip
  else if Js.includes "/config/" topic then processConfigUpdate data
  else if bool_decide (topic = "ankom/status") then processStatusMessage data
  else if bool_decide (topic = "ankom/control/speed") then processSpeedControl data
  else if bool_decide (topic = "ankom/control/pause") then processPauseControl data
  else if bool_decide (topic = "ankom/control/resume") then processResumeControl data
  else skip.

(** [handleMQTTMessage(topic, message)]: the [catch] clause logs the error
    and keeps whatever the body had done before it was raised. *)
Definition handleMQTTMessage (topic : string) (message : option json)
    (now : string) (w : World) : World :=
  exec (handleMQTTMessage_try topic message now) w.

(** *** Periodic Window Exporter *)

(** [WHERE timestamp >= ? AND timestamp <= ?] on TEXT values: bytewise
    comparison; a NULL timestamp or a NULL bound satisfies neither. *)
Definition in_window (startISO : option string) (endISO : string)
    (r : TelemetryRow) : bool :=
  match row_timestamp r, startISO with
  | Some t, Some s => String.leb s t && String.leb t endISO
  | _, _ => false
  end.

(** [ORDER BY timestamp ASC] *)
Definition timestamp_leb (a b : TelemetryRow) : bool :=
  match row_timestamp a, row_timestamp b with
  | Some x, Some y => String.leb x y
  | None, _ => true
  | Some _, None => false
  end.

Fixpoint insert_by_timestamp (r : TelemetryRow) (l : list TelemetryRow)
    : list TelemetryRow :=
  match l with
  | [] => [r]
  | x :: rest =>
      if timestamp_leb x r then x :: insert_by_timestamp r rest else r :: x :: rest
  end.

Definition order_by_timestamp (l : list TelemetryRow) : list TelemetryRow :=
  foldl (fun acc r => insert_by_timestamp r acc) [] l.

(** The rows that the query of [exportTelemetryWindowToCSV] returns. *)
Definition select_window (startISO : option string) (endISO : string)
    (rows : list TelemetryRow) : list TelemetryRow :=
  order_by_timestamp (filter (fun r => in_window startISO endISO r = true) rows).

(** [exportTelemetryWindowToCSV(startISO, endISO)]: resolves to [null] for
    an empty window, to the file path otherwise; [fs_ok] tells whether
    writing the file succeeds, and [Throw] is the rejected promise.  Rows
    are only selected under a non-null [startISO]. *)
Definition exportTelemetryWindowToCSV (startISO : option string)
    (endISO : string) (fs_ok : bool) : M (option string) :=
  rows ← gets (fun w => select_window startISO endISO (tbl_telemetry w));
  match rows with
  | [] => mret None
  | _ :: _ =>
      if fs_ok then
        let filename :=
          ("telemetry_" +:+ Js.replace_colons (default EmptyString startISO) +:+ "_to_"
             +:+ Js.replace_colons endISO +:+ ".csv")%string in
        modify (fun w =>
          set_csv_out (csv_out w ++ [{| csv_filename := filename;
                                        csv_rows := rows |}]) w);;
        mret (Some filename)
      else lift (Throw : Res (option string))
  end.

(** The start of [scheduleCsvAutoExport()]: [fiveMinutesAgo] is the clock
    reading [new Date(Date.now() - 5 * 60 * 1000).toISOString()]. *)
Definition scheduleCsvAutoExport (fiveMinutesAgo : string) (w : World) : World :=
  match lastCsvExportAt w with
  | None => set_lastCsvExportAt (Some fiveMinutesAgo) w
  | Some s =>
      if bool_decide (s = EmptyString) then set_lastCsvExportAt (Some fiveMinutesAgo) w
      else w
  end.

(** One run of the [setInterval] callback, at clock reading [endISO].  The
    watermark is assigned after the awaited export and skipped when the
    export is rejected. *)
Definition csv_export_tick (endISO : string) (fs_ok : bool) (w : World) : World :=
  exec (startISO ← gets lastCsvExportAt;
        exportTelemetryWindowToCSV startISO endISO fs_ok;;
        modify (set_lastCsvExportAt (Some endISO))) w.

(** *** The ingestion loop and the controller as command sequences *)

(** The messages of a telemetry topic handled one after the other. *)
Definition ingest_all (readings : list json) (namespace : string)
    (w : World) : World :=
  foldl (fun w data => exec (processTelemetryData data namespace) w) w readings.

(** What happens to the capture-session controller: a call of
    [openCaptureSession] or of [closeCaptureSession], with the clock
    reading it takes, or the completion of the oldest pending [INSERT]. *)
Inductive CaptureCommand : Type :=
| Open (trigger assayId : option string) (now : string)
| Close (trigger : option string) (now : string)
| Inserted.

Definition capture_step (c : CaptureCommand) (w : World) : World :=
  match c with
  | Open trigger assayId now => exec (openCaptureSession trigger assayId now) w
  | Close trigger now => exec (closeCaptureSession trigger now) w
  | Inserted => exec session_inserted w
  end.

Definition capture_run (cs : list CaptureCommand) (w : World) : World :=
  foldl (fun w c => capture_step c w) w cs.

(** Whether every [Open] of a command sequence is issued while capture is
    disabled, [enabled] being the state of the gate before the sequence. *)
Fixpoint opens_while_disabled (enabled : bool) (cs : list CaptureCommand) : bool :=
  match cs with
  | [] => true
  | Open _ _ _ :: rest => negb enabled && opens_while_disabled true rest
  | Close _ _ :: rest => opens_while_disabled false rest
  | Inserted :: rest => opens_while_disabled enabled rest
  end.

(** Whether every [Open] and every [Close] of a command sequence is issued
    when no completion is pending, and every [Inserted] when one is,
    [pending] being the number of pending completions before the
    sequence. *)
Fixpoint issued_when_drained (pending : nat) (cs : list CaptureCommand) : bool :=
  match cs with
  | [] => true
  | Open _ _ _ :: rest => (pending =? 0) && issued_when_drained 1 rest
  | Close _ _ :: rest => (pending =? 0) && issued_when_drained 0 rest
  | Inserted :: rest => negb (pending =? 0) && issued_when_drained (pred pending) rest
  end.

(** The row inserted by [openCaptureSession] into a table of [n] rows. *)
Definition new_session (n : nat) (trigger assayId : option string)
    (startedAt : string) : SessionRow :=
  {| session_id := S n;
     session_status := "enabled";
     session_started_at := startedAt;
     session_stopped_at := None;
     session_trigger := or_null trigger;
     session_assay_id := or_null assayId |}.

(** The session that the controller holds as current, if any, is the
    newest row and is open; the gate is enabled exactly then. *)
Definition current_session_open (w : World) : Prop :=
  match currentCaptureSessionId w with
  | None => telemetryCaptureEnabled w = false
  | Some id =>
      telemetryCaptureEnabled w = true /\
      id ≠ 0 /\
      exists row,
        last (tbl_capture_sessions w) = Some row /\
        session_id row = id /\
        session_status row = "enabled" /\
        session_stopped_at row = None
  end.

(** *** Observations used in the statements *)

(** A Reading typed as the inbound message contract has it: an object
    whose identifiers and timestamp are strings and whose station number,
    pressure and temperature are numbers. *)
Definition is_str (v : option json) : bool :=
  match v with
  | Some (JStr _) => true
  | _ => false
  end.

Definition is_num (v : option json) : bool :=
  match v with
  | Some (JNum _) => true
  | _ => false
  end.

Definition is_reading (data : json) : bool :=
  match data with
  | JObj m =>
      is_str (m !! "msg_id") && is_str (m !! "assay_id") && is_num (m !! "flask_id")
      && is_str (m !! "ts") && is_num (m !! "P_bar_abs") && is_num (m !! "T_C")
  | _ => false
  end.

(** A valid Reading under configuration [cfg]: typed as the contract has
    it and accepted by the validator. *)
Definition valid_reading (cfg : AlertConfig) (data : json) : bool :=
  is_reading data
  && match validateTelemetryData cfg data with
     | Ok true => true
     | _ => false
     end.

(** The row that [saveTelemetryData] binds for an object. *)
Definition telemetry_row (m : gmap string json) : TelemetryRow :=
  {| row_msg_id := sql_text (m !! "msg_id");
     row_assay_id := m !! "assay_id";
     row_flask_id := m !! "flask_id";
     row_timestamp := sql_text (m !! "ts");
     row_pressure_abs := m !! "P_bar_abs";
     row_temperature := m !! "T_C";
     row_pressure_std := Js.or (m !! "P_bar_std") (m !! "P_bar_abs");
     row_production_rate := Js.or (m !! "accum_bar_per_h") (Some (JNum 0%Qc));
     row_relief_count := Js.or (m !! "relief_count") (Some (JNum 0%Qc));
     row_event := Js.or (m !! "event") (Some JNull) |}.

(** The rows of [telemetry] that carry a given [msg_id]. *)
Definition rows_with_msg_id (k : string) (rows : list TelemetryRow)
    : list TelemetryRow :=
  filter (fun r => row_msg_id r = Some k) rows.

(** The rows of [alerts] inserted since the table had [n] rows. *)
Definition alerts_since (n : nat) (w : World) : list AlertRow :=
  drop n (tbl_alerts w).

Definition alert_row (id : nat) (a : Alert) : AlertRow :=
  {| arow_id := id;
     arow_flask_id := alert_flask_id a;
     arow_type := alert_type a;
     arow_message := alert_message a;
     arow_severity := alert_severity a |}.

(** The rows inserted by saving a list of alerts into a table of [n] rows,
    and the [new_alert] events broadcast for them. *)
Fixpoint alert_rows (n : nat) (fired : list Alert) : list AlertRow :=
  match fired with
  | [] => []
  | a :: rest => alert_row (S n) a :: alert_rows (S n) rest
  end.

Fixpoint alert_events (n : nat) (fired : list Alert) : list WsMessage :=
  match fired with
  | [] => []
  | a :: rest => WsNewAlert (Some (S n)) a :: alert_events (S n) rest
  end.

(** The map [flaskStates] after [updateFlaskState] on an object. *)
Definition flask_states_after (m : gmap string json)
    (states : list (option json * FlaskState)) : list (option json * FlaskState) :=
  match map_get (m !! "flask_id") states with
  | None =>
      states ++
        [(m !! "flask_id",
          {| fs_flask_id := m !! "flask_id";
             fs_assay_id := m !! "assay_id";
             last_pressure := m !! "P_bar_abs";
             last_temperature := m !! "T_C";
             last_timestamp := m !! "ts";
             fs_relief_count := Js.or (m !! "relief_count") (Some (JNum 0%Qc));
             fs_status := "active" |})]
  | Some _ =>
      map_update (m !! "flask_id")
        (fun state => {| fs_flask_id := fs_flask_id state;
                         fs_assay_id := fs_assay_id state;
                         last_pressure := m !! "P_bar_abs";
                         last_temperature := m !! "T_C";
                         last_timestamp := m !! "ts";
                         fs_relief_count := Js.or (m !! "relief_count") (Some (JNum 0%Qc));
                         fs_status := fs_status state |})
        states
  end.

(** The table [telemetry] after the capture gate and [saveTelemetryData]. *)
Definition telemetry_after (m : gmap string json) (w : World) : list TelemetryRow :=
  if telemetryCaptureEnabled w
  then if unique_violation (sql_text (m !! "msg_id")) (tbl_telemetry w)
       then tbl_telemetry w
       else tbl_telemetry w ++ [telemetry_row m]
  else tbl_telemetry w.

(** The part of the state that ingestion never assigns: the capture gate
    and its sessions, the configuration, and the exporter. *)
Definition controls (w : World) :=
  (telemetryCaptureEnabled w, currentCaptureSessionId w, alertConfig w,
   tbl_capture_sessions w, tbl_flask_configs w, lastCsvExportAt w, csv_out w).

(** The alert of the pressure rule of [checkAlerts]. *)
Definition high_pressure_alert (flask_id : option json) (p : Qc) : Alert :=
  {| alert_flask_id := flask_id;
     alert_type := "high_pressure";
     alert_message := MsgHighPressure p;
     alert_severity := "warning";
     alert_acknowledged := None;
     alert_created_at := None |}.

(** The rows of a given alert type. *)
Definition rows_of_type (type : string) (rows : list AlertRow) : list AlertRow :=
  filter (fun r => arow_type r = type) rows.

(** The payloads of the [telemetry] events among broadcast messages. *)
Definition telemetry_events (l : list WsMessage) : list json :=
  omap (fun e => match e with WsTelemetry d => Some d | _ => None end) l.

(** The alerts of the [new_alert] events among broadcast messages. *)
Definition new_alert_events (l : list WsMessage) : list Alert :=
  omap (fun e => match e with WsNewAlert _ a => Some a | _ => None end) l.

(** The sessions of [capture_sessions] whose status is [enabled]. *)
Definition enabled_sessions (w : World) : list SessionRow :=
  filter (fun r => session_status r = "enabled") (tbl_capture_sessions w).

(** The sessions with status [enabled] are the current one, or none. *)
Definition enabled_is_current (w : World) : Prop :=
  match currentCaptureSessionId w with
  | None => telemetryCaptureEnabled w = false /\ enabled_sessions w = []
  | Some id =>
      telemetryCaptureEnabled w = true /\ id ≠ 0 /\
      exists row, enabled_sessions w = [row] /\ session_id row = id
  end.

End Pipeline.

(** ** Scenarios

    Concrete messages and states on which the definitions are evaluated. *)

(** The six required fields of the message contract. *)
Definition mk_fields (msg_id assay_id ts : string) (flask_id P_bar_abs T_C : Qc)
    : gmap string json :=
  list_to_map
    [("msg_id", JStr msg_id); ("assay_id", JStr assay_id);
     ("flask_id", JNum flask_id); ("ts", JStr ts);
     ("P_bar_abs", JNum P_bar_abs); ("T_C", JNum T_C)].

Definition mk_reading (msg_id assay_id ts : string) (flask_id P_bar_abs T_C : Qc)
    : json :=
  JObj (mk_fields msg_id assay_id ts flask_id P_bar_abs T_C).

(** [{msg_id:"a", assay_id:"X", flask_id:1, ts:"2024-01-01T00:00:00Z",
     P_bar_abs:1.6, T_C:39.0}] *)
Definition reading_a : json :=
  mk_reading "a" "X" "2024-01-01T00:00:00Z"
    (Q2Qc (1 # 1)) (Q2Qc (16 # 10)) (Q2Qc (39 # 1)).

(** The same Reading with another temperature. *)
Definition reading_at_temperature (t : Qc) : json :=
  mk_reading "a" "X" "2024-01-01T00:00:00Z" (Q2Qc (1 # 1)) (Q2Qc (16 # 10)) t.

(** A Reading below the relief threshold. *)
Definition reading_b : json :=
  mk_reading "b" "X" "2024-01-01T00:00:15Z"
    (Q2Qc (2 # 1)) (Q2Qc (12 # 10)) (Q2Qc (39 # 1)).

(** A Reading whose pressure, 3.0 bar, is outside the validator's envelope. *)
Definition reading_overpressure : json :=
  mk_reading "c" "X" "2024-01-01T00:00:30Z"
    (Q2Qc (1 # 1)) (Q2Qc (3 # 1)) (Q2Qc (39 # 1)).

(** A Reading stamped with the instant of an exporter tick. *)
Definition reading_on_tick : json :=
  mk_reading "d" "X" "2024-01-01T00:05:00.000Z"
    (Q2Qc (1 # 1)) (Q2Qc (12 # 10)) (Q2Qc (39 # 1)).

(** The server after [POST /api/assays/X/start] on a fresh database, the
    [INSERT] of the session completed. *)
Definition world_capturing : World :=
  capture_run
    [Open (Some "assay_start") (Some "X") "2024-01-01T00:00:00.000Z"; Inserted]
    world0.

(** ** The server as a transition system *)

(** [R] holds between the state before and the state after a computation,
    whether it returns or raises. *)
Definition respects {A : Type} (R : relation World) (m : M A) : Prop :=
  forall w, R w (exec m w).

(** The telemetry table satisfies [UNIQUE(msg_id)]: no two rows carry the
    same non-null [msg_id]. *)
Definition msg_ids_unique (rows : list TelemetryRow) : Prop :=
  NoDup (omap row_msg_id rows).

(** The ids of the [alerts] table are 1, 2, ... in insertion order. *)
Definition alert_ids_sequential (rows : list AlertRow) : Prop :=
  map arow_id rows = seq 1 (length rows).

(** No key of [flaskStates] is found again further down the map. *)
Fixpoint station_keys_distinct (states : list (option json * FlaskState)) : Prop :=
  match states with
  | [] => True
  | (k, _) :: rest => map_get k rest = None /\ station_keys_distinct rest
  end.

(** The part of the state that only control commands, configuration
    updates and the exporter assign. *)
Definition gate (w : World) :=
  (telemetryCaptureEnabled w, currentCaptureSessionId w, alertConfig w,
   tbl_capture_sessions w, lastCsvExportAt w, csv_out w).

(** The part of the state that the message handlers assign. *)
Definition store (w : World) :=
  (tbl_telemetry w, tbl_alerts w, tbl_flask_configs w, flaskStates w, alerts w,
   ws_out w, mqtt_out w).

Definition same_gate (w w' : World) : Prop := gate w' = gate w.

(** The state of the capture-session controller. *)
Definition controller (w : World) :=
  (telemetryCaptureEnabled w, currentCaptureSessionId w,
   tbl_capture_sessions w, pending_sessions w).

Definition same_controller (w w' : World) : Prop := controller w' = controller w.

(** An invariant that a step keeps, as a relation between its ends. *)
Definition keeps (P : World -> Prop) (w w' : World) : Prop := P w -> P w'.

(** The append-only tables and the traces of [w'] extend those of [w]. *)
Definition extends (w w' : World) : Prop :=
  tbl_telemetry w `prefix_of` tbl_telemetry w' /\
  tbl_alerts w `prefix_of` tbl_alerts w' /\
  ws_out w `prefix_of` ws_out w' /\
  mqtt_out w `prefix_of` mqtt_out w'.

(** The sessions are numbered 1, 2, ... in the order of their opening, and
    a session has a [stopped_at] exactly when its status is [disabled]. *)
Definition sessions_well_formed (rows : list SessionRow) : Prop :=
  map session_id rows = seq 1 (length rows) /\
  Forall (fun r =>
            match session_stopped_at r with
            | Some _ => session_status r = "disabled"
            | None => session_status r = "enabled"
            end) rows.

(** The session [id] is a row of the table and is open: its status is
    [enabled] and it has no [stopped_at]. *)
Definition session_open (rows : list SessionRow) (id : nat) : Prop :=
  exists row, row ∈ rows /\ session_id row = id /\
    session_status row = "enabled" /\ session_stopped_at row = None.

(** What holds of the controller whatever the order of the calls and of the
    completions: the table is well formed, the sessions whose completion is
    pending are open rows, in the order of their ids, and the current
    session, if any, is an open row older than the pending ones. *)
Definition controller_consistent (w : World) : Prop :=
  sessions_well_formed (tbl_capture_sessions w) /\
  Forall (session_open (tbl_capture_sessions w)) (pending_sessions w) /\
  StronglySorted lt (pending_sessions w) /\
  match currentCaptureSessionId w with
  | Some id =>
      id ≠ 0 /\ session_open (tbl_capture_sessions w) id /\
      Forall (fun p => id < p) (pending_sessions w)
  | None => True
  end.

(** The controller when every call was issued with no completion pending:
    at most one completion is pending, and then it is that of the newest
    row, which is open, the gate being enabled; with none pending the
    current session is as [current_session_open] says. *)
Definition drained_sessions (w : World) : Prop :=
  match pending_sessions w with
  | [] => current_session_open w
  | [p] =>
      telemetryCaptureEnabled w = true /\ p ≠ 0 /\
      exists row,
        last (tbl_capture_sessions w) = Some row /\
        session_id row = p /\
        session_status row = "enabled" /\
        session_stopped_at row = None
  | _ => False
  end.

(** The same, when moreover every open was issued while capture was
    disabled: the only session with status [enabled] is the current one or
    the one whose completion is pending. *)
Definition drained_enabled (w : World) : Prop :=
  match pending_sessions w with
  | [] => enabled_is_current w
  | [p] =>
      telemetryCaptureEnabled w = true /\ p ≠ 0 /\
      currentCaptureSessionId w = None /\
      exists row, enabled_sessions w = [row] /\ session_id row = p
  | _ => False
  end.

Section ServerEvents.

Variable rt : Runtime.

(** A relation that every elementary effect of the message handlers
    respects. *)
Class HandlerStep (R : relation World) : Prop := {
  step_preorder : PreOrder R;
  step_broadcast : forall message, respects R (broadcastToWebSocket message);
  step_publish : forall m, respects R (mqtt_publish m);
  step_saveAlert : forall alert, respects R (saveAlert alert);
  step_saveTelemetryData : forall data, respects R (saveTelemetryData rt data);
  step_updateFlaskState : forall data, respects R (updateFlaskState data);
  step_processConfigUpdate : forall data, respects R (processConfigUpdate rt data)
}.

(** What happens to the server: a message arrives from the broker, a
    control command reaches the capture-session controller, the exporter is
    scheduled, or its timer fires. *)
Inductive ServerEvent : Type :=
| EvMqtt (topic : string) (message : option json) (now : string)
| EvCapture (c : CaptureCommand)
| EvSchedule (fiveMinutesAgo : string)
| EvTick (endISO : string) (fs_ok : bool).

Definition server_step (e : ServerEvent) (w : World) : World :=
  match e with
  | EvMqtt topic message now => handleMQTTMessage rt topic message now w
  | EvCapture c => capture_step c w
  | EvSchedule fiveMinutesAgo => scheduleCsvAutoExport fiveMinutesAgo w
  | EvTick endISO fs_ok => csv_export_tick endISO fs_ok w
  end.

Definition server_run (events : list ServerEvent) (w : World) : World :=
  foldl (fun w e => server_step e w) w events.

(** The commands to the capture-session controller among the events. *)
Fixpoint capture_commands (events : list ServerEvent) : list CaptureCommand :=
  match events with
  | [] => []
  | EvCapture c :: rest => c :: capture_commands rest
  | _ :: rest => capture_commands rest
  end.

End ServerEvents.


(** The value that [normalizeTelemetryPayload] assigns to the canonical
    property [k] of a payload [o] that lacks it: the first alias that is
    defined, or the default; [None] when it assigns nothing. *)
Definition canonical_source (o : gmap string json) (k : string) : option json :=
  if bool_decide (k = "T_C") then
    match o !! "C" with
    | Some c => Some c
    | None => o !! "°C"
    end
  else if bool_decide (k = "ts") then o !! "timestamp"
  else if bool_decide (k = "accum_bar_per_h") then o !! "accum_bar_per_hr"
  else if bool_decide (k = "P_bar_std") then o !! "P_bar_abs"
  else if bool_decide (k = "relief_count") then Some (JNum 0%Qc)
  else if bool_decide (k = "event") then Some JNull
  else None.



(** ** What a client is told *)



(** [ORDER BY id DESC] *)
Fixpoint insert_by_id_desc (r : SessionRow) (l : list SessionRow)
    : list SessionRow :=
  match l with
  | [] => [r]
  | x :: rest =>
      if session_id r <=? session_id x then x :: insert_by_id_desc r rest
      else r :: x :: rest
  end.

Definition order_by_id_desc (l : list SessionRow) : list SessionRow :=
  foldl (fun acc r => insert_by_id_desc r acc) [] l.

(** [const limit = parseInt(req.query.limit) || 10], [parsed] being the
    result of [parseInt] ([None] is [NaN]). *)
Definition sessions_limit (parsed : option Z) : Z :=
  match parsed with
  | Some z => if (z =? 0)%Z then 10%Z else z
  | None => 10%Z
  end.

(** [GET /api/system/capture-sessions]: the rows of
    [SELECT * FROM capture_sessions ORDER BY id DESC LIMIT ?]; a negative
    limit is no limit. *)
Definition capture_sessions (parsed : option Z) (w : World) : list SessionRow :=
  let limit := sessions_limit parsed in
  let rows := order_by_id_desc (tbl_capture_sessions w) in
  if (limit <? 0)%Z then rows else take (Z.to_nat limit) rows.

(** The session part of the response of [GET /api/system/capture-status];
    the duration, computed from the clock, is left out. *)
Inductive CaptureStatus : Type :=
| StatusEnabled (session : option SessionRow)       (* { enabled: true, session } *)
| StatusDisabled (last_session : option SessionRow) (* { enabled: false, last_session } *).

Definition capture_status (w : World) : CaptureStatus :=
  let current :=
    match currentCaptureSessionId w with
    | Some id => if bool_decide (id = 0) then None else Some id
    | None => None
    end in
  match telemetryCaptureEnabled w, current with
  | true, Some id =>
      StatusEnabled
        (List.find (fun r => bool_decide (session_id r = id)) (tbl_capture_sessions w))
  | _, _ => StatusDisabled (head (order_by_id_desc (tbl_capture_sessions w)))
  end.

(** ** The alert configuration and its table *)

(** The row [id = 1] of [alert_config], and also the fields of the body of
    [POST /api/alerts/config]; [None] is NULL, [null] or a missing field. *)
Record AlertConfigRow : Type := {
  pressure_relief_threshold : option Qc;
  pressure_warning_threshold : option Qc;
  temp_min : option Qc;
  temp_max : option Qc
}.

(** The server together with the table that only the configuration
    functions read and write; [None] is the empty table. *)
Record Server : Type := {
  world : World;
  tbl_alert_config : option AlertConfigRow
}.

(** [a ?? b], with [b] evaluated only when [a] is nullish. *)
Definition coalesce {A : Type} (a : option A) (b : Res (option A)) : Res (option A) :=
  match a with
  | Some x => Ok (Some x)
  | None => b
  end.

(** [alertConfig.temperatureRange.min] and [.max]: a [TypeError] when there
    is no [temperatureRange]. *)
Definition temperatureRange_min (cfg : AlertConfig) : Res (option Qc) :=
  match temperatureRange cfg with
  | Some r => Ok (range_min r)
  | None => Throw
  end.

Definition temperatureRange_max (cfg : AlertConfig) : Res (option Qc) :=
  match temperatureRange cfg with
  | Some r => Ok (range_max r)
  | None => Throw
  end.

(** [loadAlertConfig()]: an empty table receives the current configuration;
    otherwise the configuration is read from the row, column by column. *)
Definition loadAlertConfig (s : Server) : Res Server :=
  let cfg := alertConfig (world s) in
  match tbl_alert_config s with
  | None =>
      tmin ← temperatureRange_min cfg;
      tmax ← temperatureRange_max cfg;
      Ok {| world := world s;
            tbl_alert_config :=
              Some {| pressure_relief_threshold := pressureReliefThreshold cfg;
                      pressure_warning_threshold := pressureWarningThreshold cfg;
                      temp_min := tmin;
                      temp_max := tmax |} |}
  | Some row =>
      pr ← coalesce (pressure_relief_threshold row) (Ok (pressureReliefThreshold cfg));
      pw ← coalesce (pressure_warning_threshold row) (Ok (pressureWarningThreshold cfg));
      tmin ← coalesce (temp_min row) (temperatureRange_min cfg);
      tmax ← coalesce (temp_max row) (temperatureRange_max cfg);
      Ok {| world :=
              set_alertConfig
                {| pressureReliefThreshold := pr;
                   pressureWarningThreshold := pw;
                   temperatureRange := Some {| range_min := tmin; range_max := tmax |} |}
                (world s);
            tbl_alert_config := Some row |}
  end.

(** [POST /api/alerts/config] with the fields of [req.body || {}]. *)
Definition post_alerts_config (body : AlertConfigRow) (s : Server) : Res Server :=
  let cfg := alertConfig (world s) in
  pr ← coalesce (pressure_relief_threshold body) (Ok (pressureReliefThreshold cfg));
  pw ← coalesce (pressure_warning_threshold body) (Ok (pressureWarningThreshold cfg));
  tmin ← coalesce (temp_min body) (temperatureRange_min cfg);
  tmax ← coalesce (temp_max body) (temperatureRange_max cfg);
  Ok {| world :=
          set_alertConfig
            {| pressureReliefThreshold := pr;
               pressureWarningThreshold := pw;
               temperatureRange := Some {| range_min := tmin; range_max := tmax |} |}
            (world s);
        tbl_alert_config :=
          Some {| pressure_relief_threshold := pr;
                  pressure_warning_threshold := pw;
                  temp_min := tmin;
                  temp_max := tmax |} |}.

(** Requests to [POST /api/alerts/config] served one after the other. *)
Fixpoint post_all (bodies : list AlertConfigRow) (s : Server) : Res Server :=
  match bodies with
  | [] => Ok s
  | body :: rest => s' ← post_alerts_config body s; post_all rest s'
  end.

(** The server process when it starts on a database whose [alert_config]
    holds [row]: the module variables have their initial values, and
    [startServer] calls [loadAlertConfig]. *)
Definition start_on (w : World) (row : option AlertConfigRow) : Res Server :=
  loadAlertConfig {| world := set_alertConfig alertConfig0 w;
                     tbl_alert_config := row |}.

(** Every threshold of the configuration is a number. *)
Definition config_defined (cfg : AlertConfig) : Prop :=
  exists pr pw tmin tmax,
    cfg = {| pressureReliefThreshold := Some pr;
             pressureWarningThreshold := Some pw;
             temperatureRange :=
               Some {| range_min := Some tmin; range_max := Some tmax |} |}.

(** The configuration is what a start on the table of [s] reads back. *)
Definition config_persisted (s : Server) : Prop :=
  config_defined (alertConfig (world s)) /\
  tbl_alert_config s ≠ None /\
  forall w, exists s',
    start_on w (tbl_alert_config s) = Ok s' /\
    alertConfig (world s') = alertConfig (world s) /\
    tbl_alert_config s' = tbl_alert_config s.

(** ** Station configuration endpoint *)


Section FlaskConfig.

Variable rt : Runtime.


End FlaskConfig.

(** ** Assay endpoints

    The callers of the capture-session controller that keep an assay
    registry: [POST /api/assays], [POST /api/assays/:id/start],
    [POST /api/assays/:id/stop] and [POST /api/assay/shutdown]. *)

(** A value of the [systemState.assays] map. *)
Record Assay : Type := {
  assay_id : json;
  assay_name : json;
  assay_description : option json;
  assay_vesselCount : option json;
  assay_duration : option json;
  assay_status : string;
  assay_createdAt : string;
  assay_startedAt : option string;
  assay_completedAt : option string
}.

(** One [mqttClient.publish] of these endpoints. *)
Inductive ControlMessage : Type :=
| ControlStart (assayId : string) (vesselCount : option json) (timestamp : string)
    (* rr_fermentation/control/start *)
| ControlStop (assayId : string) (timestamp : string)
    (* rr_fermentation/control/stop *)
| AssayShutdown (timestamp : string)
    (* rr_fermentation/assay/shutdown *).

(** The pipeline state together with [systemState.assays],
    [systemState.currentAssay], [systemState.isRunning] and the trace of
    the control messages published. *)
Record Lab : Type := {
  lab_world : World;
  lab_assays : list (json * Assay);
  lab_currentAssay : option string;
  lab_isRunning : bool;
  lab_control_out : list ControlMessage
}.

Definition lab0 : Lab :=
  {| lab_world := world0;
     lab_assays := [];
     lab_currentAssay := None;
     lab_isRunning := false;
     lab_control_out := [] |}.

(** [assays.get(k)] *)
Fixpoint assays_get (k : json) (m : list (json * Assay)) : option Assay :=
  match m with
  | [] => None
  | (k', a) :: rest =>
      if same_key (Some k) (Some k') then Some a else assays_get k rest
  end.

(** [assays.set(k, a)]: the value of an existing key is replaced where it
    is, a new key is added at the end. *)
Fixpoint assays_set (k : json) (a : Assay) (m : list (json * Assay))
    : list (json * Assay) :=
  match m with
  | [] => [(k, a)]
  | (k', a') :: rest =>
      if same_key (Some k) (Some k') then (k', a) :: rest
      else (k', a') :: assays_set k a rest
  end.

(** Mutation of the object found by [assays.get(k)]. *)
Fixpoint assays_update (k : json) (f : Assay -> Assay) (m : list (json * Assay))
    : list (json * Assay) :=
  match m with
  | [] => []
  | (k', a) :: rest =>
      if same_key (Some k) (Some k') then (k', f a) :: rest
      else (k', a) :: assays_update k f rest
  end.

(** A request to one of the endpoints, with the fields of its body or its
    route parameter and the clock readings it takes, in the order in which
    the handler takes them. *)
Inductive ControlRequest : Type :=
| CreateAssay (id name description vesselCount duration : option json)
    (createdAt : string)
| StartAssay (id : string) (startedAt sessionAt sentAt : string)
| StopAssay (id : string) (completedAt stoppedAt sentAt : string)
| Shutdown (sentAt stoppedAt : string).

(** The handlers: the status of the response and the state they leave. *)
Definition control_step (r : ControlRequest) (lab : Lab) : nat * Lab :=
  match r with
  | CreateAssay id name description vesselCount duration createdAt =>
      match id, name with
      | Some i, Some n =>
          if negb (Js.truthy i) || negb (Js.truthy n) then (400, lab)
          else
            let assay := {| assay_id := i;
                            assay_name := n;
                            assay_description := Js.or description (Some (JStr EmptyString));
                            assay_vesselCount := Js.or vesselCount (Some (JNum (Q2Qc (4 # 1))));
                            assay_duration := Js.or duration (Some (JNum (Q2Qc (48 # 1))));
                            assay_status := "created";
                            assay_createdAt := createdAt;
                            assay_startedAt := None;
                            assay_completedAt := None |} in
            (200, {| lab_world := lab_world lab;
                     lab_assays := assays_set i assay (lab_assays lab);
                     lab_currentAssay := lab_currentAssay lab;
                     lab_isRunning := lab_isRunning lab;
                     lab_control_out := lab_control_out lab |})
      | _, _ => (400, lab)
      end
  | StartAssay id startedAt sessionAt sentAt =>
      match assays_get (JStr id) (lab_assays lab) with
      | None => (404, lab)
      | Some assay =>
          if bool_decide (assay_status assay = "running") then (400, lab)
          else
            (200,
             {| lab_world :=
                  set_telemetryCaptureEnabled true
                    (exec (openCaptureSession (Some "assay_start") (Some id) sessionAt)
                       (lab_world lab));
                lab_assays :=
                  assays_update (JStr id)
                    (fun a => {| assay_id := assay_id a;
                                 assay_name := assay_name a;
                                 assay_description := assay_description a;
                                 assay_vesselCount := assay_vesselCount a;
                                 assay_duration := assay_duration a;
                                 assay_status := "running";
                                 assay_createdAt := assay_createdAt a;
                                 assay_startedAt := Some startedAt;
                                 assay_completedAt := assay_completedAt a |})
                    (lab_assays lab);
                lab_currentAssay := Some id;
                lab_isRunning := true;
                lab_control_out :=
                  lab_control_out lab
                    ++ [ControlStart id (assay_vesselCount assay) sentAt] |})
      end
  | StopAssay id completedAt stoppedAt sentAt =>
      match assays_get (JStr id) (lab_assays lab) with
      | None => (404, lab)
      | Some assay =>
          let current := bool_decide (lab_currentAssay lab = Some id) in
          (200,
           {| lab_world :=
                set_telemetryCaptureEnabled false
                  (exec (closeCaptureSession (Some "assay_stop") stoppedAt)
                     (lab_world lab));
              lab_assays :=
                assays_update (JStr id)
                  (fun a => {| assay_id := assay_id a;
                               assay_name := assay_name a;
                               assay_description := assay_description a;
                               assay_vesselCount := assay_vesselCount a;
                               assay_duration := assay_duration a;
                               assay_status := "stopped";
                               assay_createdAt := assay_createdAt a;
                               assay_startedAt := assay_startedAt a;
                               assay_completedAt := Some completedAt |})
                  (lab_assays lab);
              lab_currentAssay := if current then None else lab_currentAssay lab;
              lab_isRunning := if current then false else lab_isRunning lab;
              lab_control_out := lab_control_out lab ++ [ControlStop id sentAt] |})
      end
  | Shutdown sentAt stoppedAt =>
      (200,
       {| lab_world := exec (closeCaptureSession (Some "shutdown") stoppedAt)
                         (lab_world lab);
          lab_assays := lab_assays lab;
          lab_currentAssay := lab_currentAssay lab;
          lab_isRunning := false;
          lab_control_out := lab_control_out lab ++ [AssayShutdown sentAt] |})
  end.

Definition control_run (rs : list ControlRequest) (lab : Lab) : Lab :=
  foldl (fun lab r => (control_step r lab).2) lab rs.

(** The command that a request passes to the capture-session controller,
    if it passes one. *)
Definition capture_command (r : ControlRequest) (lab : Lab) : option CaptureCommand :=
  match r with
  | CreateAssay _ _ _ _ _ _ => None
  | StartAssay id _ sessionAt _ =>
      match assays_get (JStr id) (lab_assays lab) with
      | Some assay =>
          if bool_decide (assay_status assay = "running") then None
          else Some (Open (Some "assay_start") (Some id) sessionAt)
      | None => None
      end
  | StopAssay id _ stoppedAt _ =>
      match assays_get (JStr id) (lab_assays lab) with
      | Some _ => Some (Close (Some "assay_stop") stoppedAt)
      | None => None
      end
  | Shutdown _ stoppedAt => Some (Close (Some "shutdown") stoppedAt)
  end.

(** What happens to the lab: a request is served, or the [INSERT] of a
    capture session completes and its callback runs. *)
Inductive LabEvent : Type :=
| Request (r : ControlRequest)
| SessionInserted.

Definition lab_step (e : LabEvent) (lab : Lab) : Lab :=
  match e with
  | Request r => (control_step r lab).2
  | SessionInserted =>
      {| lab_world := exec session_inserted (lab_world lab);
         lab_assays := lab_assays lab;
         lab_currentAssay := lab_currentAssay lab;
         lab_isRunning := lab_isRunning lab;
         lab_control_out := lab_control_out lab |}
  end.

Definition lab_run (es : list LabEvent) (lab : Lab) : Lab :=
  foldl (fun lab e => lab_step e lab) lab es.

(** ** Further scenarios *)


(** A stored row and the database that holds it, with the watermark of the
    exporter five minutes before the first tick. *)
Definition row_a : TelemetryRow :=
  telemetry_row rt0
    (normalized_fields
       (mk_fields "a" "X" "2024-01-01T00:00:00Z"
          (Q2Qc (1 # 1)) (Q2Qc (16 # 10)) (Q2Qc (39 # 1)))).

Definition world_one_row : World :=
  set_lastCsvExportAt (Some "2023-12-31T23:55:00.000Z")
    (set_tbl_telemetry [row_a] world0).

(** * Properties *)

(** ** Reading Codec *)

Lemma lookup_set_if_undefined_eq k v (o : gmap string json) :
  set_if_undefined k v o !! k = match o !! k with Some x => Some x | None => v end.
Proof.
  unfold set_if_undefined. destruct (o !! k) eqn:E; [by rewrite E|].
  destruct v; [by rewrite lookup_insert_eq | done].
Qed.

Lemma lookup_set_if_undefined_ne k k' v (o : gmap string json) :
  k ≠ k' -> set_if_undefined k v o !! k' = o !! k'.
Proof.
  intros Hne. unfold set_if_undefined.
  destruct (o !! k), v; try done. by rewrite lookup_insert_ne.
Qed.

Lemma set_if_undefined_id k v (o : gmap string json) :
  (o !! k = None -> v = None) -> set_if_undefined k v o = o.
Proof.
  intros H. unfold set_if_undefined. destruct (o !! k); [done|].
  by rewrite H.
Qed.

(** A conditional assignment never overrides a property that is present. *)
Lemma set_if_undefined_keeps k v k' x (o : gmap string json) :
  o !! k' = Some x -> set_if_undefined k v o !! k' = Some x.
Proof.
  intros H. destruct (decide (k = k')) as [->|Hne].
  - by rewrite lookup_set_if_undefined_eq, H.
  - by rewrite lookup_set_if_undefined_ne.
Qed.

(** On an object or an array the function is the six conditional
    assignments applied to the copy. *)
Lemma normalize_spread (p : json) :
  Js.truthy p = true -> Js.typeof p = "object" ->
  normalizeTelemetryPayload p = JObj (normalized_fields (Js.spread p)).
Proof.
  intros Hy Ht. unfold normalizeTelemetryPayload, normalized_fields.
  rewrite Hy, Ht. simpl. f_equal.
  set (o := Js.spread p).
  assert (match o !! "T_C" with
          | None =>
              match o !! "C" with
              | Some c => <["T_C" := c]> o
              | None =>
                  match o !! "°C" with
                  | Some c => <["T_C" := c]> o
                  | None => o
                  end
              end
          | Some _ => o
          end = set_if_undefined "T_C" (T_C_alias o) o) as ->; [|done].
  unfold set_if_undefined, T_C_alias.
  destruct (o !! "T_C"); [done|]. by destruct (o !! "C").
Qed.

(** Any other payload is returned as it is. *)
Lemma normalize_other (p : json) :
  Js.truthy p = false \/ Js.typeof p ≠ "object" ->
  normalizeTelemetryPayload p = p.
Proof.
  intros [Hy|Ht]; unfold normalizeTelemetryPayload.
  - by rewrite Hy.
  - rewrite (bool_decide_eq_false_2 _ Ht). by rewrite orb_true_r.
Qed.

Ltac lookup_fields :=
  repeat first
    [ rewrite lookup_set_if_undefined_eq
    | rewrite lookup_set_if_undefined_ne by done ].

Lemma normalized_fields_keeps k x (o : gmap string json) :
  o !! k = Some x -> normalized_fields o !! k = Some x.
Proof.
  intros H. unfold normalized_fields. cbv zeta.
  by do 6 apply set_if_undefined_keeps.
Qed.

Lemma normalized_fields_relief_count (o : gmap string json) :
  o !! "relief_count" = None ->
  normalized_fields o !! "relief_count" = Some (JNum 0%Qc).
Proof.
  intros H. unfold normalized_fields. cbv zeta. lookup_fields. by rewrite H.
Qed.

Lemma normalized_fields_event (o : gmap string json) :
  o !! "event" = None -> normalized_fields o !! "event" = Some JNull.
Proof.
  intros H. unfold normalized_fields. cbv zeta. lookup_fields. by rewrite H.
Qed.

Lemma normalized_fields_idem (o : gmap string json) :
  normalized_fields (normalized_fields o) = normalized_fields o.
Proof.
  set (n := normalized_fields o).
  unfold normalized_fields at 1. cbv zeta.
  assert (HT : set_if_undefined "T_C" (T_C_alias n) n = n).
  { apply set_if_undefined_id. unfold T_C_alias, n, normalized_fields.
    cbv zeta. lookup_fields. unfold T_C_alias.
    destruct (o !! "T_C"); [done|]. by destruct (o !! "C"). }
  rewrite HT.
  assert (Hts : set_if_undefined "ts" (n !! "timestamp") n = n).
  { apply set_if_undefined_id. unfold n, normalized_fields. cbv zeta.
    lookup_fields. by destruct (o !! "ts"). }
  rewrite Hts.
  assert (Hac : set_if_undefined "accum_bar_per_h" (n !! "accum_bar_per_hr") n = n).
  { apply set_if_undefined_id. unfold n, normalized_fields. cbv zeta.
    lookup_fields. by destruct (o !! "accum_bar_per_h"). }
  rewrite Hac.
  assert (Hps : set_if_undefined "P_bar_std" (n !! "P_bar_abs") n = n).
  { apply set_if_undefined_id. unfold n, normalized_fields. cbv zeta.
    lookup_fields. by destruct (o !! "P_bar_std"). }
  rewrite Hps.
  assert (Hrc : set_if_undefined "relief_count" (Some (JNum 0%Qc)) n = n).
  { apply set_if_undefined_id. unfold n, normalized_fields. cbv zeta.
    lookup_fields. by destruct (o !! "relief_count"). }
  rewrite Hrc.
  apply set_if_undefined_id. unfold n, normalized_fields. cbv zeta.
  lookup_fields. by destruct (o !! "event").
Qed.

Lemma object_typed_cases (p : json) :
  (Js.truthy p = true /\ Js.typeof p = "object") \/
  (Js.truthy p = false \/ Js.typeof p ≠ "object").
Proof.
  destruct p; simpl; try (right; right; discriminate); [right|left|left]; auto.
Qed.

(** C9 (as amended): on every structured payload the normaliser returns an
    object and fills defaults instead of failing: [relief_count] is [0] when
    it was absent, and [event] is [null] (not the string "none") when it was
    absent. *)
Theorem normalize_defaults (p : json) :
  Js.truthy p = true -> Js.typeof p = "object" ->
  exists n, normalizeTelemetryPayload p = JObj n /\
    (Js.spread p !! "relief_count" = None -> n !! "relief_count" = Some (JNum 0%Qc)) /\
    (Js.spread p !! "event" = None -> n !! "event" = Some JNull).
Proof.
  intros Hy Ht. exists (normalized_fields (Js.spread p)).
  split; [by apply normalize_spread|].
  split; [apply normalized_fields_relief_count | apply normalized_fields_event].
Qed.

(** C10: the normaliser is idempotent, and a canonical property that the
    payload already has keeps its value: no alias overrides it. *)
Theorem normalize_idempotent_canonical (p : json) :
  normalizeTelemetryPayload (normalizeTelemetryPayload p)
    = normalizeTelemetryPayload p /\
  forall k v, k ∈ canonical_keys -> Js.spread p !! k = Some v ->
    exists n, normalizeTelemetryPayload p = JObj n /\ n !! k = Some v.
Proof.
  destruct (object_typed_cases p) as [[Hy Ht]|Hother].
  - rewrite (normalize_spread p Hy Ht). split.
    + rewrite (normalize_spread (JObj _)) by done. simpl.
      by rewrite normalized_fields_idem.
    + intros k v _ Hk. eexists. split; [done|].
      by apply normalized_fields_keeps.
  - rewrite (normalize_other p Hother). split; [by apply normalize_other|].
    intros k v _ Hk. exfalso.
    destruct p; simpl in *; try (by rewrite lookup_empty in Hk);
      destruct Hother; done.
Qed.

Section PipelineProperties.

Variable rt : Runtime.

(** ** Validator *)

Lemma required_present_obj (m : gmap string json) (fields : list string) :
  required_present (JObj m) fields
    = Ok (forallb (fun f => negb (Js.nullish (m !! f))) fields).
Proof.
  induction fields as [|f fields IH]; [done|].
  simpl. destruct (Js.nullish (m !! f)); [done|]. by rewrite IH.
Qed.

(** The validator on an object, as one boolean expression. *)
Lemma validate_obj (cfg : AlertConfig) (m : gmap string json) :
  validateTelemetryData rt cfg (JObj m)
    = Ok (forallb (fun f => negb (Js.nullish (m !! f))) requiredFields
          && negb (js_lt (ToNumber rt (m !! "P_bar_abs")) (Some (Q2Qc (1 # 2)))
                   || js_gt (ToNumber rt (m !! "P_bar_abs")) (Some MAX_PRESSURE))
          && negb (js_lt (ToNumber rt (m !! "T_C")) (Some (temperature_min cfg))
                   || js_gt (ToNumber rt (m !! "T_C")) (Some (temperature_max cfg)))).
Proof.
  unfold validateTelemetryData. rewrite required_present_obj.
  destruct (forallb _ requiredFields); [|done].
  cbn [mbind Res_bind negb prop andb].
  destruct (js_lt (ToNumber rt (m !! "P_bar_abs")) _
            || js_gt (ToNumber rt (m !! "P_bar_abs")) _); [done|].
  cbn [negb andb].
  by destruct (js_lt (ToNumber rt (m !! "T_C")) _
               || js_gt (ToNumber rt (m !! "T_C")) _).
Qed.

Lemma in_range_bool (lo hi x : Qc) :
  negb (js_lt (Some x) (Some lo) || js_gt (Some x) (Some hi)) = true
  <-> (lo <= x)%Qc /\ (x <= hi)%Qc.
Proof.
  unfold js_gt, js_lt. rewrite negb_true_iff, orb_false_iff.
  rewrite !bool_decide_eq_false. by rewrite <- !Qcle_ngt.
Qed.

(** A Reading with its required fields and a pressure in the envelope is
    accepted exactly when its temperature is in the configured range. *)
Lemma validate_accepts_iff (cfg : AlertConfig) (m : gmap string json) (p t : Qc) :
  forallb (fun f => negb (Js.nullish (m !! f))) requiredFields = true ->
  m !! "P_bar_abs" = Some (JNum p) ->
  (Q2Qc (1 # 2) <= p)%Qc -> (p <= MAX_PRESSURE)%Qc ->
  m !! "T_C" = Some (JNum t) ->
  validateTelemetryData rt cfg (JObj m) = Ok true
  <-> (temperature_min cfg <= t)%Qc /\ (t <= temperature_max cfg)%Qc.
Proof.
  intros Hreq HP Hlo Hhi HT.
  rewrite validate_obj, Hreq, HP, HT.
  cbn [ToNumber andb].
  assert (HPin : negb (js_lt (Some p) (Some (Q2Qc (1 # 2)))
                       || js_gt (Some p) (Some MAX_PRESSURE)) = true)
    by (by apply in_range_bool).
  rewrite HPin. cbn [andb].
  pose proof (in_range_bool (temperature_min cfg) (temperature_max cfg) t)
    as Hin.
  destruct (negb (js_lt (Some t) (Some (temperature_min cfg))
                  || js_gt (Some t) (Some (temperature_max cfg)))).
  - split; [intros _; by apply Hin | done].
  - split; [done | intros Ht; by apply Hin in Ht].
Qed.

(** C8 (as amended): a Reading with its required fields and a pressure in
    the envelope [0.5, 2.0] is accepted exactly when its temperature lies
    in the closed range [temperatureMin, temperatureMax]; there is no
    tolerance band.  In particular a temperature equal to either bound is
    accepted when the range is not empty. *)
Theorem validate_temperature_range (cfg : AlertConfig)
    (m : gmap string json) (p t : Qc) :
  forallb (fun f => negb (Js.nullish (m !! f))) requiredFields = true ->
  m !! "P_bar_abs" = Some (JNum p) ->
  (Q2Qc (1 # 2) <= p)%Qc -> (p <= MAX_PRESSURE)%Qc ->
  m !! "T_C" = Some (JNum t) ->
  (validateTelemetryData rt cfg (JObj m) = Ok true
     <-> (temperature_min cfg <= t)%Qc /\ (t <= temperature_max cfg)%Qc) /\
  ((temperature_min cfg <= temperature_max cfg)%Qc ->
     t = temperature_min cfg \/ t = temperature_max cfg ->
     validateTelemetryData rt cfg (JObj m) = Ok true).
Proof.
  intros Hreq HP Hlo Hhi HT.
  pose proof (validate_accepts_iff cfg m p t Hreq HP Hlo Hhi HT) as Hiff.
  split; [exact Hiff|].
  intros Hne [-> | ->]; apply Hiff; split; done.
Qed.

(** ** Effects of the pipeline stages *)

Lemma bind_gets {A B : Type} (f : World -> A) (k : A -> M B) (w : World) :
  (gets f ≫= k) w = k (f w) w.
Proof. reflexivity. Qed.

Lemma bind_lift_Ok {A B : Type} (r : Res A) (a : A) (k : A -> M B) (w : World) :
  r = Ok a -> (lift r ≫= k) w = k a w.
Proof. by intros ->. Qed.

Lemma bind_lift_Throw {A B : Type} (r : Res A) (k : A -> M B) (w : World) :
  r = Throw -> (lift r ≫= k) w = (Throw, w).
Proof. by intros ->. Qed.

Lemma bind_Ok {A B : Type} (m : M A) (k : A -> M B) (w w' : World) (a : A) :
  m w = (Ok a, w') -> (m ≫= k) w = k a w'.
Proof. intros H. unfold mbind, M_bind. by rewrite H. Qed.

Lemma run_exec {A : Type} (m : M A) (w : World) (a : A) :
  (m w).1 = Ok a -> m w = (Ok a, exec m w).
Proof. unfold exec. destruct (m w) as [r w']. simpl. by intros ->. Qed.

Lemma saveTelemetryData_obj (m : gmap string json) (w : World) :
  saveTelemetryData rt (JObj m) w
    = (Ok tt,
       if unique_violation (sql_text rt (m !! "msg_id")) (tbl_telemetry w) then w
       else set_tbl_telemetry (tbl_telemetry w ++ [telemetry_row rt m]) w).
Proof. reflexivity. Qed.

Lemma updateFlaskState_obj (m : gmap string json) (w : World) :
  updateFlaskState (JObj m) w
    = (Ok tt, set_flaskStates (flask_states_after m (flaskStates w)) w).
Proof.
  unfold updateFlaskState, flask_states_after, mbind, M_bind, lift, modify.
  cbn [prop].
  by destruct (map_get (m !! "flask_id") (flaskStates w)).
Qed.

(** Saving and publishing a list of alerts. *)
Lemma forEach_alerts_effect (assay_id flask_id : option json) (fired : list Alert) :
  forall w,
    let publish := fun alert =>
      saveAlert alert;; mqtt_publish (MqttAlert "ankom" assay_id flask_id alert) in
    let w' := exec (forEach fired publish) w in
    (forEach fired publish w).1 = Ok tt /\
    controls w' = controls w /\
    tbl_telemetry w' = tbl_telemetry w /\
    flaskStates w' = flaskStates w /\
    tbl_alerts w' = tbl_alerts w ++ alert_rows (length (tbl_alerts w)) fired /\
    ws_out w' = ws_out w ++ alert_events (length (tbl_alerts w)) fired /\
    mqtt_out w' = mqtt_out w ++ map (MqttAlert "ankom" assay_id flask_id) fired.
Proof.
  induction fired as [|a fired IH]; intros w publish w'.
  - subst w'. unfold exec. simpl. by rewrite !app_nil_r.
  - subst w'. unfold exec. cbn [forEach].
    set (w1 := exec (publish a) w).
    assert (Hstep : publish a w = (Ok tt, w1)) by reflexivity.
    rewrite (bind_Ok _ _ _ _ _ Hstep).
    destruct (IH w1) as (Hok & Hc & Ht & Hf & Ha & Hw & Hq).
    fold publish in Hok, Hc, Ht, Hf, Ha, Hw, Hq. unfold exec in *.
    cbv beta. split; [exact Hok|].
    rewrite Hc, Ht, Hf, Ha, Hw, Hq.
    subst w1. unfold exec, publish. simpl.
    rewrite !length_app. simpl. rewrite !Nat.add_1_r.
    rewrite <- !app_assoc. simpl. repeat split.
Qed.

Lemma checkAlerts_effect (m : gmap string json) (w : World) (fired : list Alert) :
  checkAlerts_rules rt (alertConfig w) (JObj m) = Ok fired ->
  let w' := exec (checkAlerts rt (JObj m)) w in
  (checkAlerts rt (JObj m) w).1 = Ok tt /\
  controls w' = controls w /\
  tbl_telemetry w' = tbl_telemetry w /\
  flaskStates w' = flaskStates w /\
  tbl_alerts w' = tbl_alerts w ++ alert_rows (length (tbl_alerts w)) fired /\
  ws_out w' = ws_out w ++ alert_events (length (tbl_alerts w)) fired /\
  mqtt_out w' = mqtt_out w
                ++ map (MqttAlert "ankom" (m !! "assay_id") (m !! "flask_id")) fired.
Proof.
  intros Hrules w'. subst w'. unfold exec, checkAlerts.
  rewrite bind_gets, (bind_lift_Ok _ _ _ _ Hrules).
  apply (forEach_alerts_effect (m !! "assay_id") (m !! "flask_id") fired w).
Qed.


(** ** Alert Evaluator *)

(** The rules on a Reading whose pressure is a number: the pressure rule
    contributes at most the first alert, and the other two rules add
    alerts of other types. *)
Lemma checkAlerts_rules_numeric (cfg : AlertConfig) (m : gmap string json) (p : Qc) :
  m !! "P_bar_abs" = Some (JNum p) ->
  exists others,
    checkAlerts_rules rt cfg (JObj m)
      = Ok ((if bool_decide (relief_threshold cfg < p)%Qc
             then [high_pressure_alert (m !! "flask_id") p] else []) ++ others) /\
    Forall (fun a => alert_type a ≠ "high_pressure") others.
Proof.
  intros HP. unfold checkAlerts_rules, mbind, Res_bind. cbn [prop].
  rewrite HP. cbn [ToNumber toFixed].
  change (js_gt (Some p) (Some (relief_threshold cfg)))
    with (bool_decide (relief_threshold cfg < p)%Qc).
  unfold high_pressure_alert.
  destruct (bool_decide (relief_threshold cfg < p)%Qc);
    destruct (js_lt (ToNumber rt (m !! "T_C")) _ || js_gt (ToNumber rt (m !! "T_C")) _);
    destruct (Js.str_eq (m !! "event") "relief");
    eexists; (split; [cbn [app]; try reflexivity;
                      by rewrite ?app_nil_r |]);
    repeat constructor; done.
Qed.

Lemma alert_rows_app (n : nat) (l1 l2 : list Alert) :
  alert_rows n (l1 ++ l2) = alert_rows n l1 ++ alert_rows (n + length l1) l2.
Proof.
  revert n. induction l1 as [|a l1 IH]; intros n; simpl.
  - by rewrite Nat.add_0_r.
  - rewrite IH. by rewrite Nat.add_succ_r.
Qed.

Lemma rows_of_type_others (type : string) (n : nat) (others : list Alert) :
  Forall (fun a => alert_type a ≠ type) others ->
  rows_of_type type (alert_rows n others) = [].
Proof.
  intros H. revert n. induction H as [|a others Ha _ IH]; intros n; [done|].
  unfold rows_of_type in *. simpl. rewrite filter_cons.
  destruct (decide (arow_type (alert_row (S n) a) = type)) as [E|_]; [done|].
  apply IH.
Qed.

Lemma rows_of_type_app (type : string) (l1 l2 : list AlertRow) :
  rows_of_type type (l1 ++ l2) = rows_of_type type l1 ++ rows_of_type type l2.
Proof. apply filter_app. Qed.

Lemma alerts_since_effect (w w' : World) (rows : list AlertRow) :
  tbl_alerts w' = tbl_alerts w ++ rows ->
  alerts_since (length (tbl_alerts w)) w' = rows.
Proof. intros H. unfold alerts_since. rewrite H. by rewrite drop_app_length. Qed.

(** C5: on a Reading whose pressure equals the configured relief
    threshold the Alert Evaluator saves no [high_pressure] alert; when the
    pressure is strictly greater it saves exactly one, with severity
    [warning]. *)
Theorem checkAlerts_threshold_strict (w : World) (m : gmap string json)
    (p thr : Qc) :
  pressureReliefThreshold (alertConfig w) = Some thr ->
  m !! "P_bar_abs" = Some (JNum p) ->
  let w' := exec (checkAlerts rt (JObj m)) w in
  let saved := alerts_since (length (tbl_alerts w)) w' in
  (p = thr -> rows_of_type "high_pressure" saved = []) /\
  ((thr < p)%Qc ->
     rows_of_type "high_pressure" saved
       = [alert_row (S (length (tbl_alerts w)))
            (high_pressure_alert (m !! "flask_id") p)] /\
     Forall (fun r => arow_severity r = "warning")
            (rows_of_type "high_pressure" saved)).
Proof.
  intros Hthr HP w' saved.
  destruct (checkAlerts_rules_numeric (alertConfig w) m p HP)
    as (others & Hrules & Hothers).
  destruct (checkAlerts_effect m w _ Hrules) as (_ & _ & _ & _ & Htbl & _).
  fold w' in Htbl.
  assert (Hsaved : rows_of_type "high_pressure" saved
            = rows_of_type "high_pressure"
                (alert_rows (length (tbl_alerts w))
                   (if bool_decide (thr < p)%Qc
                    then [high_pressure_alert (m !! "flask_id") p] else []))).
  { subst saved. rewrite (alerts_since_effect w w' _ Htbl), alert_rows_app.
    rewrite rows_of_type_app.
    rewrite (rows_of_type_others _ _ _ Hothers), app_nil_r.
    unfold relief_threshold. by rewrite Hthr. }
  rewrite Hsaved. clear Hsaved.
  split.
  - intros ->. rewrite bool_decide_eq_false_2; [done|].
    intros Hlt. apply (Qclt_not_le _ _ Hlt), Qcle_refl.
  - intros Hlt. rewrite bool_decide_eq_true_2 by done.
    split; [done|]. by repeat constructor.
Qed.

(** ** Ingestion *)


(** The effect of [processTelemetryData] on an accepted object on which
    the alert rules do not raise. *)
Lemma processTelemetryData_accepted (m : gmap string json) (namespace : string)
    (w : World) (fired : list Alert) :
  validateTelemetryData rt (alertConfig w) (JObj m) = Ok true ->
  checkAlerts_rules rt (alertConfig w) (JObj m) = Ok fired ->
  let w' := exec (processTelemetryData rt (JObj m) namespace) w in
  (processTelemetryData rt (JObj m) namespace w).1 = Ok tt /\
  controls w' = controls w /\
  tbl_telemetry w' = telemetry_after rt m w /\
  flaskStates w' = flask_states_after m (flaskStates w) /\
  tbl_alerts w' = tbl_alerts w ++ alert_rows (length (tbl_alerts w)) fired /\
  ws_out w' = ws_out w ++ alert_events (length (tbl_alerts w)) fired
              ++ [WsTelemetry (JObj m)] /\
  mqtt_out w' = mqtt_out w
                ++ map (MqttAlert "ankom" (m !! "assay_id") (m !! "flask_id")) fired
                ++ [MqttAck (if bool_decide (namespace = "rumen") then "rumen" else "ankom")
                      (m !! "assay_id") (m !! "flask_id") (m !! "msg_id")].
Proof.
  intros Hvalid Hrules w'. subst w'. unfold exec, processTelemetryData.
  rewrite bind_gets, (bind_lift_Ok _ _ _ _ Hvalid). cbn [negb].
  rewrite bind_gets.
  set (w1 := set_tbl_telemetry (telemetry_after rt m w) w).
  assert (H1 : (if telemetryCaptureEnabled w
                then saveTelemetryData rt (JObj m) else skip) w = (Ok tt, w1)).
  { subst w1. unfold telemetry_after.
    destruct (telemetryCaptureEnabled w) eqn:Hen.
    - rewrite saveTelemetryData_obj.
      destruct (unique_violation _ _); [|done]. by destruct w.
    - by destruct w. }
  rewrite (bind_Ok _ _ _ _ _ H1).
  rewrite (bind_Ok _ _ _ _ _ (updateFlaskState_obj m w1)).
  set (w2 := set_flaskStates _ w1).
  destruct (checkAlerts_effect m w2 fired Hrules) as (Hok & Hc & Ht & Hf & Ha & Hw & Hq).
  rewrite (bind_Ok _ _ _ _ _ (run_exec _ _ _ Hok)).
  set (w3 := exec (checkAlerts rt (JObj m)) w2) in *.
  unfold broadcastToWebSocket, mqtt_publish, mbind, M_bind, modify, lift.
  cbn [prop fst snd].
  cbn [controls tbl_telemetry flaskStates tbl_alerts ws_out mqtt_out
       set_ws_out set_mqtt_out telemetryCaptureEnabled currentCaptureSessionId
       alertConfig tbl_capture_sessions tbl_flask_configs lastCsvExportAt csv_out].
  split; [done|]. split.
  { transitivity (controls w3); [reflexivity|]. by rewrite Hc. }
  split; [by rewrite Ht|]. split; [by rewrite Hf|].
  split; [by rewrite Ha|].
  split; [rewrite Hw; by rewrite <- app_assoc|].
  rewrite Hq. by rewrite <- app_assoc.
Qed.

Lemma valid_reading_inv (cfg : AlertConfig) (data : json) :
  valid_reading rt cfg data = true ->
  exists m p q mid,
    data = JObj m /\
    validateTelemetryData rt cfg (JObj m) = Ok true /\
    m !! "P_bar_abs" = Some (JNum p) /\
    m !! "flask_id" = Some (JNum q) /\
    m !! "msg_id" = Some (JStr mid).
Proof.
  unfold valid_reading, is_reading. intros H.
  apply andb_true_iff in H as [Hr Hv].
  destruct data as [| | | | |m]; try done.
  repeat (apply andb_true_iff in Hr as [Hr ?]).
  destruct (m !! "P_bar_abs") as [[| |p| | |]|] eqn:HP; try done.
  destruct (m !! "flask_id") as [[| |q| | |]|] eqn:Hq; try done.
  destruct (m !! "msg_id") as [[| | |mid| |]|] eqn:Hmid; try done.
  exists m, p, q, mid. repeat split; try done.
  by destruct (validateTelemetryData rt cfg (JObj m)) as [[|]|].
Qed.

(** One accepted Reading: the stages it passes and what each leaves. *)
Lemma ingest_valid_reading (data : json) (namespace : string) (w : World) :
  valid_reading rt (alertConfig w) data = true ->
  let w' := exec (processTelemetryData rt data namespace) w in
  exists m fired,
    data = JObj m /\
    checkAlerts_rules rt (alertConfig w) (JObj m) = Ok fired /\
    controls w' = controls w /\
    tbl_telemetry w' = telemetry_after rt m w /\
    flaskStates w' = flask_states_after m (flaskStates w) /\
    tbl_alerts w' = tbl_alerts w ++ alert_rows (length (tbl_alerts w)) fired /\
    ws_out w' = ws_out w ++ alert_events (length (tbl_alerts w)) fired
                ++ [WsTelemetry (JObj m)].
Proof.
  intros Hv w'.
  destruct (valid_reading_inv _ _ Hv) as (m & p & q & mid & -> & Hvalid & HP & _).
  destruct (checkAlerts_rules_numeric (alertConfig w) m p HP) as (others & Hrules & _).
  destruct (processTelemetryData_accepted m namespace w _ Hvalid Hrules)
    as (_ & Hc & Ht & Hf & Ha & Hw & _).
  exists m. eexists. by repeat split.
Qed.

Lemma telemetry_events_app (l1 l2 : list WsMessage) :
  telemetry_events (l1 ++ l2) = telemetry_events l1 ++ telemetry_events l2.
Proof. apply omap_app. Qed.

Lemma telemetry_events_alerts (n : nat) (fired : list Alert) :
  telemetry_events (alert_events n fired) = [].
Proof. revert n. induction fired as [|a fired IH]; intros n; [done|]. apply IH. Qed.

Lemma new_alert_events_app (l1 l2 : list WsMessage) :
  new_alert_events (l1 ++ l2) = new_alert_events l1 ++ new_alert_events l2.
Proof. apply omap_app. Qed.

Lemma new_alert_events_alerts (n : nat) (fired : list Alert) :
  new_alert_events (alert_events n fired) = fired.
Proof.
  revert n. induction fired as [|a fired IH]; intros n; [done|].
  simpl. unfold new_alert_events in *. simpl. by rewrite IH.
Qed.

(** ** Station snapshots *)

Lemma map_get_update (k : option json) (f : FlaskState -> FlaskState)
    (states : list (option json * FlaskState)) (s : FlaskState) :
  map_get k states = Some s -> map_get k (map_update k f states) = Some (f s).
Proof.
  induction states as [|[k' s'] states IH]; [done|]. simpl.
  destruct (same_key k k') eqn:E; simpl; rewrite E; [by intros [= ->]|done].
Qed.

Lemma map_get_new (k : option json) (s : FlaskState)
    (states : list (option json * FlaskState)) :
  same_key k k = true -> map_get k states = None ->
  map_get k (states ++ [(k, s)]) = Some s.
Proof.
  intros Hk. induction states as [|[k' s'] states IH]; simpl.
  - by rewrite Hk.
  - by destruct (same_key k k').
Qed.

(** After [updateFlaskState] the snapshot of the station holds the
    pressure, temperature and timestamp of the Reading. *)
Lemma flask_states_after_snapshot (m : gmap string json)
    (states : list (option json * FlaskState)) :
  same_key (m !! "flask_id") (m !! "flask_id") = true ->
  exists s,
    map_get (m !! "flask_id") (flask_states_after m states) = Some s /\
    last_pressure s = m !! "P_bar_abs" /\
    last_temperature s = m !! "T_C" /\
    last_timestamp s = m !! "ts".
Proof.
  intros Hk. unfold flask_states_after.
  destruct (map_get (m !! "flask_id") states) as [s0|] eqn:E.
  - eexists. split; [by apply map_get_update|]. done.
  - eexists. split; [by apply map_get_new|]. done.
Qed.

(** ** Capture gating *)

Lemma ingest_all_snoc (readings : list json) (data : json) (namespace : string)
    (w : World) :
  ingest_all rt (readings ++ [data]) namespace w
    = exec (processTelemetryData rt data namespace) (ingest_all rt readings namespace w).
Proof. unfold ingest_all. by rewrite foldl_app. Qed.

Lemma controls_inv (w w' : World) :
  controls w' = controls w ->
  telemetryCaptureEnabled w' = telemetryCaptureEnabled w /\
  alertConfig w' = alertConfig w.
Proof. unfold controls. by intros [= -> _ -> _ _ _ _]. Qed.

Lemma telemetry_after_disabled (m : gmap string json) (w : World) :
  telemetryCaptureEnabled w = false -> telemetry_after rt m w = tbl_telemetry w.
Proof. unfold telemetry_after. by intros ->. Qed.

(** While capture is disabled, a run of valid Readings leaves the gate,
    the configuration and the table [telemetry] as they were, and
    broadcasts one [telemetry] event per Reading, in order. *)
Lemma ingest_all_disabled (readings : list json) (namespace : string) :
  forall w,
    telemetryCaptureEnabled w = false ->
    Forall (fun data => valid_reading rt (alertConfig w) data = true) readings ->
    let w' := ingest_all rt readings namespace w in
    controls w' = controls w /\
    tbl_telemetry w' = tbl_telemetry w /\
    telemetry_events (ws_out w') = telemetry_events (ws_out w) ++ readings.
Proof.
  induction readings as [|data readings IH]; intros w Hoff Hall w'.
  - subst w'. simpl. by rewrite app_nil_r.
  - subst w'. apply Forall_cons in Hall as [Hd Hall]. simpl.
    destruct (ingest_valid_reading data namespace w Hd)
      as (m & fired & -> & _ & Hc & Ht & _ & _ & Hw).
    set (w1 := exec (processTelemetryData rt (JObj m) namespace) w) in *.
    destruct (controls_inv _ _ Hc) as [Hen Hcfg].
    rewrite Hoff in Hen. rewrite <- Hcfg in Hall.
    destruct (IH w1 Hen Hall) as (Hc' & Ht' & Hw').
    fold (ingest_all rt readings namespace w1).
    rewrite Hc', Hc, Ht', Ht, Hw', Hw.
    rewrite (telemetry_after_disabled m w Hoff).
    rewrite !telemetry_events_app, telemetry_events_alerts.
    rewrite <- !app_assoc. by repeat split.
Qed.

(** C4: while capture is disabled, ingesting N valid Readings persists no
    telemetry row, broadcasts a [telemetry] event for each of the N
    Readings, and leaves after each Reading the snapshot of its station
    holding that Reading's pressure, temperature and timestamp. *)
Theorem capture_disabled_ingestion (readings : list json) (namespace : string)
    (w : World) :
  telemetryCaptureEnabled w = false ->
  forallb (valid_reading rt (alertConfig w)) readings = true ->
  let w' := ingest_all rt readings namespace w in
  tbl_telemetry w' = tbl_telemetry w /\
  telemetry_events (ws_out w') = telemetry_events (ws_out w) ++ readings /\
  forall before data after, readings = before ++ data :: after ->
    exists m s,
      data = JObj m /\
      map_get (m !! "flask_id")
        (flaskStates (ingest_all rt (before ++ [data]) namespace w)) = Some s /\
      last_pressure s = m !! "P_bar_abs" /\
      last_temperature s = m !! "T_C" /\
      last_timestamp s = m !! "ts".
Proof.
  intros Hoff Hall w'.
  assert (Hall' : Forall (fun data =>
            valid_reading rt (alertConfig w) data = true) readings).
  { apply Forall_forall. intros data Hin.
    apply (proj1 (forallb_forall _ _) Hall). by apply list_elem_of_In. }
  clear Hall. rename Hall' into Hall.
  destruct (ingest_all_disabled readings namespace w Hoff Hall) as (_ & Ht & Hw).
  split; [exact Ht|]. split; [exact Hw|].
  intros before data after ->.
  apply Forall_app in Hall as [Hbefore Hdata].
  apply Forall_cons in Hdata as [Hdata _].
  destruct (ingest_all_disabled before namespace w Hoff Hbefore) as (Hc & _ & _).
  set (wb := ingest_all rt before namespace w) in *.
  destruct (controls_inv _ _ Hc) as [_ Hcfg]. rewrite <- Hcfg in Hdata.
  rewrite ingest_all_snoc. fold wb.
  destruct (valid_reading_inv _ _ Hdata) as (m' & _ & q & _ & Hm & _ & _ & Hq & _).
  destruct (ingest_valid_reading data namespace wb Hdata)
    as (m & fired & -> & _ & _ & _ & Hf & _ & _).
  injection Hm as <-.
  destruct (flask_states_after_snapshot m (flaskStates wb)) as (s & Hs & Hfields).
  { rewrite Hq. simpl. by apply bool_decide_eq_true_2. }
  exists m, s. rewrite Hf. by split.
Qed.

(** ** Idempotent persistence *)

Lemma unique_violation_false (k : string) (rows : list TelemetryRow) :
  rows_with_msg_id k rows = [] -> unique_violation (Some k) rows = false.
Proof.
  unfold rows_with_msg_id, unique_violation. induction rows as [|r rows IH]; [done|].
  rewrite filter_cons. simpl. destruct (decide (row_msg_id r = Some k)) as [E|E]; [done|].
  intros H. by rewrite (bool_decide_eq_false_2 _ E), IH.
Qed.

Lemma unique_violation_true (k : string) (rows : list TelemetryRow) (r : TelemetryRow) :
  r ∈ rows -> row_msg_id r = Some k -> unique_violation (Some k) rows = true.
Proof.
  intros Hin Hk. unfold unique_violation. apply existsb_exists.
  exists r. split; [by apply list_elem_of_In | by apply bool_decide_eq_true_2].
Qed.

(** C2 (as amended): with capture enabled and no stored row carrying its
    [msg_id], ingesting a valid Reading twice leaves exactly one
    telemetry row with that [msg_id]: the second insert is refused by the
    uniqueness constraint.  The Alert Evaluator runs on each ingestion, so
    the second ingestion saves the alerts of the Reading again, and
    broadcasts them again: the subscribers are sent each alert twice. *)
Theorem ingest_twice_one_row (m : gmap string json) (mid : string)
    (namespace : string) (w : World) :
  telemetryCaptureEnabled w = true ->
  valid_reading rt (alertConfig w) (JObj m) = true ->
  m !! "msg_id" = Some (JStr mid) ->
  rows_with_msg_id mid (tbl_telemetry w) = [] ->
  let w1 := exec (processTelemetryData rt (JObj m) namespace) w in
  let w2 := exec (processTelemetryData rt (JObj m) namespace) w1 in
  rows_with_msg_id mid (tbl_telemetry w2) = [telemetry_row rt m] /\
  tbl_telemetry w2 = tbl_telemetry w ++ [telemetry_row rt m] /\
  exists fired,
    checkAlerts_rules rt (alertConfig w) (JObj m) = Ok fired /\
    alerts_since (length (tbl_alerts w)) w1
      = alert_rows (length (tbl_alerts w)) fired /\
    alerts_since (length (tbl_alerts w1)) w2
      = alert_rows (length (tbl_alerts w1)) fired /\
    new_alert_events (ws_out w1) = new_alert_events (ws_out w) ++ fired /\
    new_alert_events (ws_out w2) = new_alert_events (ws_out w) ++ fired ++ fired.
Proof.
  intros Hon Hv Hmid Hfresh w1 w2.
  destruct (ingest_valid_reading (JObj m) namespace w Hv)
    as (m1 & fired & [= <-] & Hrules & Hc & Ht & _ & Ha & Hw).
  fold w1 in Hc, Ht, Ha, Hw.
  destruct (controls_inv _ _ Hc) as [Hen Hcfg].
  assert (Hv1 : valid_reading rt (alertConfig w1) (JObj m) = true) by by rewrite Hcfg.
  destruct (ingest_valid_reading (JObj m) namespace w1 Hv1)
    as (m2 & fired2 & [= <-] & Hrules2 & _ & Ht2 & _ & Ha2 & Hw2).
  fold w2 in Ht2, Ha2, Hw2.
  rewrite Hcfg, Hrules in Hrules2. injection Hrules2 as <-.
  assert (Hrow : row_msg_id (telemetry_row rt m) = Some mid).
  { unfold telemetry_row. simpl. by rewrite Hmid. }
  assert (Ht1 : tbl_telemetry w1 = tbl_telemetry w ++ [telemetry_row rt m]).
  { rewrite Ht. unfold telemetry_after. rewrite Hon.
    replace (sql_text rt (m !! "msg_id")) with (Some mid) by by rewrite Hmid.
    by rewrite (unique_violation_false _ _ Hfresh). }
  assert (Ht2' : tbl_telemetry w2 = tbl_telemetry w1).
  { rewrite Ht2. unfold telemetry_after. rewrite Hen, Hon.
    replace (sql_text rt (m !! "msg_id")) with (Some mid) by by rewrite Hmid.
    rewrite (unique_violation_true mid _ (telemetry_row rt m)); [done| |done].
    rewrite Ht1. apply elem_of_app. right. by apply list_elem_of_singleton. }
  split.
  { rewrite Ht2', Ht1. unfold rows_with_msg_id in *.
    rewrite filter_app, Hfresh, filter_cons.
    by rewrite (decide_True _ _ Hrow). }
  split; [by rewrite Ht2'|].
  assert (Hn1 : new_alert_events (ws_out w1) = new_alert_events (ws_out w) ++ fired).
  { rewrite Hw, !new_alert_events_app, new_alert_events_alerts.
    by rewrite app_nil_r. }
  exists fired. split; [done|].
  split; [by apply alerts_since_effect|].
  split; [by apply alerts_since_effect|].
  split; [exact Hn1|].
  rewrite Hw2, !new_alert_events_app, new_alert_events_alerts, Hn1.
  by rewrite app_nil_r, <- app_assoc.
Qed.

(** ** Capture Session Controller *)

Lemma open_effect (trigger assayId : option string) (now : string) (w : World) :
  let w' := capture_step (Open trigger assayId now) w in
  tbl_capture_sessions w'
    = tbl_capture_sessions w
      ++ [new_session (length (tbl_capture_sessions w)) trigger assayId now] /\
  pending_sessions w'
    = pending_sessions w ++ [S (length (tbl_capture_sessions w))] /\
  currentCaptureSessionId w' = currentCaptureSessionId w /\
  telemetryCaptureEnabled w' = true.
Proof. done. Qed.

Lemma inserted_effect (w : World) :
  let w' := capture_step Inserted w in
  tbl_capture_sessions w' = tbl_capture_sessions w /\
  telemetryCaptureEnabled w' = telemetryCaptureEnabled w /\
  match pending_sessions w with
  | lastID :: rest =>
      currentCaptureSessionId w' = Some lastID /\ pending_sessions w' = rest
  | [] =>
      currentCaptureSessionId w' = currentCaptureSessionId w /\
      pending_sessions w' = []
  end.
Proof.
  unfold capture_step, exec, session_inserted, modify. cbn [snd].
  destruct (pending_sessions w) eqn:E; [by rewrite E | done].
Qed.

Lemma close_effect (trigger : option string) (now : string) (w : World) :
  (forall id, currentCaptureSessionId w = Some id -> id ≠ 0) ->
  let w' := capture_step (Close trigger now) w in
  tbl_capture_sessions w'
    = match currentCaptureSessionId w with
      | Some id =>
          update_session id "disabled" now (or_null trigger) (tbl_capture_sessions w)
      | None => tbl_capture_sessions w
      end /\
  currentCaptureSessionId w' = None /\
  telemetryCaptureEnabled w' = false /\
  pending_sessions w' = pending_sessions w.
Proof.
  intros Hid w'. subst w'. unfold capture_step, exec, closeCaptureSession, modify.
  cbn [snd]. destruct (currentCaptureSessionId w) as [id|] eqn:E; [|done].
  by rewrite (bool_decide_eq_false_2 _ (Hid id eq_refl)).
Qed.

Lemma current_session_open_id (w : World) (id : nat) :
  current_session_open w -> currentCaptureSessionId w = Some id -> id ≠ 0.
Proof. unfold current_session_open. intros H E. rewrite E in H. by destruct H as (_ & ? & _). Qed.

(** *** Whatever the order of the calls and the completions *)

Lemma sessions_well_formed_open (rows : list SessionRow)
    (trigger assayId : option string) (now : string) :
  sessions_well_formed rows ->
  sessions_well_formed (rows ++ [new_session (length rows) trigger assayId now]).
Proof.
  intros [Hids Hst]. split.
  - rewrite map_app, length_app, seq_app, Hids. done.
  - apply Forall_app. split; [done|]. by repeat constructor.
Qed.

Lemma sessions_well_formed_close (rows : list SessionRow) (id : nat)
    (now : string) (trigger : option string) :
  sessions_well_formed rows ->
  sessions_well_formed (update_session id "disabled" now trigger rows).
Proof.
  intros [Hids Hst]. unfold update_session. split.
  - rewrite length_fmap, <- Hids. rewrite <- !list_fmap_compose.
    apply list_fmap_ext. intros i r _. simpl. by destruct (bool_decide _).
  - apply Forall_fmap. eapply Forall_impl; [exact Hst|].
    intros r Hr. simpl. by destruct (bool_decide _).
Qed.

Lemma session_open_bounds (rows : list SessionRow) (id : nat) :
  sessions_well_formed rows -> session_open rows id ->
  1 <= id <= length rows.
Proof.
  intros [Hids _] (row & Hin & <- & _).
  assert (H : session_id row ∈ seq 1 (length rows)).
  { rewrite <- Hids. apply list_elem_of_fmap. by exists row. }
  apply elem_of_seq in H. lia.
Qed.

Lemma session_open_app (rows : list SessionRow) (row : SessionRow) (id : nat) :
  session_open rows id -> session_open (rows ++ [row]) id.
Proof.
  intros (r & Hin & H). exists r. split; [|done]. apply elem_of_app. by left.
Qed.

Lemma session_open_new (rows : list SessionRow)
    (trigger assayId : option string) (now : string) :
  session_open (rows ++ [new_session (length rows) trigger assayId now])
    (S (length rows)).
Proof.
  eexists. split; [apply elem_of_app; right; by apply list_elem_of_singleton|].
  done.
Qed.

Lemma session_open_update (rows : list SessionRow) (id other : nat)
    (now : string) (trigger : option string) :
  other ≠ id -> session_open rows other ->
  session_open (update_session id "disabled" now trigger rows) other.
Proof.
  intros Hne (r & Hin & Hid & H). exists r. split; [|done].
  unfold update_session. apply list_elem_of_fmap. exists r. split; [|done].
  rewrite bool_decide_eq_false_2; [done|]. by rewrite Hid.
Qed.

Lemma controller_consistent_step (c : CaptureCommand) (w : World) :
  controller_consistent w -> controller_consistent (capture_step c w).
Proof.
  intros (Hwf & Hpen & Hsort & Hcur).
  destruct c as [trigger assayId now|trigger now|].
  - destruct (open_effect trigger assayId now w) as (Ht & Hp & Hc & _).
    unfold controller_consistent. rewrite Ht, Hp, Hc.
    assert (Hlt : Forall (fun p => p < S (length (tbl_capture_sessions w)))
                    (pending_sessions w)).
    { eapply Forall_impl; [exact Hpen|]. intros p Hp'. simpl.
      pose proof (session_open_bounds _ _ Hwf Hp'). lia. }
    split; [by apply sessions_well_formed_open|].
    split.
    { apply Forall_app. split.
      - eapply Forall_impl; [exact Hpen|]. intros p. apply session_open_app.
      - constructor; [apply session_open_new | constructor]. }
    split.
    { clear -Hsort Hlt. induction Hsort as [|p l Hs IH Hall]; simpl.
      - by repeat constructor.
      - apply Forall_cons_1 in Hlt as [Hp Hl].
        constructor; [by apply IH|].
        apply Forall_app. split; [done|]. constructor; [exact Hp|constructor]. }
    destruct (currentCaptureSessionId w) as [id|]; [|done].
    destruct Hcur as (Hid & Hopen & Hall).
    split; [done|]. split; [by apply session_open_app|].
    apply Forall_app. split; [done|]. constructor; [|constructor].
    pose proof (session_open_bounds _ _ Hwf Hopen). lia.
  - destruct (close_effect trigger now w) as (Ht & Hc & _ & Hp).
    { intros id E. rewrite E in Hcur. by destruct Hcur. }
    unfold controller_consistent. rewrite Ht, Hc, Hp.
    destruct (currentCaptureSessionId w) as [id|]; [|done].
    destruct Hcur as (Hid & Hopen & Hall).
    split; [by apply sessions_well_formed_close|].
    split; [|done].
    rewrite Forall_forall in Hpen, Hall. apply Forall_forall. intros p Hp'.
    apply session_open_update; [|by apply Hpen].
    specialize (Hall p Hp'). simpl in Hall. lia.
  - pose proof (inserted_effect w) as (Ht & _ & Hp).
    unfold controller_consistent. rewrite Ht.
    destruct (pending_sessions w) as [|p rest].
    + destruct Hp as [-> ->].
      split; [done|]. split; [done|]. split; [done|]. exact Hcur.
    + destruct Hp as [-> ->].
      apply Forall_cons_1 in Hpen as [Hp Hrest].
      apply StronglySorted_inv in Hsort as [Hsort Hall].
      split; [done|]. split; [done|]. split; [done|].
      split; [|by split].
      pose proof (session_open_bounds _ _ Hwf Hp). lia.
Qed.

Lemma controller_consistent_run (cs : list CaptureCommand) (w : World) :
  controller_consistent w -> controller_consistent (capture_run cs w).
Proof.
  revert w. induction cs as [|c cs IH]; intros w H; [done|].
  simpl. apply IH. by apply controller_consistent_step.
Qed.

Lemma controller_consistent_start : controller_consistent world0.
Proof. repeat split; constructor. Qed.

(** *** When no call is issued while a completion is pending *)

Lemma drained_sessions_step (c : CaptureCommand) (w : World) :
  drained_sessions w ->
  issued_when_drained (length (pending_sessions w)) [c] = true ->
  drained_sessions (capture_step c w).
Proof.
  intros H Hd. destruct c as [trigger assayId now|trigger now|]; simpl in Hd.
  - apply andb_true_iff in Hd as [Hd _]. apply Nat.eqb_eq in Hd.
    destruct (open_effect trigger assayId now w) as (Ht & Hp & _ & He).
    unfold drained_sessions. rewrite Hp, Ht, He.
    destruct (pending_sessions w); [|done]. cbn [app].
    split; [done|]. split; [done|].
    eexists. split; [apply last_snoc|]. done.
  - apply andb_true_iff in Hd as [Hd _]. apply Nat.eqb_eq in Hd.
    unfold drained_sessions in H.
    destruct (pending_sessions w) eqn:Ep; [|done].
    destruct (close_effect trigger now w) as (_ & Hc & He & Hp).
    { intros id. by apply current_session_open_id. }
    unfold drained_sessions, current_session_open. by rewrite Hp, Ep, Hc, He.
  - pose proof (inserted_effect w) as (Ht & He & Hp).
    unfold drained_sessions in *.
    destruct (pending_sessions w) as [|p [|q rest]]; [done| |done].
    destruct Hp as [Hc ->]. destruct H as (Hen & Hne & row & Hlast & Hid & Hst).
    unfold current_session_open. rewrite Hc, He, Ht.
    split; [done|]. split; [done|]. by exists row.
Qed.

Lemma close_pending (trigger : option string) (now : string) (w : World) :
  pending_sessions (capture_step (Close trigger now) w) = pending_sessions w.
Proof.
  unfold capture_step, exec, closeCaptureSession, modify. cbn [snd].
  destruct (currentCaptureSessionId w) as [id|]; [|done].
  by destruct (bool_decide (id = 0)).
Qed.

Lemma issued_when_drained_cons (c : CaptureCommand) (cs : list CaptureCommand)
    (w : World) :
  issued_when_drained (length (pending_sessions w)) (c :: cs) = true ->
  issued_when_drained (length (pending_sessions w)) [c] = true /\
  issued_when_drained (length (pending_sessions (capture_step c w))) cs = true.
Proof.
  destruct c as [trigger assayId now|trigger now|];
    cbn [issued_when_drained]; intros H;
    apply andb_true_iff in H as [H1 H2]; rewrite H1; (split; [done|]).
  - apply Nat.eqb_eq in H1.
    destruct (open_effect trigger assayId now w) as (_ & -> & _).
    rewrite length_app, H1. done.
  - apply Nat.eqb_eq in H1. by rewrite close_pending, H1.
  - pose proof (inserted_effect w) as (_ & _ & Hp).
    destruct (pending_sessions w) as [|p rest]; [done|].
    destruct Hp as [_ ->]. done.
Qed.

Lemma drained_sessions_run (cs : list CaptureCommand) :
  forall w,
    drained_sessions w ->
    issued_when_drained (length (pending_sessions w)) cs = true ->
    drained_sessions (capture_run cs w).
Proof.
  induction cs as [|c cs IH]; intros w H Hd; [done|].
  apply issued_when_drained_cons in Hd as [Hc Hcs].
  simpl. apply IH; [by apply drained_sessions_step | done].
Qed.

Lemma enabled_sessions_snoc (w w' : World) (row : SessionRow) :
  tbl_capture_sessions w' = tbl_capture_sessions w ++ [row] ->
  session_status row = "enabled" ->
  enabled_sessions w' = enabled_sessions w ++ [row].
Proof.
  intros Ht Hs. unfold enabled_sessions. rewrite Ht, filter_app, filter_cons.
  by rewrite (decide_True _ _ Hs).
Qed.

(** Closing session [id] leaves no enabled row when every enabled row
    carries that id. *)
Lemma update_session_disables (id : nat) (now : string) (trigger : option string)
    (rows : list SessionRow) :
  Forall (fun r => session_status r = "enabled" -> session_id r = id) rows ->
  filter (fun r => session_status r = "enabled")
         (update_session id "disabled" now trigger rows) = [].
Proof.
  induction 1 as [|r rows Hr _ IH]; [done|].
  unfold update_session in *. rewrite fmap_cons, filter_cons.
  destruct (bool_decide (session_id r = id)) eqn:E.
  - rewrite decide_False; [exact IH|]. cbn [session_status]. done.
  - apply bool_decide_eq_false in E.
    rewrite decide_False; [exact IH|]. intros Hs. by apply E, Hr.
Qed.

(** Closing session [id] rewrites the row that carries this id: it becomes
    [disabled], with its [stopped_at] and the trigger of the close, and
    keeps its start and its assay. *)
Lemma close_marks_current (id : nat) (now : string) (trigger : option string)
    (rows : list SessionRow) (row : SessionRow) :
  row ∈ rows -> session_id row = id ->
  exists row',
    row' ∈ update_session id "disabled" now trigger rows /\
    session_id row' = id /\
    session_status row' = "disabled" /\
    session_started_at row' = session_started_at row /\
    session_stopped_at row' = Some now.
Proof.
  intros Hin Hid. eexists. split.
  - unfold update_session. apply list_elem_of_fmap. by exists row.
  - rewrite (bool_decide_eq_true_2 _ Hid). by repeat split.
Qed.

Lemma drained_enabled_step (c : CaptureCommand) (w : World) :
  drained_enabled w ->
  issued_when_drained (length (pending_sessions w)) [c] = true ->
  opens_while_disabled (telemetryCaptureEnabled w) [c] = true ->
  drained_enabled (capture_step c w).
Proof.
  intros H Hd Ho. destruct c as [trigger assayId now|trigger now|];
    simpl in Hd, Ho.
  - apply andb_true_iff in Hd as [Hd _]. apply Nat.eqb_eq in Hd.
    rewrite andb_true_r in Ho. apply negb_true_iff in Ho.
    destruct (open_effect trigger assayId now w) as (Ht & Hp & Hc & He).
    unfold drained_enabled in *. rewrite Hp, He.
    destruct (pending_sessions w); [|done]. cbn [app].
    unfold enabled_is_current in H.
    destruct (currentCaptureSessionId w) as [id|] eqn:Ec;
      [destruct H; congruence|].
    destruct H as [_ Hnone].
    split; [done|]. split; [done|]. split; [by rewrite Hc|].
    eexists. rewrite (enabled_sessions_snoc w _ _ Ht eq_refl), Hnone. done.
  - apply andb_true_iff in Hd as [Hd _]. apply Nat.eqb_eq in Hd.
    unfold drained_enabled in H.
    destruct (pending_sessions w) eqn:Ep; [|done].
    assert (Hid : forall id, currentCaptureSessionId w = Some id -> id ≠ 0).
    { intros id E. unfold enabled_is_current in H. rewrite E in H.
      by destruct H as (_ & ? & _). }
    destruct (close_effect trigger now w Hid) as (Ht & Hc & He & Hp).
    unfold drained_enabled, enabled_is_current. rewrite Hp, Ep, Hc, He.
    split; [done|].
    unfold enabled_is_current, enabled_sessions in *. rewrite Ht.
    destruct (currentCaptureSessionId w) as [id|]; [|by destruct H].
    destruct H as (_ & _ & row & Hrow & Hrid).
    apply update_session_disables. apply Forall_forall. intros r Hr Hs.
    assert (Hin : r ∈ [row]).
    { rewrite <- Hrow. apply list_elem_of_filter. by split. }
    apply list_elem_of_singleton in Hin. by subst.
  - pose proof (inserted_effect w) as (Ht & He & Hp).
    unfold drained_enabled in *.
    destruct (pending_sessions w) as [|p [|q rest]]; [done| |done].
    destruct Hp as [Hc ->]. destruct H as (Hen & Hne & _ & row & Hrow & Hid).
    unfold enabled_is_current, enabled_sessions in *. rewrite Hc, He, Ht.
    split; [done|]. split; [done|]. by exists row.
Qed.

Lemma opens_while_disabled_cons (c : CaptureCommand) (cs : list CaptureCommand)
    (w : World) :
  opens_while_disabled (telemetryCaptureEnabled w) (c :: cs) = true ->
  opens_while_disabled (telemetryCaptureEnabled w) [c] = true /\
  opens_while_disabled (telemetryCaptureEnabled (capture_step c w)) cs = true.
Proof.
  destruct c as [trigger assayId now|trigger now|];
    cbn [opens_while_disabled]; intros H.
  - apply andb_true_iff in H as [-> H]. done.
  - split; [done|].
    unfold capture_step, exec, closeCaptureSession, modify. by cbn [snd].
  - split; [done|]. by destruct (inserted_effect w) as (_ & -> & _).
Qed.

Lemma drained_enabled_run (cs : list CaptureCommand) :
  forall w,
    drained_enabled w ->
    issued_when_drained (length (pending_sessions w)) cs = true ->
    opens_while_disabled (telemetryCaptureEnabled w) cs = true ->
    drained_enabled (capture_run cs w).
Proof.
  induction cs as [|c cs IH]; intros w H Hd Ho; [done|].
  apply issued_when_drained_cons in Hd as [Hc Hcs].
  apply opens_while_disabled_cons in Ho as [Hoc Hocs].
  simpl. apply IH; [by apply drained_enabled_step | done | done].
Qed.

(** C3 (as amended): the id of the current session is assigned when the
    [INSERT] of [openCaptureSession] completes, not at the call.
    [openCaptureSession] always appends a new session with status
    [enabled] and enables the gate; it leaves the earlier rows and the
    current id as they are, so it neither records the [stopped_at] of a
    session that is still open nor is a no-op when capture is already
    enabled.  [closeCaptureSession] marks the session that is current at
    the call [disabled] with its [stopped_at], and changes no row when
    none is current.  At every state reached from start-up, whatever the
    order of the calls and the completions, the sessions are numbered in
    the order of their opening and the current session, if any, is a row
    with status [enabled] and no [stopped_at].  When every call is issued
    with no completion pending, then once none is pending the current
    session is the newest row and the gate is enabled exactly when there
    is one; when moreover every open is issued while capture is disabled,
    at most one session has status [enabled]. *)
Theorem capture_sessions_current (cs : list CaptureCommand) :
  let w := capture_run cs world0 in
  controller_consistent w /\
  (forall trigger assayId now,
     let w' := capture_step (Open trigger assayId now) w in
     tbl_capture_sessions w'
       = tbl_capture_sessions w
         ++ [new_session (length (tbl_capture_sessions w)) trigger assayId now] /\
     pending_sessions w'
       = pending_sessions w ++ [S (length (tbl_capture_sessions w))] /\
     currentCaptureSessionId w' = currentCaptureSessionId w /\
     telemetryCaptureEnabled w' = true) /\
  (let w' := capture_step Inserted w in
   tbl_capture_sessions w' = tbl_capture_sessions w /\
   telemetryCaptureEnabled w' = telemetryCaptureEnabled w /\
   match pending_sessions w with
   | lastID :: rest =>
       currentCaptureSessionId w' = Some lastID /\ pending_sessions w' = rest
   | [] =>
       currentCaptureSessionId w' = currentCaptureSessionId w /\
       pending_sessions w' = []
   end) /\
  (forall trigger now,
     let w' := capture_step (Close trigger now) w in
     tbl_capture_sessions w'
       = match currentCaptureSessionId w with
         | Some id =>
             update_session id "disabled" now (or_null trigger)
               (tbl_capture_sessions w)
         | None => tbl_capture_sessions w
         end /\
     currentCaptureSessionId w' = None /\
     telemetryCaptureEnabled w' = false /\
     pending_sessions w' = pending_sessions w /\
     (forall id, currentCaptureSessionId w = Some id ->
        exists row row',
          row ∈ tbl_capture_sessions w /\
          row' ∈ tbl_capture_sessions w' /\
          session_id row = id /\
          session_id row' = id /\
          session_status row = "enabled" /\
          session_status row' = "disabled" /\
          session_started_at row' = session_started_at row /\
          session_stopped_at row' = Some now)) /\
  (issued_when_drained 0 cs = true ->
   pending_sessions w = [] -> current_session_open w) /\
  (issued_when_drained 0 cs = true ->
   opens_while_disabled false cs = true ->
   length (enabled_sessions w) <= 1).
Proof.
  intros w.
  assert (Hcons : controller_consistent w)
    by (apply controller_consistent_run, controller_consistent_start).
  split; [exact Hcons|].
  split; [intros; apply open_effect|].
  split; [apply inserted_effect|].
  split.
  { intros trigger now w'.
    destruct Hcons as (_ & _ & _ & Hcur).
    destruct (close_effect trigger now w) as (Ht & Hc & He & Hp).
    { intros id E. rewrite E in Hcur. by destruct Hcur. }
    fold w' in Ht, Hc, He, Hp. split; [exact Ht|]. split; [exact Hc|].
    split; [exact He|]. split; [exact Hp|].
    intros id Hid. rewrite Hid in Hcur, Ht.
    destruct Hcur as (_ & (row & Hin & Hrid & Hst & _) & _).
    destruct (close_marks_current id now (or_null trigger) _ row Hin Hrid)
      as (row' & Hin' & Hid' & Hst' & Hsa & Hso).
    exists row, row'. rewrite Ht. by repeat split. }
  split.
  { intros Hd Hp.
    assert (H : drained_sessions w) by (by apply drained_sessions_run).
    unfold drained_sessions in H. by rewrite Hp in H. }
  intros Hd Ho.
  assert (H : drained_enabled w).
  { apply drained_enabled_run; [|done|done]. by split. }
  unfold drained_enabled, enabled_is_current in H.
  destruct (pending_sessions w) as [|p [|q rest]]; [| |done].
  - destruct (currentCaptureSessionId w).
    + destruct H as (_ & _ & row & -> & _). done.
    + destruct H as [_ ->]. simpl. lia.
  - destruct H as (_ & _ & _ & row & -> & _). done.
Qed.

(** ** Periodic Window Exporter *)

Lemma elem_of_insert_by_timestamp (r x : TelemetryRow) (l : list TelemetryRow) :
  x ∈ insert_by_timestamp r l <-> x = r \/ x ∈ l.
Proof.
  induction l as [|y l IH]; simpl.
  - rewrite list_elem_of_singleton, elem_of_nil. tauto.
  - destruct (timestamp_leb y r); rewrite !elem_of_cons; [rewrite IH|]; tauto.
Qed.

Lemma elem_of_order_by_timestamp (x : TelemetryRow) (l : list TelemetryRow) :
  x ∈ order_by_timestamp l <-> x ∈ l.
Proof.
  unfold order_by_timestamp.
  assert (H : forall acc, x ∈ foldl (fun acc r => insert_by_timestamp r acc) acc l
                          <-> x ∈ acc \/ x ∈ l).
  { induction l as [|y l IH]; intros acc; simpl.
    - rewrite elem_of_nil. tauto.
    - rewrite IH, elem_of_insert_by_timestamp, elem_of_cons. tauto. }
  rewrite H, elem_of_nil. tauto.
Qed.

(** The query returns exactly the stored rows whose timestamp lies in the
    closed interval from [startISO] to [endISO]. *)
Lemma elem_of_select_window (startISO endISO : string) (rows : list TelemetryRow)
    (r : TelemetryRow) :
  r ∈ select_window (Some startISO) endISO rows
  <-> r ∈ rows /\ exists t, row_timestamp r = Some t /\
                           String.leb startISO t = true /\ String.leb t endISO = true.
Proof.
  unfold select_window. rewrite elem_of_order_by_timestamp, list_elem_of_filter.
  unfold in_window. split.
  - intros [Hw Hin]. split; [done|].
    destruct (row_timestamp r) as [t|]; [|done].
    apply andb_true_iff in Hw. eauto.
  - intros [Hin (t & -> & H1 & H2)]. split; [|done]. by rewrite H1, H2.
Qed.

(** A tick whose export is not rejected moves the watermark to the clock
    reading of the tick; an empty window writes no file. *)
Lemma csv_export_tick_watermark (endISO : string) (fs_ok : bool) (w : World) :
  select_window (lastCsvExportAt w) endISO (tbl_telemetry w) = [] \/ fs_ok = true ->
  lastCsvExportAt (csv_export_tick endISO fs_ok w) = Some endISO.
Proof.
  intros H.
  unfold csv_export_tick, exec, exportTelemetryWindowToCSV, mbind, M_bind,
    gets, modify, lift, mret, M_ret.
  destruct (select_window _ _ _) as [|r rows]; [done|].
  destruct H as [H| ->]; done.
Qed.

Lemma csv_export_tick_empty (endISO : string) (fs_ok : bool) (w : World) :
  select_window (lastCsvExportAt w) endISO (tbl_telemetry w) = [] ->
  csv_out (csv_export_tick endISO fs_ok w) = csv_out w.
Proof.
  intros H.
  unfold csv_export_tick, exec, exportTelemetryWindowToCSV, mbind, M_bind,
    gets, modify, lift, mret, M_ret.
  by rewrite H.
Qed.

(** The window of a tick ends, and the window of the next tick starts, at
    the same instant, and both bounds are inclusive: a stored row stamped
    with that instant is selected by both. *)
Lemma window_bound_shared (startISO endISO nextISO : string)
    (rows : list TelemetryRow) (r : TelemetryRow) :
  r ∈ rows -> row_timestamp r = Some endISO ->
  String.leb startISO endISO = true -> String.leb endISO nextISO = true ->
  r ∈ select_window (Some startISO) endISO rows /\
  r ∈ select_window (Some endISO) nextISO rows.
Proof.
  intros Hin Ht H1 H2.
  assert (Hrefl : String.leb endISO endISO = true)
    by (by destruct (String.leb_total endISO endISO)).
  split; apply elem_of_select_window; split; try done; exists endISO; done.
Qed.

(** Only such a row is selected twice. *)
Lemma window_overlap_is_bound (startISO endISO nextISO : string)
    (rows : list TelemetryRow) (r : TelemetryRow) :
  r ∈ select_window (Some startISO) endISO rows ->
  r ∈ select_window (Some endISO) nextISO rows ->
  row_timestamp r = Some endISO.
Proof.
  intros H1 H2.
  apply elem_of_select_window in H1 as (_ & t & Ht & _ & Hle).
  apply elem_of_select_window in H2 as (_ & t' & Ht' & Hge & _).
  rewrite Ht in Ht'. injection Ht' as <-.
  rewrite Ht. f_equal. by apply String.leb_antisym.
Qed.

(** ** Ingestion of a rejected payload through the message handler *)

Lemma bind_broadcast {B : Type} (message : WsMessage) (k : unit -> M B) (w : World) :
  (broadcastToWebSocket message ≫= k) w
    = k tt (set_ws_out (ws_out w ++ [message]) w).
Proof. reflexivity. Qed.

(** On a telemetry topic, an object that the validator rejects is still
    handed to the broadcaster by [handleMQTTMessage]. *)
Lemma handleMQTTMessage_rejected_broadcast (topic now : string)
    (m : gmap string json) (w : World) :
  Js.includes "/telemetry" topic = true ->
  validateTelemetryData rt (alertConfig w) (normalizeTelemetryPayload (JObj m))
    = Ok false ->
  exists rest,
    ws_out (handleMQTTMessage rt topic (Some (JObj m)) now w)
      = ws_out w ++ WsTelemetry (normalizeTelemetryPayload (JObj m)) :: rest.
Proof.
  intros Htopic Hv. unfold handleMQTTMessage, exec, handleMQTTMessage_try.
  rewrite (bind_lift_Ok _ _ _ _ eq_refl). cbv zeta. rewrite Htopic.
  rewrite (normalize_spread (JObj m)) in * by done.
  set (n := normalized_fields (Js.spread (JObj m))) in *.
  assert (Hp : processTelemetryData rt (JObj n) (Js.first_segment topic) w = (Ok tt, w)).
  { unfold processTelemetryData. rewrite bind_gets.
    by rewrite (bind_lift_Ok _ _ _ _ Hv). }
  rewrite (bind_Ok _ _ _ _ _ Hp).
  rewrite bind_broadcast.
  set (w1 := set_ws_out (ws_out w ++ [WsTelemetry (JObj n)]) w).
  cbn [prop]. rewrite (bind_lift_Ok _ _ _ _ eq_refl).
  destruct (js_gt (ToNumber rt (n !! "P_bar_abs")) (Some (Q2Qc (5 # 2)))).
  - rewrite !(bind_lift_Ok _ _ _ _ eq_refl).
    destruct (toFixed (n !! "P_bar_abs")) as [shown|] eqn:E.
    + rewrite (bind_lift_Ok _ _ _ _ eq_refl). eexists.
      unfold saveAlert, broadcastToWebSocket, mqtt_publish, mbind, M_bind, modify, gets.
      cbn [snd ws_out set_mqtt_out set_ws_out set_alerts set_tbl_alerts w1].
      rewrite <- !app_assoc. reflexivity.
    + rewrite (bind_lift_Throw _ _ _ eq_refl). by exists [].
  - by exists [].
Qed.


(** A pressure that the validator accepts is not above 2.5 bar, so the
    pressure check of the handler itself stays silent on accepted data. *)
Lemma accepted_pressure_below_ceiling (cfg : AlertConfig) (m : gmap string json) :
  validateTelemetryData rt cfg (JObj m) = Ok true ->
  js_gt (ToNumber rt (m !! "P_bar_abs")) (Some (Q2Qc (5 # 2))) = false.
Proof.
  rewrite validate_obj. intros [= H].
  apply andb_true_iff in H as [H _]. apply andb_true_iff in H as [_ H].
  apply negb_true_iff, orb_false_iff in H as [_ H].
  unfold js_gt, js_lt in *.
  destruct (ToNumber rt (m !! "P_bar_abs")) as [p|]; [|done].
  apply bool_decide_eq_false in H. apply bool_decide_eq_false_2.
  intros Hgt. apply H. eapply Qclt_trans; [|exact Hgt]. done.
Qed.

(** On a telemetry topic, a payload that normalises to a valid Reading goes
    through [processTelemetryData] and is then broadcast a second time by
    [handleMQTTMessage]. *)
Lemma handleMQTTMessage_valid_reading (topic now : string)
    (m : gmap string json) (w : World) :
  Js.includes "/telemetry" topic = true ->
  valid_reading rt (alertConfig w) (normalizeTelemetryPayload (JObj m)) = true ->
  let w' := handleMQTTMessage rt topic (Some (JObj m)) now w in
  exists n fired,
    normalizeTelemetryPayload (JObj m) = JObj n /\
    checkAlerts_rules rt (alertConfig w) (JObj n) = Ok fired /\
    controls w' = controls w /\
    tbl_telemetry w' = telemetry_after rt n w /\
    flaskStates w' = flask_states_after n (flaskStates w) /\
    tbl_alerts w' = tbl_alerts w ++ alert_rows (length (tbl_alerts w)) fired /\
    ws_out w' = ws_out w ++ alert_events (length (tbl_alerts w)) fired
                ++ [WsTelemetry (JObj n); WsTelemetry (JObj n)].
Proof.
  intros Htopic Hv w'. subst w'.
  unfold handleMQTTMessage, exec, handleMQTTMessage_try.
  rewrite (bind_lift_Ok _ _ _ _ eq_refl). cbv zeta. rewrite Htopic.
  destruct (valid_reading_inv _ _ Hv) as (n & p & q & mid & Hn & Hvalid & HP & _).
  rewrite Hn in *.
  destruct (checkAlerts_rules_numeric (alertConfig w) n p HP) as (others & Hrules & _).
  destruct (processTelemetryData_accepted n (Js.first_segment topic) w _ Hvalid Hrules)
    as (Hok & Hc & Ht & Hf & Ha & Hw & _).
  rewrite (bind_Ok _ _ _ _ _ (run_exec _ _ _ Hok)).
  set (w1 := exec (processTelemetryData rt (JObj n) (Js.first_segment topic)) w) in *.
  rewrite bind_broadcast. cbn [prop]. rewrite (bind_lift_Ok _ _ _ _ eq_refl).
  rewrite (accepted_pressure_below_ceiling _ _ Hvalid).
  exists n. eexists. split; [done|]. split; [exact Hrules|].
  cbn [skip mret M_ret snd].
  split; [by rewrite <- Hc|]. split; [by rewrite <- Ht|].
  split; [by rewrite <- Hf|]. split; [by rewrite <- Ha|].
  cbn [ws_out set_ws_out]. rewrite Hw. by rewrite <- !app_assoc.
Qed.
End PipelineProperties.

(** * Evaluations on the scenarios *)

(** C1 (the handler departs from it): a message whose Reading fails
    validation persists no telemetry row, but [handleMQTTMessage] still
    broadcasts it as a [telemetry] event; when the rejected pressure
    exceeds 2.5 bar it also saves an alert and broadcasts it twice. *)
Theorem rejected_readings_reach_subscribers :
  let topic := "ankom/X/1/telemetry" in
  let now := "2024-01-01T00:00:31.000Z" in
  let w1 := handleMQTTMessage rt0 topic (Some (JObj ∅)) now world_capturing in
  let w2 := handleMQTTMessage rt0 topic (Some reading_overpressure) now world_capturing in
  validateTelemetryData rt0 (alertConfig world_capturing)
    (normalizeTelemetryPayload (JObj ∅)) = Ok false /\
  tbl_telemetry w1 = [] /\
  tbl_alerts w1 = [] /\
  ws_out w1 = [WsTelemetry (normalizeTelemetryPayload (JObj ∅))] /\
  validateTelemetryData rt0 (alertConfig world_capturing)
    (normalizeTelemetryPayload reading_overpressure) = Ok false /\
  tbl_telemetry w2 = [] /\
  map arow_type (tbl_alerts w2) = ["pressure_warning"] /\
  telemetry_events (ws_out w2) = [normalizeTelemetryPayload reading_overpressure] /\
  map alert_type (new_alert_events (ws_out w2)) = ["pressure_warning"; "pressure_warning"].
Proof. vm_compute. repeat split. Qed.

(** C7 (the handler departs from it): in the end-to-end scenario the
    Reading is persisted once, one [high_pressure] alert of severity
    [warning] is saved and broadcast once, and the [telemetry] event is
    broadcast twice: once by [processTelemetryData] and once more by
    [handleMQTTMessage]. *)
Theorem end_to_end_scenario :
  let data := normalizeTelemetryPayload reading_a in
  let w := handleMQTTMessage rt0 "ankom/X/1/telemetry" (Some reading_a)
             "2024-01-01T00:00:01.000Z" world_capturing in
  let staged := exec (processTelemetryData rt0 data "ankom") world_capturing in
  pressureReliefThreshold (alertConfig world_capturing) = Some (Q2Qc (3 # 2)) /\
  telemetryCaptureEnabled world_capturing = true /\
  map row_msg_id (tbl_telemetry w) = [Some "a"] /\
  map (fun r => (arow_type r, arow_severity r)) (tbl_alerts w)
    = [("high_pressure", "warning")] /\
  map (fun a => (alert_type a, alert_severity a)) (new_alert_events (ws_out w))
    = [("high_pressure", "warning")] /\
  telemetry_events (ws_out w) = [data; data] /\
  telemetry_events (ws_out staged) = [data].
Proof. vm_compute. repeat split. Qed.

(** C6 (the exporter departs from it): the query bounds are both
    inclusive, so a persisted Reading stamped with the instant of a tick is
    written to the file of the window that ends there and again to the file
    of the window that starts there. *)
Theorem reading_on_tick_exported_twice :
  let stored := handleMQTTMessage rt0 "ankom/X/1/telemetry" (Some reading_on_tick)
                  "2024-01-01T00:04:59.990Z" world_capturing in
  let w0 := scheduleCsvAutoExport "2024-01-01T00:00:00.000Z" stored in
  let w1 := csv_export_tick "2024-01-01T00:05:00.000Z" true w0 in
  let w2 := csv_export_tick "2024-01-01T00:10:00.000Z" true w1 in
  map row_msg_id (tbl_telemetry stored) = [Some "d"] /\
  lastCsvExportAt w1 = Some "2024-01-01T00:05:00.000Z" /\
  lastCsvExportAt w2 = Some "2024-01-01T00:10:00.000Z" /\
  map (fun f => (csv_filename f, map row_msg_id (csv_rows f))) (csv_out w2)
    = [("telemetry_2024-01-01T00-00-00.000Z_to_2024-01-01T00-05-00.000Z.csv",
        [Some "d"]);
       ("telemetry_2024-01-01T00-05-00.000Z_to_2024-01-01T00-10-00.000Z.csv",
        [Some "d"])].
Proof. vm_compute. repeat split. Qed.

(** * Counterexamples *)

(** Against C2 as stated: the second ingestion of the same Reading saves
    its [high_pressure] alert a second time. *)
Lemma second_ingestion_fires_alerts_again :
  let data := normalizeTelemetryPayload reading_a in
  let w1 := exec (processTelemetryData rt0 data "ankom") world_capturing in
  let w2 := exec (processTelemetryData rt0 data "ankom") w1 in
  map row_msg_id (tbl_telemetry w2) = [Some "a"] /\
  map arow_type (tbl_alerts w1) = ["high_pressure"] /\
  map arow_type (alerts_since (length (tbl_alerts w1)) w2) = ["high_pressure"] /\
  map alert_type (new_alert_events (ws_out w2)) = ["high_pressure"; "high_pressure"].
Proof. vm_compute. repeat split. Qed.

(** Against C3 as stated: opening twice, each [INSERT] completing before
    the next call, leaves two sessions with status [enabled]; the first one
    never gets a [stopped_at]. *)
Lemma open_twice_two_enabled :
  let w := capture_run
             [Open (Some "simulation_start") None "2024-01-01T00:00:00.000Z";
              Inserted;
              Open (Some "assay_start") (Some "X") "2024-01-01T00:01:00.000Z";
              Inserted]
             world0 in
  map session_id (enabled_sessions w) = [1; 2] /\
  map session_stopped_at (tbl_capture_sessions w) = [None; None] /\
  ~ length (enabled_sessions w) <= 1.
Proof. vm_compute. repeat split. lia. Qed.

(** The completions matter: a close issued before the [INSERT] of the
    preceding open has completed finds no current session, so the session
    keeps status [enabled] while the gate is disabled and its id becomes
    current afterwards; the next open, although issued while capture is
    disabled, then leaves two sessions with status [enabled]. *)
Lemma close_before_completion :
  let cs := [Open (Some "assay_start") (Some "X") "2024-01-01T00:00:00.000Z";
             Close (Some "assay_stop") "2024-01-01T00:00:00.001Z";
             Inserted] in
  let next := [Open (Some "assay_start") (Some "Y") "2024-01-01T00:01:00.000Z";
               Inserted] in
  let w := capture_run cs world0 in
  issued_when_drained 0 cs = false /\
  opens_while_disabled false (cs ++ next) = true /\
  telemetryCaptureEnabled w = false /\
  currentCaptureSessionId w = Some 1 /\
  map session_status (tbl_capture_sessions w) = ["enabled"] /\
  map session_stopped_at (tbl_capture_sessions w) = [None] /\
  map session_id (enabled_sessions (capture_run (cs ++ next) world0)) = [1; 2].
Proof. vm_compute. repeat split. Qed.

(** Against C9 as stated: the default of an absent [event] is [null], not
    the string "none". *)
Lemma event_default_is_null :
  exists n,
    normalizeTelemetryPayload (JObj ∅) = JObj n /\
    n !! "event" = Some JNull /\
    n !! "event" ≠ Some (JStr "none").
Proof. eexists. split; [reflexivity|]. vm_compute. by split. Qed.

(** Against C8 as stated: no positive tolerance extends the accepted
    range, since a temperature above [temperatureMax] by any amount is
    already rejected. *)
Lemma no_tolerance_band :
  ~ exists tol : Qc,
      (0 < tol)%Qc /\
      forall t : Qc,
        (temperature_min alertConfig0 - tol <= t)%Qc ->
        (t <= temperature_max alertConfig0 + tol)%Qc ->
        validateTelemetryData rt0 alertConfig0 (reading_at_temperature t) = Ok true.
Proof.
  intros (tol & Hpos & Hband).
  set (tmin := temperature_min alertConfig0) in *.
  set (tmax := temperature_max alertConfig0) in *.
  assert (Hlt : (tmax < tmax + tol)%Qc).
  { rewrite <- (Qcplus_0_r tmax) at 1. by apply Qcplus_lt_mono_l. }
  assert (Hup : (tmax <= tmax + tol)%Qc) by by apply Qclt_le_weak.
  assert (Hdown : (tmin - tol <= tmin)%Qc).
  { rewrite <- (Qcplus_0_r tmin) at 2. apply Qcplus_le_mono_l.
    apply Qclt_le_weak, Qclt_minus_iff.
    by replace (0 + - - tol)%Qc with tol by ring. }
  assert (Hrange : (tmin <= tmax)%Qc) by done.
  specialize (Hband (tmax + tol)%Qc).
  assert (Hacc : validateTelemetryData rt0 alertConfig0
                   (reading_at_temperature (tmax + tol)%Qc) = Ok true).
  { apply Hband; [|apply Qcle_refl].
    eapply Qcle_trans; [exact Hdown|]. by eapply Qcle_trans. }
  apply (validate_accepts_iff rt0 alertConfig0 _ (Q2Qc (16 # 10)) (tmax + tol)%Qc)
    in Hacc as [_ Hle]; try done.
  exact (Qcle_not_lt _ _ Hle Hlt).
Qed.

(** * Instances of the theorems on the scenarios *)

Lemma normalize_defaults_witness :
  Js.truthy (JObj ∅) = true /\
  Js.typeof (JObj ∅) = "object" /\
  exists n, normalizeTelemetryPayload (JObj ∅) = JObj n /\
    (Js.spread (JObj ∅) !! "relief_count" = None ->
     n !! "relief_count" = Some (JNum 0%Qc)) /\
    (Js.spread (JObj ∅) !! "event" = None -> n !! "event" = Some JNull).
Proof.
  split; [reflexivity|]. split; [reflexivity|].
  apply (normalize_defaults (JObj ∅)); reflexivity.
Defined.

Lemma normalize_idempotent_canonical_witness :
  let p := JObj (list_to_map [("T_C", JNum (Q2Qc (39 # 1))); ("C", JNum (Q2Qc (5 # 1)))]) in
  "T_C" ∈ canonical_keys /\
  Js.spread p !! "T_C" = Some (JNum (Q2Qc (39 # 1))) /\
  exists n, normalizeTelemetryPayload p = JObj n /\
            n !! "T_C" = Some (JNum (Q2Qc (39 # 1))).
Proof.
  intros p.
  assert (Hk : "T_C" ∈ canonical_keys) by (vm_compute; apply list_elem_of_here).
  assert (Hv : Js.spread p !! "T_C" = Some (JNum (Q2Qc (39 # 1))))
    by (vm_compute; reflexivity).
  split; [exact Hk|]. split; [exact Hv|].
  exact (proj2 (normalize_idempotent_canonical p) "T_C" _ Hk Hv).
Defined.

Lemma validate_temperature_range_witness :
  let m := mk_fields "a" "X" "2024-01-01T00:00:00Z"
             (Q2Qc (1 # 1)) (Q2Qc (16 # 10)) (Q2Qc (45 # 1)) in
  (temperature_min alertConfig0 <= temperature_max alertConfig0)%Qc /\
  validateTelemetryData rt0 alertConfig0 (JObj m) = Ok true.
Proof.
  intros m.
  assert (Hne : (temperature_min alertConfig0 <= temperature_max alertConfig0)%Qc)
    by (vm_compute; discriminate).
  split; [exact Hne|].
  apply (proj2 (validate_temperature_range rt0 alertConfig0 m
                  (Q2Qc (16 # 10)) (Q2Qc (45 # 1))
                  ltac:(vm_compute; reflexivity) ltac:(vm_compute; reflexivity)
                  ltac:(vm_compute; discriminate) ltac:(vm_compute; discriminate)
                  ltac:(vm_compute; reflexivity)) Hne).
  right. reflexivity.
Defined.

Lemma checkAlerts_threshold_strict_witness :
  let m := mk_fields "a" "X" "2024-01-01T00:00:00Z"
             (Q2Qc (1 # 1)) (Q2Qc (16 # 10)) (Q2Qc (39 # 1)) in
  (Q2Qc (3 # 2) < Q2Qc (16 # 10))%Qc /\
  rows_of_type "high_pressure"
    (alerts_since (length (tbl_alerts world0)) (exec (checkAlerts rt0 (JObj m)) world0))
    = [alert_row 1 (high_pressure_alert (m !! "flask_id") (Q2Qc (16 # 10)))].
Proof.
  intros m.
  assert (Hlt : (Q2Qc (3 # 2) < Q2Qc (16 # 10))%Qc) by (vm_compute; reflexivity).
  split; [exact Hlt|].
  exact (proj1 (proj2 (checkAlerts_threshold_strict rt0 world0 m
                         (Q2Qc (16 # 10)) (Q2Qc (3 # 2))
                         ltac:(reflexivity) ltac:(vm_compute; reflexivity)) Hlt)).
Defined.

Lemma capture_disabled_ingestion_witness :
  let readings := [normalizeTelemetryPayload reading_a;
                   normalizeTelemetryPayload reading_b] in
  let w' := ingest_all rt0 readings "ankom" world0 in
  telemetryCaptureEnabled world0 = false /\
  forallb (valid_reading rt0 (alertConfig world0)) readings = true /\
  tbl_telemetry w' = tbl_telemetry world0 /\
  telemetry_events (ws_out w') = telemetry_events (ws_out world0) ++ readings.
Proof.
  intros readings w'.
  assert (Hv : forallb (valid_reading rt0 (alertConfig world0)) readings = true)
    by (vm_compute; reflexivity).
  split; [reflexivity|]. split; [exact Hv|].
  destruct (capture_disabled_ingestion rt0 readings "ankom" world0 eq_refl Hv)
    as (Ht & Hw & _).
  split; [exact Ht | exact Hw].
Defined.

Lemma ingest_twice_one_row_witness :
  let m := normalized_fields
             (mk_fields "a" "X" "2024-01-01T00:00:00Z"
                (Q2Qc (1 # 1)) (Q2Qc (16 # 10)) (Q2Qc (39 # 1))) in
  let w1 := exec (processTelemetryData rt0 (JObj m) "ankom") world_capturing in
  let w2 := exec (processTelemetryData rt0 (JObj m) "ankom") w1 in
  telemetryCaptureEnabled world_capturing = true /\
  valid_reading rt0 (alertConfig world_capturing) (JObj m) = true /\
  rows_with_msg_id "a" (tbl_telemetry world_capturing) = [] /\
  rows_with_msg_id "a" (tbl_telemetry w2) = [telemetry_row rt0 m].
Proof.
  intros m w1 w2.
  assert (Hv : valid_reading rt0 (alertConfig world_capturing) (JObj m) = true)
    by (vm_compute; reflexivity).
  split; [reflexivity|]. split; [exact Hv|]. split; [reflexivity|].
  exact (proj1 (ingest_twice_one_row rt0 m "a" "ankom" world_capturing
                  eq_refl Hv ltac:(vm_compute; reflexivity) eq_refl)).
Defined.

Lemma capture_sessions_current_witness :
  let cs := [Open (Some "simulation_start") None "2024-01-01T00:00:00.000Z";
             Inserted;
             Close (Some "simulation_stop") "2024-01-01T00:30:00.000Z";
             Open (Some "assay_start") (Some "X") "2024-01-01T01:00:00.000Z";
             Inserted] in
  issued_when_drained 0 cs = true /\
  opens_while_disabled false cs = true /\
  pending_sessions (capture_run cs world0) = [] /\
  current_session_open (capture_run cs world0) /\
  length (enabled_sessions (capture_run cs world0)) <= 1.
Proof.
  intros cs. split; [reflexivity|]. split; [reflexivity|]. split; [reflexivity|].
  destruct (capture_sessions_current cs) as (_ & _ & _ & _ & Hopen & Hone).
  split; [exact (Hopen eq_refl eq_refl) | exact (Hone eq_refl eq_refl)].
Defined.

(** * Further properties of the server *)

Section HandlerInvariants.

Variable rt : Runtime.

(** ** Relations respected by every message *)

Lemma respects_lift {A : Type} (R : relation World) `{!Reflexive R} (r : Res A) :
  respects R (lift r).
Proof. intros w. apply reflexivity. Qed.

Lemma respects_gets {A : Type} (R : relation World) `{!Reflexive R} (f : World -> A) :
  respects R (gets f).
Proof. intros w. apply reflexivity. Qed.

Lemma respects_skip (R : relation World) `{!Reflexive R} : respects R skip.
Proof. intros w. apply reflexivity. Qed.

Lemma respects_bind {A B : Type} (R : relation World) `{!Transitive R}
    (m : M A) (k : A -> M B) :
  respects R m -> (forall a, respects R (k a)) -> respects R (m ≫= k).
Proof.
  intros Hm Hk w. unfold exec, mbind, M_bind.
  specialize (Hm w). unfold exec in Hm.
  destruct (m w) as [[a|] w1]; simpl in *; [|done].
  etrans; [exact Hm|]. apply Hk.
Qed.

Lemma respects_forEach {A : Type} (R : relation World) `{!PreOrder R}
    (l : list A) (f : A -> M unit) :
  (forall x, respects R (f x)) -> respects R (forEach l f).
Proof.
  intros Hf. induction l as [|x l IH]; simpl.
  - exact (respects_skip R).
  - apply respects_bind; [apply _ | apply Hf | intros _; apply IH].
Qed.

Section Handlers.

Context (R : relation World) `{!HandlerStep rt R}.

#[local] Instance handler_step_preorder : PreOrder R := step_preorder rt.

Lemma respects_checkAlerts (data : json) : respects R (checkAlerts rt data).
Proof.
  unfold checkAlerts.
  apply respects_bind; [apply _ | exact (respects_gets R _) | intros cfg].
  apply respects_bind; [apply _ | exact (respects_lift R _) | intros fired].
  apply respects_bind; [apply _ | exact (respects_lift R _) | intros assay_id].
  apply respects_bind; [apply _ | exact (respects_lift R _) | intros flask_id].
  apply respects_forEach; [apply _|]. intros alert.
  apply respects_bind; [apply _ | apply (step_saveAlert rt) | intros _].
  apply (step_publish rt).
Qed.

Lemma respects_processTelemetryData (data : json) (namespace : string) :
  respects R (processTelemetryData rt data namespace).
Proof.
  unfold processTelemetryData.
  apply respects_bind; [apply _ | exact (respects_gets R _) | intros cfg].
  apply respects_bind; [apply _ | exact (respects_lift R _) | intros valid].
  destruct valid; cbn [negb]; [|exact (respects_skip R)].
  apply respects_bind; [apply _ | exact (respects_gets R _) | intros enabled].
  apply respects_bind; [apply _ | | intros _].
  { destruct enabled; [apply (step_saveTelemetryData rt) | exact (respects_skip R)]. }
  apply respects_bind; [apply _ | apply (step_updateFlaskState rt) | intros _].
  apply respects_bind; [apply _ | apply respects_checkAlerts | intros _].
  apply respects_bind; [apply _ | apply (step_broadcast rt) | intros _].
  apply respects_bind; [apply _ | exact (respects_lift R _) | intros assay_id].
  apply respects_bind; [apply _ | exact (respects_lift R _) | intros flask_id].
  apply respects_bind; [apply _ | exact (respects_lift R _) | intros msg_id].
  apply (step_publish rt).
Qed.

Lemma respects_handleMQTTMessage_try (topic : string) (message : option json)
    (now : string) :
  respects R (handleMQTTMessage_try rt topic message now).
Proof.
  unfold handleMQTTMessage_try.
  apply respects_bind; [apply _ | exact (respects_lift R _) | intros raw].
  cbv zeta. destruct (Js.includes "/telemetry" topic).
  { apply respects_bind; [apply _ | apply respects_processTelemetryData | intros _].
    apply respects_bind; [apply _ | apply (step_broadcast rt) | intros _].
    apply respects_bind; [apply _ | exact (respects_lift R _) | intros P_bar_abs].
    destruct (js_gt _ _); [|exact (respects_skip R)].
    apply respects_bind; [apply _ | exact (respects_lift R _) | intros flask_id].
    apply respects_bind; [apply _ | exact (respects_lift R _) | intros assay_id].
    apply respects_bind; [apply _ | exact (respects_lift R _) | intros shown].
    apply respects_bind; [apply _ | apply (step_saveAlert rt) | intros _].
    apply respects_bind; [apply _ | apply (step_broadcast rt) | intros _].
    apply (step_publish rt). }
  destruct (Js.includes "/config/" topic); [apply (step_processConfigUpdate rt)|].
  destruct (bool_decide (topic = "ankom/status")); [exact (respects_skip R)|].
  destruct (bool_decide (topic = "ankom/control/speed")).
  { unfold processSpeedControl.
    apply respects_bind; [apply _ | exact (respects_lift R _) | intros speed].
    destruct speed as [s|]; [|exact (respects_skip R)].
    destruct (Js.truthy s); [apply (step_broadcast rt) | exact (respects_skip R)]. }
  destruct (bool_decide (topic = "ankom/control/pause")); [apply (step_broadcast rt)|].
  destruct (bool_decide (topic = "ankom/control/resume")); [apply (step_broadcast rt)|].
  exact (respects_skip R).
Qed.

(** Whatever the topic and the message, [handleMQTTMessage] relates the
    state before to the state after by every relation that its elementary
    effects respect. *)
Lemma handleMQTTMessage_respects (topic : string) (message : option json)
    (now : string) (w : World) :
  R w (handleMQTTMessage rt topic message now w).
Proof. apply respects_handleMQTTMessage_try. Qed.

End Handlers.

End HandlerInvariants.

Section StateShapes.

Variable rt : Runtime.

(** ** The elementary effects, as changes of the state *)

Lemma saveTelemetryData_state (data : json) (w : World) :
  exec (saveTelemetryData rt data) w = w \/
  exists row,
    unique_violation (row_msg_id row) (tbl_telemetry w) = false /\
    exec (saveTelemetryData rt data) w
      = set_tbl_telemetry (tbl_telemetry w ++ [row]) w.
Proof.
  unfold exec, saveTelemetryData, mbind, M_bind, lift, modify.
  destruct data; cbn [prop snd]; try (by left);
    match goal with
    | |- context [unique_violation ?k ?rows] =>
        destruct (unique_violation k rows) eqn:E; [by left | right; eauto]
    end.
Qed.

Lemma updateFlaskState_state (data : json) (w : World) :
  exec (updateFlaskState data) w = w \/
  (exists k s,
     map_get k (flaskStates w) = None /\
     exec (updateFlaskState data) w
       = set_flaskStates (flaskStates w ++ [(k, s)]) w) \/
  (exists k f,
     exec (updateFlaskState data) w
       = set_flaskStates (map_update k f (flaskStates w)) w).
Proof.
  unfold exec, updateFlaskState, mbind, M_bind, lift, modify.
  destruct data; cbn [prop snd]; try (by left);
    match goal with
    | |- context [map_get ?k ?states] =>
        destruct (map_get k states) eqn:E; right; [right | left]; eauto
    end.
Qed.

Lemma saveAlert_state (alert : Alert) (w : World) :
  exec (saveAlert alert) w
    = set_ws_out (ws_out w ++ [WsNewAlert (Some (S (length (tbl_alerts w)))) alert])
        (set_alerts
           (drop (length (alerts w ++ [(S (length (tbl_alerts w)), alert)]) - 100)
                 (alerts w ++ [(S (length (tbl_alerts w)), alert)]))
           (set_tbl_alerts
              (tbl_alerts w ++ [alert_row (S (length (tbl_alerts w))) alert]) w)).
Proof. reflexivity. Qed.

Lemma processConfigUpdate_state (data : json) (w : World) :
  exec (processConfigUpdate rt data) w = w \/
  exists rows,
    exec (processConfigUpdate rt data) w = set_tbl_flask_configs rows w.
Proof.
  unfold exec, processConfigUpdate, mbind, M_bind, lift, modify.
  destruct data; cbn [prop snd]; try (by left); right; eauto.
Qed.

(** ** What no message changes *)

#[local] Instance same_gate_step : HandlerStep rt same_gate.
Proof.
  unfold same_gate. split.
  - split; [by intros w | intros w1 w2 w3 H1 H2; by rewrite H2, H1].
  - by intros message w.
  - by intros m w.
  - by intros alert w.
  - intros data w. by destruct (saveTelemetryData_state data w) as [->|(row & _ & ->)].
  - intros data w.
    by destruct (updateFlaskState_state data w) as [->|[(k & s & _ & ->)|(k & f & ->)]].
  - intros data w. by destruct (processConfigUpdate_state data w) as [->|(row & ->)].
Qed.

(** X1: no message received from the broker, on any topic and with any
    payload, opens or closes capture, touches the capture sessions, changes
    the alert configuration, or moves the watermark or the files of the
    exporter. *)
Theorem mqtt_message_keeps_gate (topic : string) (message : option json)
    (now : string) (w : World) :
  gate (handleMQTTMessage rt topic message now w) = gate w.
Proof. exact (handleMQTTMessage_respects rt same_gate topic message now w). Qed.

(** ** Invariants of the reachable states

    A reachable state is [server_run rt events world0]: the state of the
    server after any sequence of broker messages, commands to the
    capture-session controller and exporter events, handled from start-up
    on an empty database. *)

Lemma keeps_preorder (P : World -> Prop) : PreOrder (keeps P).
Proof.
  unfold keeps. split; [intros w H; exact H | intros w1 w2 w3 H1 H2 H; by apply H2, H1].
Qed.

(** Control commands and the exporter leave the store alone. *)
Lemma control_event_keeps_store (e : ServerEvent) (w : World) :
  (forall topic message now, e ≠ EvMqtt topic message now) ->
  store (server_step rt e w) = store w.
Proof.
  intros Hne. destruct e as [topic message now|c|ago|endISO fs_ok]; simpl.
  - by destruct (Hne topic message now).
  - destruct c; [done| |].
    + unfold capture_step, exec, closeCaptureSession, modify. cbn [snd].
      destruct (currentCaptureSessionId w) as [id|]; [|done].
      by destruct (bool_decide (id = 0)).
    + unfold capture_step, exec, session_inserted, modify. cbn [snd].
      by destruct (pending_sessions w).
  - unfold scheduleCsvAutoExport. destruct (lastCsvExportAt w) as [s|]; [|done].
    by destruct (bool_decide (s = EmptyString)).
  - unfold csv_export_tick, exec, exportTelemetryWindowToCSV, mbind, M_bind,
      gets, modify, lift, mret, M_ret.
    destruct (select_window _ _ _); [done|]. by destruct fs_ok.
Qed.

(** An invariant of the store that the elementary effects keep holds again
    after every event. *)
Lemma server_step_keeps (P : World -> Prop) `{!HandlerStep rt (keeps P)} :
  (forall w w', store w' = store w -> P w -> P w') ->
  forall e w, P w -> P (server_step rt e w).
Proof.
  intros Hstore e w HP.
  destruct e as [topic message now|c|ago|endISO fs_ok];
    [exact (handleMQTTMessage_respects rt (keeps P) topic message now w HP)| | |];
    (eapply Hstore; [|exact HP]; by apply control_event_keeps_store).
Qed.

Lemma server_run_keeps (P : World -> Prop) `{!HandlerStep rt (keeps P)} :
  (forall w w', store w' = store w -> P w -> P w') ->
  forall events w, P w -> P (server_run rt events w).
Proof.
  intros Hstore events. induction events as [|e events IH]; intros w HP; [done|].
  simpl. apply IH. by apply server_step_keeps.
Qed.

Lemma store_inv (w w' : World) :
  store w' = store w ->
  tbl_telemetry w' = tbl_telemetry w /\ tbl_alerts w' = tbl_alerts w /\
  tbl_flask_configs w' = tbl_flask_configs w /\ flaskStates w' = flaskStates w /\
  alerts w' = alerts w /\ ws_out w' = ws_out w /\ mqtt_out w' = mqtt_out w.
Proof. unfold store. by intros [= -> -> -> -> -> -> ->]. Qed.

(** *** UNIQUE(msg_id) *)

Lemma unique_violation_not_in (k : string) (rows : list TelemetryRow) :
  unique_violation (Some k) rows = false -> k ∉ omap row_msg_id rows.
Proof.
  unfold unique_violation. intros H Hin.
  apply list_elem_of_omap in Hin as (r & Hr & Hk).
  assert (existsb (fun r => bool_decide (row_msg_id r = Some k)) rows = true);
    [|congruence].
  apply existsb_exists. exists r.
  split; [by apply list_elem_of_In | by apply bool_decide_eq_true_2].
Qed.

Lemma msg_ids_unique_insert (row : TelemetryRow) (rows : list TelemetryRow) :
  unique_violation (row_msg_id row) rows = false ->
  msg_ids_unique rows -> msg_ids_unique (rows ++ [row]).
Proof.
  unfold msg_ids_unique. intros Hv Hu. rewrite omap_app. simpl.
  destruct (row_msg_id row) as [k|]; simpl; [|by rewrite app_nil_r].
  apply NoDup_app. split; [done|]. split; [|apply NoDup_singleton].
  intros x Hx ->%list_elem_of_singleton.
  by apply (unique_violation_not_in _ _ Hv).
Qed.

#[local] Instance msg_ids_unique_step :
  HandlerStep rt (keeps (fun w => msg_ids_unique (tbl_telemetry w))).
Proof.
  split; [apply keeps_preorder|..]; unfold keeps.
  - by intros message w.
  - by intros m w.
  - by intros alert w.
  - intros data w HP.
    destruct (saveTelemetryData_state data w) as [->|(row & Hv & ->)]; [done|].
    by apply msg_ids_unique_insert.
  - intros data w.
    by destruct (updateFlaskState_state data w) as [->|[(k & s & _ & ->)|(k & f & ->)]].
  - intros data w. by destruct (processConfigUpdate_state data w) as [->|(row & ->)].
Qed.

(** X2: at every state the server reaches from start-up, whatever messages,
    control commands and exporter ticks it handles, no two telemetry rows
    carry the same [msg_id]. *)
Theorem reachable_msg_ids_unique (events : list ServerEvent) :
  msg_ids_unique (tbl_telemetry (server_run rt events world0)).
Proof.
  apply (server_run_keeps (fun w => msg_ids_unique (tbl_telemetry w))).
  - intros w w' (-> & _)%store_inv. done.
  - apply NoDup_nil_2.
Qed.

(** *** The in-memory alert history *)

#[local] Instance alerts_bounded_step :
  HandlerStep rt (keeps (fun w => length (alerts w) <= 100)).
Proof.
  split; [apply keeps_preorder|..]; unfold keeps.
  - by intros message w.
  - by intros m w.
  - intros alert w HP. rewrite saveAlert_state. cbn [alerts set_ws_out set_alerts].
    rewrite length_drop, length_app. simpl. lia.
  - intros data w.
    by destruct (saveTelemetryData_state data w) as [->|(row & _ & ->)].
  - intros data w.
    by destruct (updateFlaskState_state data w) as [->|[(k & s & _ & ->)|(k & f & ->)]].
  - intros data w. by destruct (processConfigUpdate_state data w) as [->|(row & ->)].
Qed.

(** X3: at every reachable state the in-memory alert history holds at most
    100 alerts. *)
Theorem reachable_alerts_bounded (events : list ServerEvent) :
  length (alerts (server_run rt events world0)) <= 100.
Proof.
  apply (server_run_keeps (fun w => length (alerts w) <= 100)).
  - intros w w' (_ & _ & _ & _ & -> & _)%store_inv. done.
  - simpl. lia.
Qed.

(** *** Alert ids *)

#[local] Instance alert_ids_step :
  HandlerStep rt (keeps (fun w => alert_ids_sequential (tbl_alerts w))).
Proof.
  split; [apply keeps_preorder|..]; unfold keeps.
  - by intros message w.
  - by intros m w.
  - intros alert w HP. rewrite saveAlert_state.
    cbn [tbl_alerts set_ws_out set_alerts set_tbl_alerts].
    unfold alert_ids_sequential in *.
    rewrite map_app, length_app, seq_app, HP. done.
  - intros data w.
    by destruct (saveTelemetryData_state data w) as [->|(row & _ & ->)].
  - intros data w.
    by destruct (updateFlaskState_state data w) as [->|[(k & s & _ & ->)|(k & f & ->)]].
  - intros data w. by destruct (processConfigUpdate_state data w) as [->|(row & ->)].
Qed.


(** *** Station snapshots *)

Lemma same_key_sym (a b : option json) : same_key a b = same_key b a.
Proof.
  destruct a as [[]|], b as [[]|]; simpl; try done;
    apply bool_decide_ext; split; congruence.
Qed.

Lemma same_key_trans (a b c : option json) :
  same_key a c = true -> same_key b c = true -> same_key a b = true.
Proof.
  destruct a as [[]|], b as [[]|], c as [[]|]; simpl; try done;
    rewrite !bool_decide_eq_true; congruence.
Qed.

Lemma map_get_snoc_None (k k' : option json) (s : FlaskState)
    (states : list (option json * FlaskState)) :
  map_get k states = None -> same_key k k' = false ->
  map_get k (states ++ [(k', s)]) = None.
Proof.
  intros H Hk. induction states as [|[k1 s1] states IH]; simpl in *.
  - by rewrite Hk.
  - destruct (same_key k k1); [done|]. by apply IH.
Qed.

Lemma map_get_None_key (k k' : option json) (s : FlaskState)
    (states : list (option json * FlaskState)) :
  map_get k states = None -> (k', s) ∈ states -> same_key k k' = false.
Proof.
  induction states as [|[k1 s1] states IH]; simpl; intros H Hin.
  - by apply elem_of_nil in Hin.
  - destruct (same_key k k1) eqn:E; [done|].
    apply elem_of_cons in Hin as [[= -> ->]|Hin]; [done|]. by apply IH.
Qed.

Lemma station_keys_distinct_snoc (k : option json) (s : FlaskState)
    (states : list (option json * FlaskState)) :
  map_get k states = None -> station_keys_distinct states ->
  station_keys_distinct (states ++ [(k, s)]).
Proof.
  induction states as [|[k1 s1] states IH]; simpl; intros H Hd; [done|].
  destruct (same_key k k1) eqn:E; [done|]. destruct Hd as [H1 Hd].
  split; [|by apply IH].
  apply map_get_snoc_None; [done|]. by rewrite same_key_sym.
Qed.

Lemma map_get_update_None (k k0 : option json) (f : FlaskState -> FlaskState)
    (states : list (option json * FlaskState)) :
  map_get k states = None -> map_get k (map_update k0 f states) = None.
Proof.
  induction states as [|[k1 s1] states IH]; simpl; [done|].
  destruct (same_key k k1) eqn:E; [done|]. intros H.
  destruct (same_key k0 k1); simpl; rewrite E; [done|]. by apply IH.
Qed.

Lemma station_keys_distinct_update (k0 : option json) (f : FlaskState -> FlaskState)
    (states : list (option json * FlaskState)) :
  station_keys_distinct states -> station_keys_distinct (map_update k0 f states).
Proof.
  induction states as [|[k1 s1] states IH]; simpl; [done|]. intros [H1 Hd].
  destruct (same_key k0 k1); simpl; [done|].
  split; [by apply map_get_update_None | by apply IH].
Qed.

#[local] Instance station_keys_step :
  HandlerStep rt (keeps (fun w => station_keys_distinct (flaskStates w))).
Proof.
  split; [apply keeps_preorder|..]; unfold keeps.
  - by intros message w.
  - by intros m w.
  - by intros alert w.
  - intros data w.
    by destruct (saveTelemetryData_state data w) as [->|(row & _ & ->)].
  - intros data w HP.
    destruct (updateFlaskState_state data w) as [->|[(k & s & Hk & ->)|(k & f & ->)]];
      [done| |].
    + by apply station_keys_distinct_snoc.
    + by apply station_keys_distinct_update.
  - intros data w. by destruct (processConfigUpdate_state data w) as [->|(row & ->)].
Qed.

(** X5: at every reachable state [flaskStates] holds at most one snapshot
    per station: no key is found again further down the map. *)
Theorem reachable_station_keys_distinct (events : list ServerEvent) :
  station_keys_distinct (flaskStates (server_run rt events world0)).
Proof.
  apply (server_run_keeps (fun w => station_keys_distinct (flaskStates w))).
  - intros w w' (_ & _ & _ & -> & _)%store_inv. done.
  - done.
Qed.

Lemma map_get_update_other (k k0 : option json) (f : FlaskState -> FlaskState)
    (states : list (option json * FlaskState)) :
  same_key k k0 = false ->
  map_get k (map_update k0 f states) = map_get k states.
Proof.
  intros Hk. induction states as [|[k1 s1] states IH]; simpl; [done|].
  destruct (same_key k0 k1) eqn:E0; simpl; [|by rewrite IH].
  destruct (same_key k k1) eqn:E; [|done].
  by rewrite (same_key_trans k k0 k1 E E0) in Hk.
Qed.

Lemma map_get_snoc_other (k k' : option json) (s : FlaskState)
    (states : list (option json * FlaskState)) :
  same_key k k' = false -> map_get k (states ++ [(k', s)]) = map_get k states.
Proof.
  intros Hk. induction states as [|[k1 s1] states IH]; simpl.
  - by rewrite Hk.
  - by destruct (same_key k k1).
Qed.

(** X6: [updateFlaskState] on a station that already has a snapshot
    overwrites its pressure, temperature, timestamp and relief count but
    keeps its [assay_id] and [status]; on a new station it creates the
    snapshot with the Reading's [assay_id] and status [active].  The
    snapshot of every other station is left as it was.  The station id is a
    primitive value (an object is never equal to a key of the map). *)
Theorem updateFlaskState_snapshot (m : gmap string json) (w : World)
    (other : option json) :
  same_key (m !! "flask_id") (m !! "flask_id") = true ->
  same_key other (m !! "flask_id") = false ->
  let w' := exec (updateFlaskState (JObj m)) w in
  map_get other (flaskStates w') = map_get other (flaskStates w) /\
  exists s,
    map_get (m !! "flask_id") (flaskStates w') = Some s /\
    last_pressure s = m !! "P_bar_abs" /\
    last_temperature s = m !! "T_C" /\
    last_timestamp s = m !! "ts" /\
    fs_relief_count s = Js.or (m !! "relief_count") (Some (JNum 0%Qc)) /\
    match map_get (m !! "flask_id") (flaskStates w) with
    | Some old => fs_assay_id s = fs_assay_id old /\ fs_status s = fs_status old
    | None => fs_assay_id s = m !! "assay_id" /\ fs_status s = "active"
    end.
Proof.
  intros Hk Hother w'. subst w'. unfold exec.
  rewrite updateFlaskState_obj. cbn [snd flaskStates set_flaskStates].
  unfold flask_states_after.
  destruct (map_get (m !! "flask_id") (flaskStates w)) as [old|] eqn:E.
  - split; [by apply map_get_update_other|].
    eexists. split; [by apply map_get_update|]. done.
  - split; [by apply map_get_snoc_other|].
    eexists. split; [by apply map_get_new|]. done.
Qed.

(** *** The tables and the traces only grow *)

#[local] Instance extends_step : HandlerStep rt extends.
Proof.
  unfold extends. split.
  - split; [by intros w | intros w1 w2 w3 H1 H2].
    destruct H1 as (?&?&?&?), H2 as (?&?&?&?).
    repeat split; by etrans.
  - intros message w. repeat split; try done. by exists [message].
  - intros m w. repeat split; try done. by exists [m].
  - intros alert w. rewrite saveAlert_state.
    repeat split; try done; cbn; by eexists.
  - intros data w.
    destruct (saveTelemetryData_state data w) as [->|(row & _ & ->)]; [done|].
    repeat split; try done. by exists [row].
  - intros data w.
    by destruct (updateFlaskState_state data w) as [->|[(k & s & _ & ->)|(k & f & ->)]].
  - intros data w.
    by destruct (processConfigUpdate_state data w) as [->|(rows & ->)].
Qed.

#[local] Instance extends_preorder : PreOrder extends.
Proof. exact (step_preorder rt). Qed.

(** X7: no event ever removes or rewrites a telemetry row or an alert
    row, and nothing already handed to the subscribers or to the broker is
    taken back: after any run of events each of these lists extends what it
    was before.  (The flask configurations are not among them:
    [INSERT OR REPLACE] rewrites the stored row of a flask.) *)
Theorem server_run_extends (events : list ServerEvent) (w : World) :
  extends w (server_run rt events w).
Proof.
  revert w. induction events as [|e events IH]; intros w; [done|].
  simpl. etrans; [|apply IH].
  destruct e as [topic message now|c|ago|endISO fs_ok];
    [exact (handleMQTTMessage_respects rt extends topic message now w)| | |];
    (match goal with
     | |- extends w (server_step rt ?e w) =>
         destruct (store_inv w (server_step rt e w)) as (H1 & H2 & _ & _ & _ & H4 & H5);
           [by apply control_event_keeps_store|]
     end; unfold extends; by rewrite H1, H2, H4, H5).
Qed.

(** *** Capture sessions among all the events *)

#[local] Instance same_controller_step : HandlerStep rt same_controller.
Proof.
  unfold same_controller. split.
  - split; [by intros w | intros w1 w2 w3 H1 H2; by rewrite H2, H1].
  - by intros message w.
  - by intros m w.
  - by intros alert w.
  - intros data w. by destruct (saveTelemetryData_state data w) as [->|(row & _ & ->)].
  - intros data w.
    by destruct (updateFlaskState_state data w) as [->|[(k & s & _ & ->)|(k & f & ->)]].
  - intros data w. by destruct (processConfigUpdate_state data w) as [->|(row & ->)].
Qed.

Lemma controller_inv (w w' : World) :
  controller w' = controller w ->
  telemetryCaptureEnabled w' = telemetryCaptureEnabled w /\
  currentCaptureSessionId w' = currentCaptureSessionId w /\
  tbl_capture_sessions w' = tbl_capture_sessions w /\
  pending_sessions w' = pending_sessions w.
Proof. unfold controller. by intros [= -> -> -> ->]. Qed.

(** Messages and the exporter leave the controller as it is. *)
Lemma other_event_keeps_controller (e : ServerEvent) (w : World) :
  (forall c, e ≠ EvCapture c) ->
  controller (server_step rt e w) = controller w.
Proof.
  intros Hne. destruct e as [topic message now|c|ago|endISO fs_ok]; simpl.
  - exact (handleMQTTMessage_respects rt same_controller topic message now w).
  - by destruct (Hne c).
  - unfold scheduleCsvAutoExport. destruct (lastCsvExportAt w) as [s|]; [|done].
    by destruct (bool_decide (s = EmptyString)).
  - unfold csv_export_tick, exec, exportTelemetryWindowToCSV, mbind, M_bind,
      gets, modify, lift, mret, M_ret.
    destruct (select_window _ _ _); [done|]. by destruct fs_ok.
Qed.

(** A command acts on the controller alone. *)
Lemma capture_step_controller (c : CaptureCommand) (w1 w2 : World) :
  controller w1 = controller w2 ->
  controller (capture_step c w1) = controller (capture_step c w2).
Proof.
  intros H. apply controller_inv in H as (He & Hc & Ht & Hp).
  destruct c as [trigger assayId now|trigger now|];
    unfold capture_step, exec, openCaptureSession, closeCaptureSession,
      session_inserted, modify, controller; cbn [snd].
  - simpl. by rewrite Hc, Ht, Hp.
  - rewrite Hc. destruct (currentCaptureSessionId w2) as [id|] eqn:E2; simpl.
    + destruct (bool_decide _); simpl; by rewrite ?Hc, ?E2, ?Ht, ?Hp.
    + by rewrite Hc, E2, Ht, Hp.
  - rewrite Hp. destruct (pending_sessions w2) eqn:E2; simpl;
      by rewrite ?He, ?Hc, ?Ht, ?Hp, ?E2.
Qed.

(** The controller, at the end of a run of the server, is where its own
    commands alone have brought it. *)
Lemma server_run_controller (events : list ServerEvent) :
  forall w1 w2,
    controller w1 = controller w2 ->
    controller (server_run rt events w1)
      = controller (capture_run (capture_commands events) w2).
Proof.
  induction events as [|e events IH]; intros w1 w2 H; [done|].
  pose proof (other_event_keeps_controller e w1) as Hk.
  change (server_run rt (e :: events) w1)
    with (server_run rt events (server_step rt e w1)).
  destruct e as [topic message now|c|ago|endISO fs_ok];
    cbn [capture_commands];
    try (apply IH; rewrite Hk; [exact H|done]).
  apply IH. by apply capture_step_controller.
Qed.

Lemma controller_consistent_same (w w' : World) :
  controller w' = controller w ->
  controller_consistent w -> controller_consistent w'.
Proof.
  intros H. apply controller_inv in H as (He & Hc & Ht & Hp).
  unfold controller_consistent. by rewrite Hc, Ht, Hp.
Qed.

Lemma current_session_open_same (w w' : World) :
  controller w' = controller w ->
  current_session_open w -> current_session_open w'.
Proof.
  intros H. apply controller_inv in H as (He & Hc & Ht & Hp).
  unfold current_session_open. by rewrite He, Hc, Ht.
Qed.

Lemma reachable_controller (events : list ServerEvent) :
  controller_consistent (server_run rt events world0).
Proof.
  eapply controller_consistent_same;
    [by apply (server_run_controller events world0 world0)|].
  apply controller_consistent_run, controller_consistent_start.
Qed.

Lemma drained_sessions_start : drained_sessions world0.
Proof. done. Qed.

(** In a run whose calls were all issued with no completion pending, once
    the last completion has arrived. *)
Lemma reachable_drained (events : list ServerEvent) :
  let w := server_run rt events world0 in
  issued_when_drained 0 (capture_commands events) = true ->
  pending_sessions w = [] ->
  current_session_open w.
Proof.
  intros w Hd Hp.
  pose proof (server_run_controller events world0 world0 eq_refl) as Hc.
  fold w in Hc.
  apply (current_session_open_same _ _ Hc).
  apply controller_inv in Hc as (_ & _ & _ & Hp').
  pose proof (drained_sessions_run (capture_commands events) world0
                drained_sessions_start Hd) as H.
  unfold drained_sessions in H. by rewrite <- Hp', Hp in H.
Qed.

(** X8: at every reachable state of the server, with messages, exporter
    ticks, control commands and completions of the session [INSERT]
    interleaved in any order, the capture sessions are numbered 1, 2, ... in
    the order of their opening, a session has a [stopped_at] exactly when
    its status is [disabled], the ids whose completion is pending are those
    of open rows in increasing order, and the current session, if any, is an
    open row older than every pending one.  When moreover no call was issued
    while a completion was pending and none is pending now, the current
    session, if any, is the newest row, and capture is enabled exactly when
    there is one. *)
Theorem reachable_sessions_well_formed (events : list ServerEvent) :
  let w := server_run rt events world0 in
  controller_consistent w /\
  (issued_when_drained 0 (capture_commands events) = true ->
   pending_sessions w = [] ->
   current_session_open w).
Proof.
  split; [apply reachable_controller | apply reachable_drained].
Qed.

Lemma update_session_other (id : nat) (now : string) (trigger : option string)
    (rows : list SessionRow) :
  id ∉ map session_id rows ->
  update_session id "disabled" now trigger rows = rows.
Proof.
  intros Hn. unfold update_session.
  rewrite <- (list_fmap_id rows) at 2. apply list_fmap_ext. intros i r Hr.
  rewrite bool_decide_eq_false_2; [done|].
  intros E. apply Hn. apply list_elem_of_fmap. exists r. split; [done|].
  by eapply list_elem_of_lookup_2.
Qed.

(** X9: in a reachable state, closing capture rewrites the row of the
    current session only, wherever it is in the table: every other row is
    left exactly as it was, and that row keeps its id, start, and assay and
    becomes disabled with the close trigger and [stopped_at]. *)
Theorem close_rewrites_current_only (events : list ServerEvent)
    (trigger : option string) (now : string)
    (before after : list SessionRow) (row : SessionRow) (id : nat) :
  let w := server_run rt events world0 in
  tbl_capture_sessions w = before ++ row :: after ->
  session_id row = id ->
  currentCaptureSessionId w = Some id ->
  tbl_capture_sessions (capture_step (Close trigger now) w)
    = before ++ {| session_id := session_id row;
                   session_status := "disabled";
                   session_started_at := session_started_at row;
                   session_stopped_at := Some now;
                   session_trigger := or_null trigger;
                   session_assay_id := session_assay_id row |} :: after.
Proof.
  intros w Htbl Hid Hcur.
  destruct (reachable_controller events) as ([Hids _] & _ & _ & Hc).
  fold w in Hids, Hc. rewrite Hcur in Hc. destruct Hc as (Hne & _).
  destruct (close_effect trigger now w) as (-> & _).
  { intros id' E. rewrite Hcur in E. by injection E as <-. }
  rewrite Hcur, Htbl.
  assert (Hnd : NoDup (map session_id (before ++ row :: after))).
  { rewrite <- Htbl, Hids. apply NoDup_seq. }
  rewrite map_app in Hnd. simpl in Hnd.
  apply NoDup_app in Hnd as (_ & Hb & Ha).
  apply NoDup_cons in Ha as [Ha _].
  assert (E : update_session id "disabled" now (or_null trigger)
                (before ++ row :: after)
              = update_session id "disabled" now (or_null trigger) before
                ++ update_session id "disabled" now (or_null trigger) [row]
                ++ update_session id "disabled" now (or_null trigger) after).
  { unfold update_session. by rewrite fmap_app. }
  rewrite E, (update_session_other _ _ _ before), (update_session_other _ _ _ after).
  - unfold update_session. cbn [fmap list_fmap app].
    by rewrite (bool_decide_eq_true_2 _ Hid).
  - by rewrite <- Hid.
  - intros Hin. apply (Hb _ Hin). rewrite Hid. by left.
Qed.


(** ** The validator and the alert rules together *)

(** Only an object with its six required fields passes the validator, and
    a pressure or temperature that is a number lies in its range. *)
Lemma validate_accepted_obj (cfg : AlertConfig) (data : json) :
  validateTelemetryData rt cfg data = Ok true ->
  exists m, data = JObj m.
Proof. destruct data; try done. intros _. by eexists. Qed.

Lemma validate_obj_true (cfg : AlertConfig) (m : gmap string json) :
  validateTelemetryData rt cfg (JObj m) = Ok true ->
  forallb (fun f => negb (Js.nullish (m !! f))) requiredFields = true /\
  (js_lt (ToNumber rt (m !! "P_bar_abs")) (Some (Q2Qc (1 # 2)))
   || js_gt (ToNumber rt (m !! "P_bar_abs")) (Some MAX_PRESSURE)) = false /\
  (js_lt (ToNumber rt (m !! "T_C")) (Some (temperature_min cfg))
   || js_gt (ToNumber rt (m !! "T_C")) (Some (temperature_max cfg))) = false.
Proof.
  rewrite validate_obj.
  set (a := forallb _ _). set (b := _ || _). set (c := _ || _).
  by destruct a, b, c.
Qed.

(** X10: what acceptance by the validator guarantees, whatever the payload:
    it is an object, none of its six required fields is missing or [null],
    its pressure, if it converts to a number, lies in [0.5, 2.0], and its
    temperature, if it converts to a number, lies in the configured range.
    A pressure or temperature that converts to no number ([NaN]) is not
    excluded. *)
Theorem validate_accepted_inv (cfg : AlertConfig) (data : json) :
  validateTelemetryData rt cfg data = Ok true ->
  exists m, data = JObj m /\
    (forall f, f ∈ requiredFields -> exists v, m !! f = Some v /\ v ≠ JNull) /\
    (forall p, ToNumber rt (m !! "P_bar_abs") = Some p ->
       (Q2Qc (1 # 2) <= p)%Qc /\ (p <= MAX_PRESSURE)%Qc) /\
    (forall t, ToNumber rt (m !! "T_C") = Some t ->
       (temperature_min cfg <= t)%Qc /\ (t <= temperature_max cfg)%Qc).
Proof.
  intros Hv. destruct (validate_accepted_obj _ _ Hv) as [m ->].
  exists m. split; [done|].
  apply validate_obj_true in Hv as (Hreq & HP & HT).
  apply negb_true_iff in HP, HT.
  split; [|split].
  - intros f Hf. apply list_elem_of_In in Hf.
    pose proof (proj1 (List.forallb_forall _ _) Hreq f Hf) as Hreq'.
    simpl in Hreq'. destruct (m !! f) as [v|]; [|done].
    exists v. split; [done|]. by intros ->.
  - intros p Hp. rewrite Hp in HP. by apply in_range_bool.
  - intros t Ht. rewrite Ht in HT. by apply in_range_bool.
Qed.








(** ** Messages that the pipeline does not complete *)





(** ** The normaliser, property by property *)

(** X14: the normaliser, read property by property on a structured
    payload: a property that the payload has keeps its value, even [null];
    a canonical property that it lacks takes its first defined alias ([C]
    before [°C] for [T_C], [timestamp] for [ts], [accum_bar_per_hr] for
    [accum_bar_per_h], [P_bar_abs] for [P_bar_std]) or its default; and no
    other property is added. *)
Theorem normalize_lookup (p : json) (k : string) :
  Js.truthy p = true -> Js.typeof p = "object" ->
  exists n, normalizeTelemetryPayload p = JObj n /\
    n !! k = match Js.spread p !! k with
             | Some x => Some x
             | None => canonical_source (Js.spread p) k
             end.
Proof.
  intros Hy Ht. eexists. split; [by apply normalize_spread|].
  set (o := Js.spread p). unfold normalized_fields, canonical_source. cbv zeta.
  repeat case_bool_decide; subst; lookup_fields; unfold T_C_alias;
    repeat match goal with
      | |- context [o !! ?key] => destruct (o !! key); try done
      end.
Qed.

(** ** The exporter *)

Lemma timestamp_leb_total (a b : TelemetryRow) :
  timestamp_leb a b = true \/ timestamp_leb b a = true.
Proof.
  unfold timestamp_leb.
  destruct (row_timestamp a) as [x|], (row_timestamp b) as [y|]; auto.
  apply String.leb_total.
Qed.

Lemma insert_by_timestamp_perm (r : TelemetryRow) (l : list TelemetryRow) :
  insert_by_timestamp r l ≡ₚ r :: l.
Proof.
  induction l as [|x l IH]; simpl; [done|].
  destruct (timestamp_leb x r); [|done].
  rewrite IH. apply Permutation_swap.
Qed.

Lemma insert_by_timestamp_sorted (r : TelemetryRow) (l : list TelemetryRow) :
  Sorted (fun a b => timestamp_leb a b = true) l ->
  Sorted (fun a b => timestamp_leb a b = true) (insert_by_timestamp r l).
Proof.
  induction 1 as [|x l Hs IH Hhd]; simpl; [by repeat constructor|].
  destruct (timestamp_leb x r) eqn:E.
  - constructor; [done|].
    destruct l as [|y l]; simpl in *; [by constructor|].
    destruct (timestamp_leb y r); constructor; [|done].
    by inversion Hhd.
  - constructor; [by constructor|]. constructor.
    by destruct (timestamp_leb_total x r) as [H|H]; [congruence|].
Qed.

Lemma order_by_timestamp_spec (l : list TelemetryRow) :
  order_by_timestamp l ≡ₚ l /\
  Sorted (fun a b => timestamp_leb a b = true) (order_by_timestamp l).
Proof.
  unfold order_by_timestamp.
  assert (H : forall acc,
    Sorted (fun a b => timestamp_leb a b = true) acc ->
    foldl (fun acc r => insert_by_timestamp r acc) acc l ≡ₚ acc ++ l /\
    Sorted (fun a b => timestamp_leb a b = true)
      (foldl (fun acc r => insert_by_timestamp r acc) acc l)).
  { induction l as [|x l IH]; intros acc Hacc; simpl.
    - by rewrite app_nil_r.
    - destruct (IH (insert_by_timestamp x acc)) as [Hp Hs];
        [by apply insert_by_timestamp_sorted|].
      split; [|done]. rewrite Hp, insert_by_timestamp_perm.
      simpl. by rewrite <- Permutation_middle. }
  destruct (H []) as [Hp Hs]; [constructor|]. by split.
Qed.

(** X15: the rows of an export file are the stored rows of the window,
    each exactly as often as it is stored, in ascending order of their
    timestamps. *)
Theorem select_window_sorted (startISO : option string) (endISO : string)
    (rows : list TelemetryRow) :
  select_window startISO endISO rows
    ≡ₚ filter (fun r => in_window startISO endISO r = true) rows /\
  Sorted (fun a b => timestamp_leb a b = true)
    (select_window startISO endISO rows).
Proof. apply order_by_timestamp_spec. Qed.

Lemma csv_export_tick_cases (endISO : string) (fs_ok : bool) (w : World) :
  let rows := select_window (lastCsvExportAt w) endISO (tbl_telemetry w) in
  tbl_telemetry (csv_export_tick endISO fs_ok w) = tbl_telemetry w /\
  ((rows = [] /\ csv_out (csv_export_tick endISO fs_ok w) = csv_out w /\
    lastCsvExportAt (csv_export_tick endISO fs_ok w) = Some endISO) \/
   (rows ≠ [] /\ fs_ok = false /\ csv_export_tick endISO fs_ok w = w) \/
   (rows ≠ [] /\ fs_ok = true /\
    lastCsvExportAt (csv_export_tick endISO fs_ok w) = Some endISO /\
    exists name,
      csv_out (csv_export_tick endISO fs_ok w)
        = csv_out w ++ [{| csv_filename := name; csv_rows := rows |}])).
Proof.
  unfold csv_export_tick, exec, exportTelemetryWindowToCSV, mbind, M_bind,
    gets, modify, lift, mret, M_ret.
  destruct (select_window _ _ _) as [|r rows] eqn:E; cbn.
  - split; [done|]. left. by repeat split.
  - destruct fs_ok; cbn.
    + split; [done|]. right. right. repeat split; try done. by eexists.
    + split; [done|]. right. left. by repeat split.
Qed.

(** X16: two consecutive ticks of the exporter lose no row that is stored
    before the first of them: such a row, when its timestamp lies between
    the watermark and the second tick, is in the file written by one of
    the two, also when the first tick fails to write its file (the
    watermark then stays, and the second tick takes the whole window
    again).  A row stored between the two ticks is not covered: under a
    timestamp before the first tick it is in no file
    ([late_reading_in_no_file]). *)
Theorem consecutive_ticks_cover (w : World) (startISO endISO nextISO t : string)
    (fs_ok : bool) (r : TelemetryRow) :
  lastCsvExportAt w = Some startISO ->
  r ∈ tbl_telemetry w ->
  row_timestamp r = Some t ->
  String.leb startISO t = true ->
  String.leb t nextISO = true ->
  let w1 := csv_export_tick endISO fs_ok w in
  let w2 := csv_export_tick nextISO true w1 in
  exists f, f ∈ csv_out w2 /\ r ∈ csv_rows f.
Proof.
  intros Hs Hin Ht H1 H2 w1 w2.
  assert (Hnext : forall s, lastCsvExportAt w1 = Some s ->
            String.leb s t = true ->
            exists f, f ∈ csv_out w2 /\ r ∈ csv_rows f).
  { intros s Hs1 Hle.
    destruct (csv_export_tick_cases nextISO true w1) as [Htbl1 Hc].
    destruct (csv_export_tick_cases endISO fs_ok w) as [Htbl _].
    fold w1 in Htbl. fold w2 in Hc.
    assert (Hr : r ∈ select_window (lastCsvExportAt w1) nextISO (tbl_telemetry w1)).
    { rewrite Hs1, Htbl. apply elem_of_select_window. split; [done|]. eauto. }
    destruct Hc as [(He & _)|[(_ & ? & _)|(_ & _ & _ & name & Ho)]]; [|done|].
    - rewrite He in Hr. by apply elem_of_nil in Hr.
    - rewrite Ho. eexists. split; [apply elem_of_app; right; by apply list_elem_of_singleton|].
      done. }
  destruct (csv_export_tick_cases endISO fs_ok w) as [_ Hc]. fold w1 in Hc.
  rewrite Hs in Hc.
  destruct (String.leb t endISO) eqn:Hte.
  - assert (Hr : r ∈ select_window (Some startISO) endISO (tbl_telemetry w)).
    { apply elem_of_select_window. split; [done|]. eauto. }
    destruct Hc as [(He & _)|[(_ & _ & Hw)|(_ & _ & _ & name & Hout)]].
    + rewrite He in Hr. by apply elem_of_nil in Hr.
    + apply (Hnext startISO); [by rewrite Hw|done].
    + destruct (csv_export_tick_cases nextISO true w1) as [_ Hc2]. fold w2 in Hc2.
      assert (Hpre : csv_out w1 `prefix_of` csv_out w2).
      { destruct Hc2 as [(_ & Ho & _)|[(_ & ? & _)|(_ & _ & _ & name2 & Ho)]];
          [by rewrite Ho|done|rewrite Ho; by eexists]. }
      exists {| csv_filename := name;
                csv_rows := select_window (Some startISO) endISO (tbl_telemetry w) |}.
      split; [|exact Hr].
      destruct Hpre as [k Hk]. rewrite Hk, Hout.
      apply elem_of_app. left. apply elem_of_app. right.
      by apply list_elem_of_singleton.
  - assert (Hge : String.leb endISO t = true)
      by (destruct (String.leb_total t endISO); congruence).
    destruct Hc as [(_ & _ & Hw)|[(_ & _ & Hw)|(_ & _ & Hw & _)]].
    + by apply (Hnext endISO).
    + apply (Hnext startISO); [by rewrite Hw|done].
    + by apply (Hnext endISO).
Qed.

(** ** What a client is told *)

#[local] Instance alerts_mirror_step :
  HandlerStep rt
    (keeps (fun w => map (fun x => alert_row x.1 x.2) (alerts w)
                     = drop (length (tbl_alerts w) - 100) (tbl_alerts w))).
Proof.
  split; [apply keeps_preorder|..]; unfold keeps.
  - by intros message w.
  - by intros m w.
  - intros alert w HP. rewrite saveAlert_state.
    cbn [alerts tbl_alerts set_ws_out set_alerts set_tbl_alerts].
    assert (Hlen : length (alerts w)
                   = length (tbl_alerts w) - (length (tbl_alerts w) - 100)).
    { rewrite <- length_drop, <- HP. by rewrite length_map. }
    set (a := alerts w) in *. set (t := tbl_alerts w) in *.
    rewrite <- skipn_map, map_app, HP, !length_app. simpl.
    destruct (decide (length t < 100)) as [Hlt|Hge].
    + replace (length a + 1 - 100) with 0 by lia.
      replace (length t - 100) with 0 by lia.
      replace (length t + 1 - 100) with 0 by lia. done.
    + replace (length a + 1 - 100) with 1 by lia.
      replace (length t + 1 - 100) with ((length t - 100) + 1) by lia.
      rewrite <- drop_drop. f_equal.
      rewrite drop_app_le by lia. done.
  - intros data w.
    by destruct (saveTelemetryData_state data w) as [->|(row & _ & ->)].
  - intros data w.
    by destruct (updateFlaskState_state data w) as [->|[(k & s & _ & ->)|(k & f & ->)]].
  - intros data w. by destruct (processConfigUpdate_state data w) as [->|(row & ->)].
Qed.


(** *** The session endpoints *)

Lemma order_by_id_desc_ascending (rows : list SessionRow) :
  forall acc k,
    map session_id rows = seq k (length rows) ->
    Forall (fun x => session_id x < k) acc ->
    foldl (fun acc r => insert_by_id_desc r acc) acc rows = reverse rows ++ acc.
Proof.
  induction rows as [|r rows IH]; intros acc k Hids Hacc; [done|].
  simpl in Hids. injection Hids as Hr Hids.
  assert (Hins : insert_by_id_desc r acc = r :: acc).
  { destruct acc as [|x acc]; [done|]. simpl.
    apply Forall_cons_1 in Hacc as [Hx _].
    destruct (Nat.leb_spec (session_id r) (session_id x)); [lia|done]. }
  simpl. rewrite Hins, (IH (r :: acc) (S k) Hids).
  - by rewrite reverse_cons, <- app_assoc.
  - constructor; [lia|]. eapply Forall_impl; [exact Hacc|]. simpl. lia.
Qed.

Lemma order_by_id_desc_well_formed (rows : list SessionRow) :
  sessions_well_formed rows -> order_by_id_desc rows = reverse rows.
Proof.
  intros [Hids _]. unfold order_by_id_desc.
  rewrite (order_by_id_desc_ascending rows [] 1 Hids); [|constructor].
  by rewrite app_nil_r.
Qed.

(** X18: at every reachable state the session listing shows the sessions
    newest first: it is the table in reverse order of opening, cut to the
    limit; a missing, zero or unreadable limit shows the ten newest, and a
    negative limit all of them. *)
Theorem reachable_sessions_listing (events : list ServerEvent) (parsed : option Z) :
  let w := server_run rt events world0 in
  capture_sessions parsed w
    = match parsed with
      | Some z =>
          if (z <? 0)%Z then reverse (tbl_capture_sessions w)
          else if (z =? 0)%Z then take 10 (reverse (tbl_capture_sessions w))
          else take (Z.to_nat z) (reverse (tbl_capture_sessions w))
      | None => take 10 (reverse (tbl_capture_sessions w))
      end.
Proof.
  intros w.
  destruct (reachable_controller events) as (Hwf & _).
  fold w in Hwf. unfold capture_sessions, sessions_limit.
  rewrite (order_by_id_desc_well_formed _ Hwf).
  destruct parsed as [z|]; [|done].
  destruct (Z.eqb_spec z 0) as [->|Hz]; [done|].
  by destruct (z <? 0)%Z.
Qed.

(** While no session is current and no completion is pending, the newest
    session, if any, is closed. *)
Lemma drained_idle_run (cs : list CaptureCommand) :
  forall w,
    drained_sessions w ->
    (pending_sessions w = [] -> currentCaptureSessionId w = None ->
     forall row, last (tbl_capture_sessions w) = Some row ->
       session_status row = "disabled") ->
    issued_when_drained (length (pending_sessions w)) cs = true ->
    let w' := capture_run cs w in
    pending_sessions w' = [] -> currentCaptureSessionId w' = None ->
    forall row, last (tbl_capture_sessions w') = Some row ->
      session_status row = "disabled".
Proof.
  induction cs as [|c cs IH]; intros w H HK Hd; [done|].
  apply issued_when_drained_cons in Hd as [Hc Hcs].
  simpl. apply IH; [by apply drained_sessions_step| |done].
  destruct c as [trigger assayId now|trigger now|].
  - destruct (open_effect trigger assayId now w) as (_ & -> & _).
    intros Hp. by destruct (pending_sessions w).
  - cbn [issued_when_drained] in Hc.
    apply andb_true_iff in Hc as [Hc _]. apply Nat.eqb_eq in Hc.
    apply length_zero_iff_nil in Hc.
    unfold drained_sessions in H. rewrite Hc in H.
    destruct (close_effect trigger now w) as (Ht & _).
    { intros id'. by apply current_session_open_id. }
    intros _ _ row. rewrite Ht.
    unfold current_session_open in H.
    destruct (currentCaptureSessionId w) as [id|]; [|by apply HK].
    destruct H as (_ & _ & row0 & Hlast & Hid & _).
    unfold update_session. rewrite fmap_last, Hlast. simpl.
    rewrite (bool_decide_eq_true_2 _ Hid). by intros [= <-].
  - cbn [issued_when_drained] in Hc.
    apply andb_true_iff in Hc as [Hc _]. apply negb_true_iff, Nat.eqb_neq in Hc.
    pose proof (inserted_effect w) as (_ & _ & Hi).
    destruct (pending_sessions w) as [|p rest]; [done|].
    destruct Hi as [Hi _]. intros _ Hn. by rewrite Hi in Hn.
Qed.

Lemma reachable_idle_closed (events : list ServerEvent) :
  let w := server_run rt events world0 in
  issued_when_drained 0 (capture_commands events) = true ->
  pending_sessions w = [] -> currentCaptureSessionId w = None ->
  forall row, last (tbl_capture_sessions w) = Some row ->
    session_status row = "disabled".
Proof.
  intros w Hd.
  pose proof (server_run_controller events world0 world0 eq_refl) as Hc.
  fold w in Hc. apply controller_inv in Hc as (_ & -> & -> & ->).
  by apply (drained_idle_run (capture_commands events) world0).
Qed.

Lemma find_session_elem (rows : list SessionRow) (row : SessionRow) :
  NoDup (map session_id rows) -> row ∈ rows ->
  List.find (fun r => bool_decide (session_id r = session_id row)) rows = Some row.
Proof.
  induction rows as [|r rows IH]; intros Hnd Hin; [by apply elem_of_nil in Hin|].
  simpl in Hnd. apply NoDup_cons in Hnd as [Hr Hnd].
  apply elem_of_cons in Hin as [->|Hin]; simpl.
  - by rewrite bool_decide_eq_true_2.
  - rewrite bool_decide_eq_false_2; [by apply IH|].
    intros E. apply Hr. rewrite E. apply list_elem_of_fmap. by exists row.
Qed.

Lemma sessions_ids_NoDup (rows : list SessionRow) :
  sessions_well_formed rows -> NoDup (map session_id rows).
Proof. intros [-> _]. apply NoDup_seq. Qed.

(** X19: what the capture-status endpoint reports at a reachable state.
    Under [enabled: true] the session is the row of the current id and is
    open (status [enabled], no [stopped_at]); under [enabled: false] the
    last session is the newest row of the table, if there is one.  When
    moreover no call was issued while the completion of a session [INSERT]
    was pending and none is pending now, the session under [enabled: true]
    is the newest row, and the last session under [enabled: false] is
    closed (status [disabled], with a [stopped_at]). *)
Theorem reachable_capture_status (events : list ServerEvent) :
  let w := server_run rt events world0 in
  let drained :=
    issued_when_drained 0 (capture_commands events) = true /\
    pending_sessions w = [] in
  match capture_status w with
  | StatusEnabled session =>
      exists row, session = Some row /\
        row ∈ tbl_capture_sessions w /\
        currentCaptureSessionId w = Some (session_id row) /\
        session_status row = "enabled" /\ session_stopped_at row = None /\
        (drained -> last (tbl_capture_sessions w) = Some row)
  | StatusDisabled last_session =>
      last_session = last (tbl_capture_sessions w) /\
      (drained ->
       forall row, last_session = Some row ->
         session_status row = "disabled" /\ is_Some (session_stopped_at row))
  end.
Proof.
  intros w drained.
  destruct (reachable_controller events) as (Hwf & _ & _ & Hcur).
  pose proof (reachable_drained events) as Hopen.
  pose proof (reachable_idle_closed events) as Hidle.
  cbv zeta in Hopen, Hidle. fold w in Hwf, Hcur, Hopen, Hidle.
  assert (Hclosed : forall row, last (tbl_capture_sessions w) = Some row ->
            session_status row = "disabled" ->
            session_status row = "disabled" /\ is_Some (session_stopped_at row)).
  { intros row Hlast Hd. split; [done|].
    destruct Hwf as [_ Hall]. rewrite Forall_forall in Hall.
    assert (Hin : row ∈ tbl_capture_sessions w).
    { apply last_Some in Hlast as [l ->]. apply elem_of_app. right.
      by apply list_elem_of_singleton. }
    specialize (Hall row Hin).
    destruct (session_stopped_at row); [done|]. by rewrite Hd in Hall. }
  unfold capture_status. rewrite (order_by_id_desc_well_formed _ Hwf).
  rewrite head_reverse.
  destruct (currentCaptureSessionId w) as [id|] eqn:Ecur.
  - destruct Hcur as (Hid & (row & Hin & <- & Hst & Hstop) & _).
    rewrite (bool_decide_eq_false_2 _ Hid).
    destruct (telemetryCaptureEnabled w) eqn:Egate.
    + exists row.
      split; [by apply find_session_elem; [apply sessions_ids_NoDup|]|].
      do 4 (split; [done|]). intros [Hd Hp].
      specialize (Hopen Hd Hp). unfold current_session_open in Hopen.
      rewrite Ecur in Hopen. destruct Hopen as (_ & _ & row0 & Hlast & Hid0 & _).
      assert (Hin0 : row0 ∈ tbl_capture_sessions w).
      { apply last_Some in Hlast as [l E]. rewrite E. apply elem_of_app. right.
        by apply list_elem_of_singleton. }
      pose proof (find_session_elem _ _ (sessions_ids_NoDup _ Hwf) Hin) as F1.
      pose proof (find_session_elem _ _ (sessions_ids_NoDup _ Hwf) Hin0) as F2.
      rewrite Hid0, F1 in F2. by injection F2 as <-.
    + split; [done|]. intros [Hd Hp].
      specialize (Hopen Hd Hp). unfold current_session_open in Hopen.
      rewrite Ecur, Egate in Hopen. by destruct Hopen.
  - assert (E : match telemetryCaptureEnabled w with
               | true | false =>
                   StatusDisabled (last (tbl_capture_sessions w))
               end = StatusDisabled (last (tbl_capture_sessions w)))
      by (by destruct (telemetryCaptureEnabled w)).
    rewrite E. split; [done|]. intros [Hd Hp] row Hlast.
    apply Hclosed; [done|]. by apply (Hidle Hd Hp).
Qed.


(** ** The alert configuration *)

Lemma start_on_persisted (w : World) (row : option AlertConfigRow) :
  exists s, start_on w row = Ok s /\ config_persisted s.
Proof.
  unfold start_on, loadAlertConfig. destruct row as [[pr pw tmin tmax]|]; cbn.
  - destruct pr as [pr|], pw as [pw|], tmin as [tmin|], tmax as [tmax|]; cbn;
      (eexists; split; [reflexivity|]; split; [by do 4 eexists|];
       split; [done|]; intros w'; eexists; by repeat split).
  - eexists. split; [reflexivity|]. split; [by do 4 eexists|].
    split; [done|]. intros w'. eexists. by repeat split.
Qed.

Lemma post_alerts_config_persisted (body : AlertConfigRow) (s : Server) :
  config_persisted s ->
  exists s', post_alerts_config body s = Ok s' /\ config_persisted s'.
Proof.
  intros ((pr & pw & tmin & tmax & Hcfg) & _ & _).
  unfold post_alerts_config. rewrite Hcfg.
  destruct body as [bpr bpw btmin btmax].
  destruct bpr, bpw, btmin, btmax; cbn;
    (eexists; split; [reflexivity|]; split; [by do 4 eexists|];
     split; [done|]; intros w'; eexists; by repeat split).
Qed.

Lemma post_all_persisted (bodies : list AlertConfigRow) :
  forall s, config_persisted s ->
    exists s', post_all bodies s = Ok s' /\ config_persisted s'.
Proof.
  induction bodies as [|body bodies IH]; intros s Hs; simpl; [by exists s|].
  destruct (post_alerts_config_persisted body s Hs) as (s1 & -> & H1).
  apply (IH s1 H1).
Qed.

(** X20: the alert configuration survives a restart.  Whatever row the
    table held when the server started and whatever was posted to the
    configuration endpoint since, none of these requests fails, every
    threshold of the resulting configuration is a number (the fallbacks on
    the constants are never needed), and a server started again on the same
    database reads back exactly this configuration. *)
Theorem alert_config_survives_restart (w w' : World)
    (row : option AlertConfigRow) (bodies : list AlertConfigRow) :
  exists s0 s s',
    start_on w row = Ok s0 /\
    post_all bodies s0 = Ok s /\
    config_defined (alertConfig (world s)) /\
    start_on w' (tbl_alert_config s) = Ok s' /\
    alertConfig (world s') = alertConfig (world s).
Proof.
  destruct (start_on_persisted w row) as (s0 & H0 & Hp0).
  destruct (post_all_persisted bodies s0 Hp0) as (s & Hs & Hdef & _ & Hre).
  destruct (Hre w') as (s' & Hs' & Hcfg & _).
  exists s0, s, s'. by repeat split.
Qed.

(** ** Station configuration endpoint *)


End StateShapes.

(** ** Assay endpoints *)

Lemma assays_get_set (k k0 : json) (a : Assay) (m : list (json * Assay)) :
  is_Some (assays_get k m) -> is_Some (assays_get k (assays_set k0 a m)).
Proof.
  induction m as [|[k' a'] m IH]; cbn [assays_get assays_set]; [by intros [? ?]|].
  destruct (same_key (Some k0) (Some k')) eqn:E0; cbn [assays_get];
    destruct (same_key (Some k) (Some k')); intros H.
  all: first [done | by eexists | by apply IH].
Qed.

Lemma assays_get_update (k k0 : json) (f : Assay -> Assay) (m : list (json * Assay)) :
  is_Some (assays_get k m) -> is_Some (assays_get k (assays_update k0 f m)).
Proof.
  induction m as [|[k' a'] m IH]; cbn [assays_get assays_update]; [done|].
  destruct (same_key (Some k0) (Some k')) eqn:E0; cbn [assays_get];
    destruct (same_key (Some k) (Some k')); intros H.
  all: first [done | by eexists | by apply IH].
Qed.

(** The redundant assignments to [telemetryCaptureEnabled] after the calls
    of the controller change nothing. *)
Lemma control_step_world (r : ControlRequest) (lab : Lab) :
  lab_world (control_step r lab).2
    = match capture_command r lab with
      | Some c => capture_step c (lab_world lab)
      | None => lab_world lab
      end.
Proof.
  destruct r as [id name d v u t|id t1 t2 t3|id t1 t2 t3|t1 t2]; simpl.
  - destruct id as [i|], name as [n|]; try done.
    by destruct (negb (Js.truthy i) || negb (Js.truthy n)).
  - destruct (assays_get (JStr id) (lab_assays lab)) as [a|]; [|done].
    by destruct (bool_decide (assay_status a = "running")).
  - destruct (assays_get (JStr id) (lab_assays lab)) as [a|]; [|done].
    simpl. unfold exec, closeCaptureSession, modify. cbn [snd].
    destruct (currentCaptureSessionId (lab_world lab)) as [n|]; [|done].
    by destruct (bool_decide (n = 0)).
  - done.
Qed.

Lemma lab_step_world (e : LabEvent) (lab : Lab) :
  exists cs, lab_world (lab_step e lab) = capture_run cs (lab_world lab).
Proof.
  destruct e as [r|]; [|by exists [Inserted]].
  cbn [lab_step]. rewrite control_step_world.
  destruct (capture_command r lab) as [c|]; [by exists [c] | by exists []].
Qed.

Lemma capture_run_app (cs cs' : list CaptureCommand) (w : World) :
  capture_run (cs ++ cs') w = capture_run cs' (capture_run cs w).
Proof. apply foldl_app. Qed.

Lemma capture_step_store (c : CaptureCommand) (w : World) :
  store (capture_step c w) = store w.
Proof.
  destruct c; [done| |].
  - unfold capture_step, exec, closeCaptureSession, modify. cbn [snd].
    destruct (currentCaptureSessionId w) as [id|]; [|done].
    by destruct (bool_decide (id = 0)).
  - unfold capture_step, exec, session_inserted, modify. cbn [snd].
    by destruct (pending_sessions w).
Qed.

Lemma capture_run_store (cs : list CaptureCommand) (w : World) :
  store (capture_run cs w) = store w.
Proof.
  revert w. induction cs as [|c cs IH]; intros w; [done|].
  simpl. rewrite IH. apply capture_step_store.
Qed.

Lemma lab_run_commands (es : list LabEvent) :
  forall lab, exists cs,
    lab_world (lab_run es lab) = capture_run cs (lab_world lab).
Proof.
  induction es as [|e es IH]; intros lab; [by exists []|].
  simpl. destruct (IH (lab_step e lab)) as [cs ->].
  destruct (lab_step_world e lab) as [cs0 ->].
  exists (cs0 ++ cs). by rewrite capture_run_app.
Qed.

Lemma control_step_registry (r : ControlRequest) (lab : Lab) :
  (telemetryCaptureEnabled (lab_world lab) = true -> lab_isRunning lab = true) ->
  (forall id, lab_currentAssay lab = Some id ->
     is_Some (assays_get (JStr id) (lab_assays lab))) ->
  let lab' := (control_step r lab).2 in
  (telemetryCaptureEnabled (lab_world lab') = true -> lab_isRunning lab' = true) /\
  (forall id, lab_currentAssay lab' = Some id ->
     is_Some (assays_get (JStr id) (lab_assays lab'))).
Proof.
  intros Hrun Hcur. split.
  - destruct r as [id name d v u t|id t1 t2 t3|id t1 t2 t3|t1 t2]; simpl.
    + destruct id as [i|], name as [n|]; try done.
      by destruct (negb (Js.truthy i) || negb (Js.truthy n)).
    + destruct (assays_get (JStr id) (lab_assays lab)) as [a|]; [|done].
      by destruct (bool_decide (assay_status a = "running")).
    + by destruct (assays_get (JStr id) (lab_assays lab)) as [a|].
    + unfold exec, closeCaptureSession, modify. cbn [snd].
      destruct (currentCaptureSessionId (lab_world lab)) as [n|]; [|done].
      by destruct (bool_decide (n = 0)).
  - destruct r as [id name d v u t|id t1 t2 t3|id t1 t2 t3|t1 t2]; simpl.
    + destruct id as [i|], name as [n|]; try done.
      destruct (negb (Js.truthy i) || negb (Js.truthy n)); [done|]. simpl.
      intros id Hid. by apply assays_get_set, Hcur.
    + destruct (assays_get (JStr id) (lab_assays lab)) as [a|] eqn:E; [|done].
      destruct (bool_decide (assay_status a = "running")); [done|]. simpl.
      intros id' [= <-]. apply assays_get_update. by rewrite E.
    + destruct (assays_get (JStr id) (lab_assays lab)) as [a|] eqn:E; [|done].
      simpl. intros id' Hid'. apply assays_get_update, Hcur.
      by destruct (bool_decide (lab_currentAssay lab = Some id)).
    + done.
Qed.

Lemma lab_run_registry (es : list LabEvent) :
  forall lab,
    (telemetryCaptureEnabled (lab_world lab) = true -> lab_isRunning lab = true) ->
    (forall id, lab_currentAssay lab = Some id ->
       is_Some (assays_get (JStr id) (lab_assays lab))) ->
    let lab' := lab_run es lab in
    (telemetryCaptureEnabled (lab_world lab') = true -> lab_isRunning lab' = true) /\
    (forall id, lab_currentAssay lab' = Some id ->
       is_Some (assays_get (JStr id) (lab_assays lab'))).
Proof.
  induction es as [|e es IH]; intros lab Hrun Hcur; [done|].
  simpl. destruct e as [r|].
  - destruct (control_step_registry r lab Hrun Hcur) as [H1 H2]. by apply IH.
  - apply IH; [|done]. cbn [lab_step lab_world lab_isRunning].
    change (exec session_inserted (lab_world lab))
      with (capture_step Inserted (lab_world lab)).
    by destruct (inserted_effect (lab_world lab)) as (_ & -> & _).
Qed.

(** X22: whatever requests the assay endpoints (create, start, stop and
    shutdown) serve from start-up, in any order and with the completions of
    the session [INSERT]s arriving at any time between them, the capture
    sessions stay consistent (numbered in order, [stopped_at] exactly on
    the closed ones, the current session and the pending ones open rows),
    capture is enabled only while the system reports that it is running,
    the current assay is one of the registered assays, and no stored
    reading, alert or snapshot is touched. *)
Theorem control_requests_keep_sessions (es : list LabEvent) :
  let lab := lab_run es lab0 in
  controller_consistent (lab_world lab) /\
  (telemetryCaptureEnabled (lab_world lab) = true -> lab_isRunning lab = true) /\
  (forall id, lab_currentAssay lab = Some id ->
     is_Some (assays_get (JStr id) (lab_assays lab))) /\
  store (lab_world lab) = store world0.
Proof.
  intros lab. destruct (lab_run_commands es lab0) as [cs Hw].
  destruct (lab_run_registry es lab0) as [Hrun Hcur]; [done|done|].
  fold lab in Hw, Hrun, Hcur. rewrite Hw.
  split; [apply controller_consistent_run, controller_consistent_start|].
  split; [by rewrite <- Hw|]. split; [exact Hcur|].
  apply capture_run_store.
Qed.


(** X23: an assay is found by the start and stop endpoints only under a
    string id: an assay registered under an id that is no string (a number,
    say, as a JSON body can carry it) does not make any route parameter
    name an assay, so unless a string-keyed assay of that name exists the
    request is answered 404 and changes nothing. *)
Theorem assay_non_string_id_not_found (i n : json) (d v u : option json)
    (createdAt id t1 t2 t3 : string) (lab : Lab) :
  is_str (Some i) = false ->
  assays_get (JStr id) (lab_assays lab) = None ->
  let lab' := (control_step (CreateAssay (Some i) (Some n) d v u createdAt) lab).2 in
  control_step (StartAssay id t1 t2 t3) lab' = (404, lab') /\
  control_step (StopAssay id t1 t2 t3) lab' = (404, lab').
Proof.
  intros Hi Hnone lab'.
  assert (Hget : assays_get (JStr id) (lab_assays lab') = None).
  { subst lab'. simpl.
    destruct (negb (Js.truthy i) || negb (Js.truthy n)); [done|]. simpl.
    induction (lab_assays lab) as [|[k' a'] m IH];
      cbn [assays_get assays_set] in *.
    - by destruct i.
    - destruct (same_key (Some (JStr id)) (Some k')) eqn:Ek; [done|].
      destruct (same_key (Some i) (Some k')) eqn:E0; cbn [assays_get];
        rewrite Ek; auto. }
  simpl. by rewrite Hget.
Qed.

(** * Instances of the further properties *)

Lemma updateFlaskState_snapshot_witness :
  let m := mk_fields "a" "X" "2024-01-01T00:00:00Z"
             (Q2Qc (1 # 1)) (Q2Qc (16 # 10)) (Q2Qc (39 # 1)) in
  let w' := exec (updateFlaskState (JObj m)) world0 in
  same_key (m !! "flask_id") (m !! "flask_id") = true /\
  same_key (Some (JNum (Q2Qc (2 # 1)))) (m !! "flask_id") = false /\
  map_get (Some (JNum (Q2Qc (2 # 1)))) (flaskStates w')
    = map_get (Some (JNum (Q2Qc (2 # 1)))) (flaskStates world0).
Proof.
  intros m w'.
  assert (H1 : same_key (m !! "flask_id") (m !! "flask_id") = true)
    by (vm_compute; reflexivity).
  assert (H2 : same_key (Some (JNum (Q2Qc (2 # 1)))) (m !! "flask_id") = false)
    by (vm_compute; reflexivity).
  split; [exact H1|]. split; [exact H2|].
  exact (proj1 (updateFlaskState_snapshot m world0 _ H1 H2)).
Defined.

Lemma reachable_sessions_well_formed_witness :
  let events := [EvCapture (Open (Some "assay_start") (Some "X")
                              "2024-01-01T00:00:00.000Z");
                 EvMqtt "ankom/X/flask1/telemetry" (Some reading_a)
                   "2024-01-01T00:00:01.000Z";
                 EvCapture Inserted] in
  let w := server_run rt0 events world0 in
  issued_when_drained 0 (capture_commands events) = true /\
  pending_sessions w = [] /\
  current_session_open w.
Proof.
  intros events w.
  split; [reflexivity|]. split; [reflexivity|].
  exact (proj2 (reachable_sessions_well_formed rt0 events) eq_refl eq_refl).
Defined.

Lemma close_rewrites_current_only_witness :
  let events := [EvCapture (Open (Some "assay_start") (Some "X")
                              "2024-01-01T00:00:00.000Z");
                 EvCapture (Open (Some "assay_start") (Some "Y")
                              "2024-01-01T00:00:00.500Z");
                 EvCapture Inserted] in
  let w := server_run rt0 events world0 in
  let row := new_session 0 (Some "assay_start") (Some "X")
               "2024-01-01T00:00:00.000Z" in
  let newest := new_session 1 (Some "assay_start") (Some "Y")
                  "2024-01-01T00:00:00.500Z" in
  tbl_capture_sessions w = [] ++ row :: [newest] /\
  session_id row = 1 /\
  currentCaptureSessionId w = Some 1 /\
  tbl_capture_sessions
    (capture_step (Close (Some "assay_stop") "2024-01-01T02:00:00.000Z") w)
    = [] ++ {| session_id := session_id row;
               session_status := "disabled";
               session_started_at := session_started_at row;
               session_stopped_at := Some "2024-01-01T02:00:00.000Z";
               session_trigger := or_null (Some "assay_stop");
               session_assay_id := session_assay_id row |} :: [newest].
Proof.
  intros events w row newest.
  split; [reflexivity|]. split; [reflexivity|]. split; [reflexivity|].
  exact (close_rewrites_current_only rt0 events (Some "assay_stop")
           "2024-01-01T02:00:00.000Z" [] [newest] row 1 eq_refl eq_refl eq_refl).
Defined.

Lemma validate_accepted_inv_witness :
  validateTelemetryData rt0 alertConfig0 reading_a = Ok true /\
  exists m, reading_a = JObj m /\
    (forall f, f ∈ requiredFields -> exists v, m !! f = Some v /\ v ≠ JNull) /\
    (forall p, ToNumber rt0 (m !! "P_bar_abs") = Some p ->
       (Q2Qc (1 # 2) <= p)%Qc /\ (p <= MAX_PRESSURE)%Qc) /\
    (forall t, ToNumber rt0 (m !! "T_C") = Some t ->
       (temperature_min alertConfig0 <= t)%Qc /\ (t <= temperature_max alertConfig0)%Qc).
Proof.
  assert (H : validateTelemetryData rt0 alertConfig0 reading_a = Ok true)
    by (vm_compute; reflexivity).
  split; [exact H|].
  exact (validate_accepted_inv rt0 alertConfig0 reading_a H).
Defined.



Lemma normalize_lookup_witness :
  let p := JObj (list_to_map [("C", JNum (Q2Qc (39 # 1)));
                              ("°C", JNum (Q2Qc (5 # 1)))]) in
  Js.truthy p = true /\
  Js.typeof p = "object" /\
  exists n, normalizeTelemetryPayload p = JObj n /\
    n !! "T_C" = match Js.spread p !! "T_C" with
                 | Some x => Some x
                 | None => canonical_source (Js.spread p) "T_C"
                 end.
Proof.
  intros p. split; [reflexivity|]. split; [reflexivity|].
  exact (normalize_lookup p "T_C" eq_refl eq_refl).
Defined.

Lemma consecutive_ticks_cover_witness :
  let w1 := csv_export_tick "2024-01-01T00:00:30.000Z" false world_one_row in
  let w2 := csv_export_tick "2024-01-01T00:05:30.000Z" true w1 in
  lastCsvExportAt world_one_row = Some "2023-12-31T23:55:00.000Z" /\
  row_a ∈ tbl_telemetry world_one_row /\
  row_timestamp row_a = Some "2024-01-01T00:00:00Z" /\
  String.leb "2023-12-31T23:55:00.000Z" "2024-01-01T00:00:00Z" = true /\
  String.leb "2024-01-01T00:00:00Z" "2024-01-01T00:05:30.000Z" = true /\
  select_window (lastCsvExportAt world_one_row) "2024-01-01T00:00:30.000Z"
    (tbl_telemetry world_one_row) = [row_a] /\
  csv_out w1 = [] /\
  lastCsvExportAt w1 = Some "2023-12-31T23:55:00.000Z" /\
  exists f, f ∈ csv_out w2 /\ row_a ∈ csv_rows f.
Proof.
  intros w1 w2.
  assert (H1 : lastCsvExportAt world_one_row = Some "2023-12-31T23:55:00.000Z")
    by reflexivity.
  assert (H2 : row_a ∈ tbl_telemetry world_one_row) by apply list_elem_of_here.
  assert (H3 : row_timestamp row_a = Some "2024-01-01T00:00:00Z")
    by (vm_compute; reflexivity).
  assert (H4 : String.leb "2023-12-31T23:55:00.000Z" "2024-01-01T00:00:00Z" = true)
    by (vm_compute; reflexivity).
  assert (H5 : String.leb "2024-01-01T00:00:00Z" "2024-01-01T00:05:30.000Z" = true)
    by (vm_compute; reflexivity).
  split; [exact H1|]. split; [exact H2|]. split; [exact H3|].
  split; [exact H4|]. split; [exact H5|].
  split; [vm_compute; reflexivity|].
  split; [vm_compute; reflexivity|].
  split; [vm_compute; reflexivity|].
  exact (consecutive_ticks_cover world_one_row _ "2024-01-01T00:00:30.000Z" _ _
           false row_a H1 H2 H3 H4 H5).
Defined.

Lemma reachable_capture_status_witness :
  let events := [EvCapture (Open (Some "assay_start") (Some "X")
                              "2024-01-01T00:00:00.000Z");
                 EvCapture Inserted;
                 EvCapture (Close (Some "assay_stop") "2024-01-01T02:00:00.000Z")] in
  let w := server_run rt0 events world0 in
  let row := {| session_id := 1;
                session_status := "disabled";
                session_started_at := "2024-01-01T00:00:00.000Z";
                session_stopped_at := Some "2024-01-01T02:00:00.000Z";
                session_trigger := Some "assay_stop";
                session_assay_id := Some "X" |} in
  issued_when_drained 0 (capture_commands events) = true /\
  pending_sessions w = [] /\
  capture_status w = StatusDisabled (Some row) /\
  session_status row = "disabled" /\ is_Some (session_stopped_at row).
Proof.
  intros events w row.
  assert (E : capture_status w = StatusDisabled (Some row)) by reflexivity.
  pose proof (reachable_capture_status rt0 events) as H.
  cbv zeta in H. fold events w in H. rewrite E in H.
  split; [reflexivity|]. split; [reflexivity|]. split; [exact E|].
  exact (proj2 H (conj eq_refl eq_refl) row eq_refl).
Defined.

(** A reading that arrives after a tick of the exporter, under a timestamp
    before that tick, is stored and is in no file of the later ticks. *)
Lemma late_reading_in_no_file :
  let events := [EvCapture (Open (Some "assay_start") (Some "X")
                              "2023-12-31T23:50:00.000Z");
                 EvCapture Inserted;
                 EvSchedule "2023-12-31T23:55:00.000Z";
                 EvTick "2024-01-01T00:00:30.000Z" true;
                 EvMqtt "ankom/X/flask1/telemetry" (Some reading_a)
                   "2024-01-01T00:00:31.000Z";
                 EvTick "2024-01-01T00:05:30.000Z" true] in
  let w := server_run rt0 events world0 in
  map row_timestamp (tbl_telemetry w) = [Some "2024-01-01T00:00:00Z"] /\
  lastCsvExportAt w = Some "2024-01-01T00:05:30.000Z" /\
  csv_out w = [].
Proof. vm_compute. done. Qed.


Lemma assay_non_string_id_not_found_witness :
  let lab' := (control_step
                 (CreateAssay (Some (JNum (Q2Qc (5 # 1)))) (Some (JStr "rumen A"))
                    None None None "2024-01-01T00:00:00.000Z") lab0).2 in
  is_str (Some (JNum (Q2Qc (5 # 1)))) = false /\
  assays_get (JStr "5") (lab_assays lab0) = None /\
  control_step (StartAssay "5" "2024-01-01T00:01:00.000Z"
                  "2024-01-01T00:01:00.001Z" "2024-01-01T00:01:00.002Z") lab'
    = (404, lab').
Proof.
  intros lab'. split; [reflexivity|]. split; [reflexivity|].
  exact (proj1 (assay_non_string_id_not_found (JNum (Q2Qc (5 # 1))) (JStr "rumen A")
                  None None None "2024-01-01T00:00:00.000Z" "5"
                  "2024-01-01T00:01:00.000Z" "2024-01-01T00:01:00.001Z"
                  "2024-01-01T00:01:00.002Z" lab0 eq_refl eq_refl)).
Defined.
